(** * Agent collaboration layer: presence, mailbox, channel inbox, bridge, sync

    A shallow embedding of
      - [scripts/agent_comms.py]     (presence store, mailbox, channel inbox,
                                      agent loop, command line),
      - [scripts/telegram_bridge.py] (inbound poll and routing, outbox, the
                                      process and its PID file),
      - [scripts/nsync.py]           ([NSyncHandler]: [sync], the debounced
                                      handler of events, the links to the
                                      rules),
    followed by the properties of these functions.

    Conventions of the embedding.
      - Time: a reading of [time.time()] is a whole number of microseconds
        ([Z]); the thresholds 60 and 120 of the source are therefore
        [60 * 1000000] and [120 * 1000000], and [int(time.time() * 1000)] is
        the reading divided by 1000, which is what the floating-point
        product of the source gives for the readings of the present epoch
        ([present_epoch]).  The successive readings a run obtains
        are given by the environment ([clock]); the store counts the
        readings taken so far ([ticks]).
      - Files: a directory is a finite map from entry names to files; a file
        either holds a JSON document or text that [json.load] rejects.  The
        directories exist and are writable, so [open], [unlink] and [stat]
        succeed on the entries that are listed.  Names are compared exactly,
        as on the POSIX host; only [glob] folds letter case when
        [os.name == 'nt'].  An entry name is a file name: the functions
        build names from the identity of the process, from the recipient of
        a message and from the target of an instruction, and the embedding
        covers the texts of which [open(..., "w")] makes an entry of the
        directory.  Where a path built from a text with a path separator
        leads depends on the tree around the store, which is not part of
        it: statements about names built from data say which texts they
        cover.
      - Replication: all hosts act on one shared store.  The subprocess
        [mcp.py nsync sync], whose result the callers discard, is recorded in
        the trace of the store and leaves the files as they are.
      - Console output is not recorded, except for the warning of
        [listen_for_messages]; the console takes every text, so [print]
        does not raise. *)

From stdpp Require Import gmap strings list fin_maps pretty.
From Stdlib Require Import ZArith Lia Ascii String.

Open Scope Z_scope.

(** ** Python strings *)

Module PyStr.

(** [str.lower] on the ASCII range; other bytes are left as they are. *)
Definition lower_ascii (c : ascii) : ascii :=
  match c with
  | "A" => "a" | "B" => "b" | "C" => "c" | "D" => "d" | "E" => "e"
  | "F" => "f" | "G" => "g" | "H" => "h" | "I" => "i" | "J" => "j"
  | "K" => "k" | "L" => "l" | "M" => "m" | "N" => "n" | "O" => "o"
  | "P" => "p" | "Q" => "q" | "R" => "r" | "S" => "s" | "T" => "t"
  | "U" => "u" | "V" => "v" | "W" => "w" | "X" => "x" | "Y" => "y"
  | "Z" => "z" | _ => c
  end%char.

Fixpoint lower (s : string) : string :=
  match s with
  | "" => ""
  | String c s' => String (lower_ascii c) (lower s')
  end.

(** The ASCII characters [str.strip] and [str.split] treat as white space. *)
Definition is_space (c : ascii) : bool :=
  match c with
  | "009" | "010" | "011" | "012" | "013"
  | "028" | "029" | "030" | "031" | " " => true
  | _ => false
  end%char.

Fixpoint lstrip (s : string) : string :=
  match s with
  | "" => ""
  | String c s' => if is_space c then lstrip s' else s
  end.

(** [rstrip], written as one right-to-left pass: a space is dropped when
    everything after it has been dropped. *)
Fixpoint rstrip (s : string) : string :=
  match s with
  | "" => ""
  | String c s' =>
      match rstrip s' with
      | "" => if is_space c then "" else String c ""
      | r => String c r
      end
  end.

Definition strip (s : string) : string := rstrip (lstrip s).

(** [s.startswith(p)], as the remainder of [s] after [p] when there is one. *)
Fixpoint strip_prefix (p s : string) : option string :=
  match p, s with
  | "", _ => Some s
  | String _ _, "" => None
  | String a p', String b s' =>
      if Ascii.eqb a b then strip_prefix p' s' else None
  end.

Definition startswith (p s : string) : bool :=
  match strip_prefix p s with Some _ => true | None => false end.

Fixpoint endswith (suf s : string) : bool :=
  String.eqb s suf ||
  match s with
  | "" => false
  | String _ s' => endswith suf s'
  end.

(** [s.split(":", 1)]: the text before and after the first colon, if any. *)
Fixpoint split_colon (s : string) : option (string * string) :=
  match s with
  | "" => None
  | String c s' =>
      if Ascii.eqb c ":" then Some ("", s')
      else match split_colon s' with
           | Some (a, b) => Some (String c a, b)
           | None => None
           end
  end.

(** [s.replace("to ", "")]: every occurrence, left to right. *)
Fixpoint remove_to (s : string) : string :=
  match s with
  | String "t" (String "o" (String " " rest)) => remove_to rest
  | String c s' => String c (remove_to s')
  | "" => ""
  end.

(** [not s.split()]: the text has no word. *)
Fixpoint blank (s : string) : bool :=
  match s with
  | "" => true
  | String c s' => is_space c && blank s'
  end.

(** [s[n:]] *)
Fixpoint drop (n : nat) (s : string) : string :=
  match n, s with
  | O, _ => s
  | S n', String _ s' => drop n' s'
  | S _, "" => ""
  end.

End PyStr.

(** ** Python values read from and written to JSON files *)

(** [JFloat us] is a float that stands for a clock reading of [us]
    microseconds; [JInt n] is a Python [int].  The floats are the finite
    ones, which are all that [json.dump] is given by these functions. *)
#[warnings="-register-all"]
Inductive json :=
| JNull
| JBool (b : bool)
| JInt (n : Z)
| JFloat (us : Z)
| JStr (s : string)
| JArr (items : list json)
| JObj (fields : list (string * json)).

Inductive exn :=
| KeyError (key : string)
| TypeError
| AttributeError
| JSONDecodeError
| OSError
| OverflowError
| KeyboardInterrupt.

(** [except Exception] catches everything but [KeyboardInterrupt]. *)
Definition is_Exception (e : exn) : bool :=
  match e with KeyboardInterrupt => false | _ => true end.

(** The outcome of a computation: a value, an exception on its way up, or
    [Pending] when the loop it entered is still running after the cycles
    that were allotted to it. *)
Inductive res (A : Type) :=
| Ok (a : A)
| Raise (e : exn)
| Pending.
Arguments Ok {A} a.
Arguments Raise {A} e.
Arguments Pending {A}.

(** A Python [dict] with string keys, in insertion order. *)
Fixpoint dict_get {V} (k : string) (d : list (string * V)) : option V :=
  match d with
  | [] => None
  | (k', v) :: d' => if String.eqb k k' then Some v else dict_get k d'
  end.

Fixpoint dict_set {V} (k : string) (v : V) (d : list (string * V)) : list (string * V) :=
  match d with
  | [] => [(k, v)]
  | (k', v') :: d' =>
      if String.eqb k k' then (k, v) :: d' else (k', v') :: dict_set k v d'
  end.

(** [v[k]] for a string key [k]. *)
Definition py_getitem (v : json) (k : string) : res json :=
  match v with
  | JObj d => match dict_get k d with Some x => Ok x | None => Raise (KeyError k) end
  | _ => Raise TypeError
  end.

(** [v.get(k, default)] *)
Definition py_get (v : json) (k : string) (default : json) : res json :=
  match v with
  | JObj d => match dict_get k d with Some x => Ok x | None => Ok default end
  | _ => Raise AttributeError
  end.

Definition second : Z := 1000000.

(** Whether the [int] [n] converts to a float: it does when it rounds to a
    float below [2 ^ 1024]. *)
Definition float_range (n : Z) : bool := Z.abs n <? 2 ^ 1024 - 2 ^ 970.

(** The right operand of [time.time() - v], in microseconds; an [int] that
    does not convert to a float makes the subtraction raise
    [OverflowError]. *)
Definition py_seconds (v : json) : res Z :=
  match v with
  | JInt n => if float_range n then Ok (n * second) else Raise OverflowError
  | JFloat us => Ok us
  | JBool b => Ok (if b then second else 0)
  | _ => Raise TypeError
  end.

(** ** Computations over a state *)

Definition ST (S A : Type) : Type := S -> res A * S.

Definition ret {S A} (a : A) : ST S A := fun w => (Ok a, w).

Definition raise {S A} (e : exn) : ST S A := fun w => (Raise e, w).

Definition pending {S A} : ST S A := fun w => (Pending, w).

Definition bind {S A B} (m : ST S A) (k : A -> ST S B) : ST S B :=
  fun w =>
    match m w with
    | (Ok a, w') => k a w'
    | (Raise e, w') => (Raise e, w')
    | (Pending, w') => (Pending, w')
    end.

Notation "x <- m ;; k" := (bind m (fun x => k))
  (at level 100, m at next level, right associativity).
Notation "m ;;; k" := (bind m (fun _ => k))
  (at level 100, right associativity).

Definition lift {S A} (r : res A) : ST S A := fun w => (r, w).

(** [try: m  except Exception: h] *)
Definition try_exception {S A} (m : ST S A) (h : exn -> ST S A) : ST S A :=
  fun w =>
    match m w with
    | (Raise e, w') => if is_Exception e then h e w' else (Raise e, w')
    | r => r
    end.

(** [try: m  except: h] *)
Definition try_all {S A} (m : ST S A) (h : ST S A) : ST S A :=
  fun w =>
    match m w with
    | (Raise e, w') => h w'
    | r => r
    end.

(** [try: m  except KeyboardInterrupt: h] *)
Definition try_interrupt {S A} (m : ST S A) (h : ST S A) : ST S A :=
  fun w =>
    match m w with
    | (Raise KeyboardInterrupt, w') => h w'
    | r => r
    end.

(** A [for] loop that carries the variables it updates. *)
Fixpoint for_each {S A B} (body : B -> A -> ST S B) (acc : B) (l : list A) : ST S B :=
  match l with
  | [] => ret acc
  | x :: l' => acc' <- body acc x ;; for_each body acc' l'
  end.

(** [while True: body], for at most [fuel] rounds. *)
Fixpoint while_true {S} (fuel : nat) (body : ST S unit) : ST S unit :=
  match fuel with
  | O => pending
  | S n => body ;;; while_true n body
  end.

(** ** The shared store *)

Inductive fdata :=
| Parsed (v : json)
| Corrupt.

Record file := File { f_data : fdata; f_mtime : Z }.

Inductive event :=
| EvSync
| EvWarn (name : string).

(** A configured or sent identifier as [str()] renders it. *)
Inductive scalar :=
| SNone
| SInt (n : Z)
| SStr (s : string).

Definition scalar_str (v : scalar) : string :=
  match v with
  | SNone => "None"
  | SInt n => pretty n
  | SStr s => s
  end.

(** [telegram_config.json] *)
Record bridge_config := Config {
  bot_token : string;
  chat_id : scalar;
  last_update_id : option Z }.

(** [comms] is [.nsync_agents], [mailbox] its [messages] directory, [inbox]
    its [telegram_inbox] and [outbox] its [telegram_outbox]. *)
Record world := World {
  comms : gmap string file;
  mailbox : gmap string file;
  inbox : gmap string file;
  outbox : gmap string file;
  config_file : option bridge_config;
  ticks : nat;
  trace : list event }.

Inductive dir := Comms | Mailbox | Inbox | Outbox.

Definition entries (d : dir) (w : world) : gmap string file :=
  match d with
  | Comms => comms w
  | Mailbox => mailbox w
  | Inbox => inbox w
  | Outbox => outbox w
  end.

Definition set_entries (d : dir) (m : gmap string file) (w : world) : world :=
  match d with
  | Comms => World m (mailbox w) (inbox w) (outbox w) (config_file w) (ticks w) (trace w)
  | Mailbox => World (comms w) m (inbox w) (outbox w) (config_file w) (ticks w) (trace w)
  | Inbox => World (comms w) (mailbox w) m (outbox w) (config_file w) (ticks w) (trace w)
  | Outbox => World (comms w) (mailbox w) (inbox w) m (config_file w) (ticks w) (trace w)
  end.

(** The files of a store: everything but the count of clock readings and the
    trace. *)
Definition same_files (w1 w2 : world) : Prop :=
  comms w1 = comms w2 /\ mailbox w1 = mailbox w2 /\ inbox w1 = inbox w2 /\
  outbox w1 = outbox w2 /\ config_file w1 = config_file w2.

(** Computations over the store. *)
Abbreviation M := (ST world).

Definition log (ev : event) : M unit :=
  fun w => (Ok tt, World (comms w) (mailbox w) (inbox w) (outbox w)
                         (config_file w) (ticks w) (trace w ++ [ev])).

(** ** The environment of a process *)

(** What the agent loop asks of its execution collaborators: the subprocesses
    [mcp.py comms status] and [mcp.py nsync run <script>], and the IDE
    automation module. *)
Inductive request :=
| CommsStatus
| NsyncRun (script : string)
| Antigravity (text : json).

(** A collaborator returns text, fails with an [Exception] whose [str()] is
    [msg], or is interrupted from the keyboard. *)
Inductive outcome :=
| Output (stdout : string)
| Fails (msg : string)
| Interrupted.

Record env := Env {
  os_nt : bool;                       (* os.name == 'nt' *)
  env_identity : option string;       (* the variable AGENT_IDENTITY *)
  sock_hostname : string;             (* socket.gethostname() *)
  clock : nat -> Z;                   (* the n-th reading of the clock *)
  ctime : Z -> string;                (* time.ctime of a reading *)
  repr_other : json -> string;        (* str() of a float or a container *)
  ag_installed : bool;                (* antigravity_automation.py exists *)
  collaborator : request -> world -> outcome * world;
  sigint : nat -> bool                (* Ctrl-C during the sleep that follows
                                         the n-th reading of the clock *)
}.

Definition tick (w : world) : world :=
  World (comms w) (mailbox w) (inbox w) (outbox w) (config_file w)
        (S (ticks w)) (trace w).

Definition time_time (e : env) : M Z :=
  fun w => (Ok (clock e (ticks w)), tick w).

(** [time.sleep]: where the process spends its time, and where an interrupt
    from the keyboard reaches it. *)
Definition time_sleep (e : env) : M unit :=
  fun w => if sigint e (ticks w) then (Raise KeyboardInterrupt, w) else (Ok tt, w).

(** [str(v)], as an f-string renders a value. *)
Definition py_str (e : env) (v : json) : string :=
  match v with
  | JStr s => s
  | JInt n => pretty n
  | JNull => "None"
  | JBool true => "True"
  | JBool false => "False"
  | _ => repr_other e v
  end.

(** ** Files *)

(** [with open(f, "r") as mf: json.load(mf)] *)
Definition read_json (d : dir) (name : string) : M json :=
  fun w =>
    match entries d w !! name with
    | Some (File (Parsed v) _) => (Ok v, w)
    | Some (File Corrupt _) => (Raise JSONDecodeError, w)
    | None => (Raise OSError, w)
    end.

(** [with open(f, "w") as f: json.dump(v, f)], for a [name] that is a file
    name; the file system stamps the entry with its own reading of the
    clock. *)
Definition write_json (e : env) (d : dir) (name : string) (v : json) : M unit :=
  fun w =>
    (Ok tt,
     tick (set_entries d (<[name := File (Parsed v) (clock e (ticks w))]> (entries d w)) w)).

Definition unlink (d : dir) (name : string) : M unit :=
  fun w =>
    match entries d w !! name with
    | Some _ => (Ok tt, set_entries d (delete name (entries d w)) w)
    | None => (Raise OSError, w)
    end.

(** [f.stat().st_mtime] *)
Definition stat_mtime (d : dir) (name : string) : M Z :=
  fun w =>
    match entries d w !! name with
    | Some f => (Ok (f_mtime f), w)
    | None => (Raise OSError, w)
    end.

Definition path_exists (d : dir) (name : string) : M bool :=
  fun w => (Ok (bool_decide (is_Some (entries d w !! name))), w).

Definition fold_case (nt : bool) (s : string) : string :=
  if nt then PyStr.lower s else s.

(** Whether [name] matches the pattern [pre*suf], for a [pre] and a [suf]
    that hold no glob metacharacter ([*], [?], [[]) and no path separator.
    On Windows the match ignores letter case. *)
Definition glob_star (nt : bool) (pre suf name : string) : bool :=
  match PyStr.strip_prefix (fold_case nt pre) (fold_case nt name) with
  | Some rest => PyStr.endswith (fold_case nt suf) rest
  | None => false
  end.

Definition names (m : gmap string file) : list string := (map_to_list m).*1.

(** [d.glob(f"{pre}*{suf}")]: the listing is taken once, before the loop
    over it starts. *)
Definition glob (e : env) (d : dir) (pre suf : string) : M (list string) :=
  fun w => (Ok (filter (fun n => glob_star (os_nt e) pre suf n) (names (entries d w))), w).

(** [Path.stem] of a name that matches [*.json]: the name without its last
    suffix, and the whole name when its only dot comes first. *)
Definition stem (name : string) : string :=
  if (String.length name =? 5)%nat then name
  else String.substring 0 (String.length name - 5) name.

(** The subprocess [mcp.py nsync sync]; its callers ignore how it ends. *)
Definition nsync_sync : M unit := log EvSync.

(** ** [agent_comms.py] *)

Definition get_hostname (e : env) : string :=
  match env_identity e with
  | Some (String c s) => String c s
  | _ => sock_hostname e
  end.

(** [os.getenv("AGENT_IDENTITY", hostname)] *)
Definition agent_identity (e : env) : string :=
  match env_identity e with
  | Some s => s
  | None => get_hostname e
  end.

Module AgentPresence.

Definition record (e : env) (host : string) (now seen : Z) (status task : string) : json :=
  JObj [("hostname", JStr host); ("timestamp", JFloat now); ("status", JStr status);
        ("current_task", JStr task); ("last_seen", JStr (ctime e seen))].

Definition update (e : env) (status task : string) : M json :=
  let presence_file := get_hostname e +:+ ".json" in
  now <- time_time e ;;
  seen <- time_time e ;;
  let data := record e (get_hostname e) now seen status task in
  write_json e Comms presence_file data ;;;
  nsync_sync ;;;
  ret data.

Definition get_remote_status (e : env) : M (list (string * json)) :=
  files <- glob e Comms "" ".json" ;;
  for_each (fun remote_status f =>
      if bool_decide (stem f <> get_hostname e) then
        try_all (v <- read_json Comms f ;; ret (dict_set (stem f) v remote_status))
                (ret remote_status)
      else ret remote_status)
    [] files.

End AgentPresence.

Definition message_file (recipient sender : string) (msg_id : Z) : string :=
  recipient +:+ "_" +:+ sender +:+ "_" +:+ pretty msg_id +:+ ".json".

Definition send_message (e : env) (recipient msg_type : string) (content : json) : M string :=
  now <- time_time e ;;
  let msg_id := Z.quot now 1000 in
  let msg_file := message_file recipient (get_hostname e) msg_id in
  stamp <- time_time e ;;
  let payload :=
    JObj [("id", JInt msg_id); ("from", JStr (get_hostname e)); ("to", JStr recipient);
          ("type", JStr msg_type); ("content", content); ("timestamp", JFloat stamp)] in
  write_json e Mailbox msg_file payload ;;;
  nsync_sync ;;;
  ret msg_file.

(** The body of the loop of [listen_for_messages].  The handler sees
    [messages] as the body left it: extended when the exception comes from
    [unlink], as it was when it comes from the read. *)
Definition receive_file (messages : list json) (f : string) : M (list json) :=
  try_exception
    (msg <- read_json Mailbox f ;;
     try_exception (unlink Mailbox f ;;; ret (messages ++ [msg]))
                   (fun _ => log (EvWarn f) ;;; ret (messages ++ [msg])))
    (fun _ => log (EvWarn f) ;;; ret messages).

Definition listen_for_messages (e : env) : M (list json) :=
  let hostname := get_hostname e in
  files <- glob e Mailbox (hostname +:+ "_") ".json" ;;
  for_each receive_file [] files.

(** The body of the loop over [remotes.items()] in the fallback pass; the
    value carried is [quasar_active]. *)
Definition quasar_seen (e : env) (quasar_active : bool) (record : string * json) : M bool :=
  let '(h, d) := record in
  if String.eqb (PyStr.lower h) "quasar" then
    now <- time_time e ;;
    ts <- lift (py_get d "timestamp" (JInt 0)) ;;
    stamp <- lift (py_seconds ts) ;;
    ret (if now - stamp <? 120 * second then true else quasar_active)
  else ret quasar_active.

(** Some record keyed [quasar] is younger than 120 seconds. *)
Definition quasar_active (e : env) (remotes : list (string * json)) : M bool :=
  for_each (quasar_seen e) false remotes.

(** The value of [is_primary] for an item that is older than 60 seconds. *)
Definition is_primary (e : env) : M bool :=
  if String.eqb (PyStr.lower (get_hostname e)) "quasar" then ret true
  else
    remotes <- AgentPresence.get_remote_status e ;;
    active <- quasar_active e remotes ;;
    ret (negb active).

(** The body of the first loop of [listen_for_telegram_messages]. *)
Definition take_own (messages : list json) (f : string) : M (list json) :=
  try_all
    (msg <- read_json Inbox f ;;
     try_all (unlink Inbox f ;;; ret (messages ++ [msg]))
             (ret (messages ++ [msg])))
    (ret messages).

Definition priority_pass (e : env) : M (list json) :=
  files <- glob e Inbox (agent_identity e +:+ "_") ".json" ;;
  for_each take_own [] files.

(** The body of the second loop, over the items of the shared slot. *)
Definition take_shared (e : env) (messages : list json) (f : string) : M (list json) :=
  try_all
    (mtime <- stat_mtime Inbox f ;;
     now <- time_time e ;;
     let age := now - mtime in
     if 60 * second <? age then
       primary <- is_primary e ;;
       if (primary : bool) then
         msg <- read_json Inbox f ;;
         try_all (unlink Inbox f ;;; ret (messages ++ [msg]))
                 (ret (messages ++ [msg]))
       else ret messages
     else ret messages)
    (ret messages).

Definition fallback_pass (e : env) (messages : list json) : M (list json) :=
  files <- glob e Inbox "Antigravity_" ".json" ;;
  for_each (take_shared e) messages files.

Definition listen_for_telegram_messages (e : env) : M (list json) :=
  messages <- priority_pass e ;;
  if String.eqb (PyStr.lower (agent_identity e)) "antigravity" then ret messages
  else fallback_pass e messages.

Definition outbox_file (msg_id : Z) : string := "out_" +:+ pretty msg_id +:+ ".json".

Definition notify_user_telegram (e : env) (text : string) : M unit :=
  now <- time_time e ;;
  let msg_id := Z.quot now 1000 in
  stamp <- time_time e ;;
  write_json e Outbox (outbox_file msg_id)
    (JObj [("text", JStr text); ("from", JStr (get_hostname e)); ("timestamp", JFloat stamp)]).

Definition show_status (e : env) : M unit :=
  let hostname := get_hostname e in
  let presence_file := hostname +:+ ".json" in
  present <- path_exists Comms presence_file ;;
  local <- (if (present : bool) then read_json Comms presence_file
            else AgentPresence.update e "active" "monitoring") ;;
  lift (py_get local "hostname" (JStr hostname)) ;;;
  lift (py_get local "status" (JStr "unknown")) ;;;
  lift (py_get local "current_task" (JStr "unknown")) ;;;
  lift (py_get local "last_seen" (JStr "unknown")) ;;;
  remotes <- AgentPresence.get_remote_status e ;;
  for_each (fun _ '(host, data) =>
      now <- time_time e ;;
      ts <- lift (py_getitem data "timestamp") ;;
      lift (py_seconds ts) ;;;
      lift (py_getitem data "status") ;;;
      lift (py_getitem data "current_task") ;;;
      ret tt)
    tt remotes.

Definition ask (e : env) (req : request) : M outcome :=
  fun w => let (o, w') := collaborator e req w in (Ok o, w').

Definition newline : string := String "010" "".

(** [handle_telegram_instruction]; each [try ... except Exception as e]
    of the source encloses one call of a collaborator, whose three outcomes
    are the three branches below. *)
Definition handle_telegram_instruction (e : env) (text : json) : M string :=
  let identity := PyStr.lower (default "" (env_identity e)) in
  if String.eqb identity "antigravity" then
    if ag_installed e then
      o <- ask e (Antigravity text) ;;
      match o with
      | Output "" => ret "[ERROR] No response from Antigravity"
      | Output response => ret response
      | Fails msg => ret ("Error routing to Antigravity: " +:+ msg)
      | Interrupted => raise KeyboardInterrupt
      end
    else ret "Antigravity automation module not found. Install with: python antigravity_automation.py install"
  else
    match text with
    | JStr s =>
        if PyStr.blank s then ret "Empty command"
        else if String.eqb (PyStr.lower s) "status" then
          o <- ask e CommsStatus ;;
          match o with
          | Output stdout => ret stdout
          | Fails msg => ret ("Error executing task: " +:+ msg)
          | Interrupted => raise KeyboardInterrupt
          end
        else if PyStr.startswith "run " (PyStr.lower s) then
          o <- ask e (NsyncRun (PyStr.strip (PyStr.drop 4 s))) ;;
          match o with
          | Output stdout => ret stdout
          | Fails msg => ret ("Error executing task: " +:+ msg)
          | Interrupted => raise KeyboardInterrupt
          end
        else ret ("Received: " +:+ s +:+ ". (Smart execution for this command pending development)")
    | _ => raise AttributeError
    end.

Definition is_task (type : json) : bool :=
  match type with
  | JStr t => String.eqb t "task" || String.eqb t "instruction"
  | _ => false
  end.

(** The body of [for m in msgs]. *)
Definition handle_message (e : env) (m : json) : M unit :=
  sender <- lift (py_getitem m "from") ;;
  type <- lift (py_getitem m "type") ;;
  if is_task type then
    content <- lift (py_getitem m "content") ;;
    task_text <- lift (py_get content "text" (JStr "")) ;;
    result <- handle_telegram_instruction e task_text ;;
    send_message e (py_str e sender) "result" (JObj [("text", JStr result)]) ;;;
    ret tt
  else ret tt.

(** The body of [for tm in t_msgs]. *)
Definition handle_telegram (e : env) (tm : json) : M unit :=
  text <- lift (py_getitem tm "text") ;;
  result <- handle_telegram_instruction e text ;;
  notify_user_telegram e
    ("Result for '" +:+ py_str e text +:+ "':" +:+ newline +:+ result).

(** One round of [while True]. *)
Definition autonomous_cycle (e : env) : M unit :=
  msgs <- listen_for_messages e ;;
  for_each (fun _ m => handle_message e m) tt msgs ;;;
  t_msgs <- listen_for_telegram_messages e ;;
  for_each (fun _ tm => handle_telegram e tm) tt t_msgs ;;;
  time_sleep e ;;;
  AgentPresence.update e "active" "listening for team tasks" ;;;
  ret tt.

Definition autonomous_loop (e : env) (fuel : nat) : M unit :=
  AgentPresence.update e "active" "autonomous collaboration" ;;;
  try_interrupt (while_true fuel (autonomous_cycle e)) (ret tt).

(** [main()] for [sys.argv[1:] = argv]; [fuel] bounds the rounds of
    [collaborate]. *)
Definition main (e : env) (fuel : nat) (argv : list string) : M Z :=
  match argv with
  | [] => ret 0
  | cmd :: args =>
      if String.eqb cmd "status" then show_status e ;;; ret 0
      else if String.eqb cmd "send" && (3 <=? List.length args)%nat then
        match args with
        | host :: type :: words =>
            send_message e host type (JObj [("text", JStr (String.concat " " words))]) ;;;
            ret 0
        | _ => ret 0
        end
      else if String.eqb cmd "listen" then
        msgs <- listen_for_messages e ;;
        for_each (fun _ m =>
            lift (py_getitem m "from") ;;;
            lift (py_getitem m "type") ;;;
            lift (py_getitem m "content") ;;;
            ret tt)
          tt msgs ;;;
        ret 0
      else if String.eqb cmd "ping" && negb (List.length args =? 0)%nat then
        match args with
        | host :: _ =>
            remotes <- AgentPresence.get_remote_status e ;;
            match dict_get host remotes with
            | Some data =>
                now <- time_time e ;;
                ts <- lift (py_getitem data "timestamp") ;;
                stamp <- lift (py_seconds ts) ;;
                if now - stamp <? 60 * second then ret 0 else ret 1
            | None => ret 1
            end
        | [] => ret 0
        end
      else if String.eqb cmd "heartbeat" && (2 <=? List.length args)%nat then
        match args with
        | status :: task :: _ => AgentPresence.update e status task ;;; ret 0
        | _ => ret 0
        end
      else if String.eqb cmd "collaborate" then autonomous_loop e fuel ;;; ret 0
      else ret 0
  end.

(** The status with which [sys.exit(main())] ends the process: the value
    returned, 1 after an uncaught exception, 130 after an interrupt. *)
Definition exit_status (r : res Z) : option Z :=
  match r with
  | Ok code => Some code
  | Raise KeyboardInterrupt => Some 130
  | Raise _ => Some 1
  | Pending => None
  end.

(** ** [telegram_bridge.py] *)

(** An update of the Bot API, with the fields the bridge reads:
    [update["update_id"]], [update.get("message", {})], and of the message
    [.get("text", "")] and [.get("from", {}).get("id")]. *)
Record tg_message := TgMessage {
  msg_text : option string;
  msg_from_id : option Z }.

Record tg_update := TgUpdate {
  update_id : Z;
  message : option tg_message }.

Definition update_text (u : tg_update) : string :=
  match message u with
  | Some m => default "" (msg_text m)
  | None => ""
  end.

Definition update_from_id (u : tg_update) : scalar :=
  match message u with
  | Some (TgMessage _ (Some n)) => SInt n
  | _ => SNone
  end.

(** What [requests.get] and [r.json()] produce: an exception, or a status
    code with the list under ["result"]. *)
Inductive response :=
| NetworkError
| Http (status : Z) (result : list tg_update).

Module PyStrMore.

(** [sub in s] *)
Fixpoint contains (sub s : string) : bool :=
  PyStr.startswith sub s ||
  match s with
  | "" => false
  | String _ s' => contains sub s'
  end.

End PyStrMore.

(** The target and the text [handle_instruction] arrives at. *)
Definition route (hostname text : string) : string * string :=
  let '(target_host, text) :=
    if PyStr.startswith "to " (PyStr.lower text) then
      match PyStr.split_colon text with
      | Some (before, after) =>
          (PyStr.lower (PyStr.strip (PyStr.remove_to before)), PyStr.strip after)
      | None => (PyStr.lower hostname, text)
      end
    else (PyStr.lower hostname, text) in
  if PyStr.startswith "to antigravity" (PyStr.lower text)
     || PyStr.startswith "to assistant" (PyStr.lower text) then
    ("Antigravity",
     match PyStr.split_colon text with
     | Some (_, after) => PyStr.strip after
     | None => text
     end)
  else (target_host, text).

Definition inbox_file (target_host : string) (msg_id : Z) : string :=
  target_host +:+ "_" +:+ pretty msg_id +:+ ".json".

Definition handle_instruction (e : env) (text : string) : M unit :=
  let '(target_host, text) := route (get_hostname e) text in
  now <- time_time e ;;
  let msg_id := Z.quot now 1000 in
  stamp <- time_time e ;;
  write_json e Inbox (inbox_file target_host msg_id)
    (JObj [("text", JStr text); ("timestamp", JFloat stamp)]).

(** The loop that opens [poll_telegram] on a host that is not Windows: a
    record of Quasar, or of a host named after Windows, is younger than 120
    seconds. *)
Definition primary_seen (e : env) : M bool :=
  remotes <- AgentPresence.get_remote_status e ;;
  for_each (fun seen '(host, data) =>
      if (seen : bool) then ret true
      else
        name <- lift (py_get data "hostname" (JStr "")) ;;
        is_quasar <- match name with
                     | JStr s => ret (String.eqb (PyStr.lower s) "quasar")
                     | _ => raise AttributeError
                     end ;;
        if (is_quasar : bool) || PyStrMore.contains "window" (PyStr.lower host) then
          now <- time_time e ;;
          ts <- lift (py_get data "timestamp" (JInt 0)) ;;
          stamp <- lift (py_seconds ts) ;;
          ret (now - stamp <? 120 * second)
        else ret false)
    false remotes.

Definition save_config (c : bridge_config) : M unit :=
  fun w => (Ok tt, World (comms w) (mailbox w) (inbox w) (outbox w) (Some c)
                         (ticks w) (trace w)).

Definition authorized (config : bridge_config) (u : tg_update) : bool :=
  String.eqb (scalar_str (update_from_id u)) (scalar_str (chat_id config)).

(** Whether [poll_telegram] returns before polling: never on Windows. *)
Definition poll_gate (e : env) : M bool :=
  if os_nt e then ret false else primary_seen e.

(** The body of [for update in updates]; the value carried is
    [last_update]. *)
Definition route_update (e : env) (config : bridge_config) (last_update : Z)
    (update : tg_update) : M Z :=
  (if authorized config update
   then handle_instruction e (update_text update)
   else ret tt) ;;;
  ret (update_id update).

(** [poll_telegram(config)], where [api offset] is the answer of the
    endpoint to [getUpdates?offset=...]; the result is [config] as the call
    leaves it. *)
Definition poll_telegram (e : env) (api : Z -> response) (config : bridge_config)
  : M bridge_config :=
  skip <- poll_gate e ;;
  if (skip : bool) then ret config
  else
    let last_update := default 0 (last_update_id config) in
    try_exception
      (match api (last_update + 1) with
       | NetworkError => raise OSError
       | Http status updates =>
           if status =? 200 then
             last_update <- for_each (route_update e config) last_update updates ;;
             let config := Config (bot_token config) (chat_id config) (Some last_update) in
             save_config config ;;;
             ret config
           else ret config
       end)
      (fun _ => ret config).

(** ** [nsync.py]: [NSyncHandler.sync] *)

Module NSync.

(** The calls [sync] makes, in the order of the source: [ensure_rules_links],
    [os.chdir], and the four [subprocess.run] of git. *)
Inductive step :=
| EnsureRulesLinks
| Chdir
| GitAdd
| GitCommit
| GitPullRebase
| GitPush.

(** A call returns, a subprocess with an exit code, or raises. *)
Inductive step_outcome :=
| Returned (code : Z)
| Raised (ex : exn).

Inductive line :=
| SyncComplete
| SyncFailed (ex : exn).

(** The calls started so far and the lines printed so far. *)
Record run_state := RunState {
  started : list step;
  printed : list line }.

Definition call (oracle : step -> step_outcome) (s : step) : ST run_state Z :=
  fun st =>
    let st' := RunState (started st ++ [s]) (printed st) in
    match oracle s with
    | Returned code => (Ok code, st')
    | Raised ex => (Raise ex, st')
    end.

Definition print (l : line) : ST run_state unit :=
  fun st => (Ok tt, RunState (started st) (printed st ++ [l])).

(** [subprocess.run] is called without [check=True]: the exit code it
    returns is not looked at. *)
Definition sync (oracle : step -> step_outcome) : ST run_state unit :=
  call oracle EnsureRulesLinks ;;;
  try_exception
    (call oracle Chdir ;;;
     call oracle GitAdd ;;;
     call oracle GitCommit ;;;
     call oracle GitPullRebase ;;;
     call oracle GitPush ;;;
     print SyncComplete)
    (fun ex => print (SyncFailed ex)).

Definition fresh : run_state := RunState [] [].

Definition order : list step :=
  [EnsureRulesLinks; Chdir; GitAdd; GitCommit; GitPullRebase; GitPush].

End NSync.

(** ** Notions used in the statements *)

(** A call of the replication cycle fails: it raises, or its subprocess
    ends with a status other than 0. *)
Definition step_fails (o : NSync.step_outcome) : Prop :=
  match o with
  | NSync.Returned code => code <> 0
  | NSync.Raised _ => True
  end.

(** A host identifier: a non-empty text of letters, digits, [-] and [.] that
    starts with a letter or a digit, as host names do.  Such a text holds no glob metacharacter, no
    path separator, no underscore, no colon and no white space, so that
    [glob_star] is the [glob] of the source on patterns built from it. *)
Definition ident_char (c : ascii) : bool :=
  let n := nat_of_ascii c in
  ((48 <=? n) && (n <=? 57) || (65 <=? n) && (n <=? 90) || (97 <=? n) && (n <=? 122)
   || (n =? 45) || (n =? 46))%nat.

Fixpoint all_chars (P : ascii -> bool) (s : string) : bool :=
  match s with
  | "" => true
  | String c s' => P c && all_chars P s'
  end.

Definition alnum_char (c : ascii) : bool :=
  let n := nat_of_ascii c in
  ((48 <=? n) && (n <=? 57) || (65 <=? n) && (n <=? 90) || (97 <=? n) && (n <=? 122))%nat.

Definition host_ident (s : string) : bool :=
  match s with
  | "" => false
  | String c _ => alnum_char c && all_chars ident_char s
  end.

Definition no_underscore (s : string) : bool :=
  all_chars (fun c => negb (Ascii.eqb c "_")) s.

(** The names the mailbox poll of [e] lists and the values it reads. *)
Definition addressed (e : env) (name : string) : bool :=
  glob_star (os_nt e) (get_hostname e +:+ "_") ".json" name.

Definition parsed_value (f : file) : option json :=
  match f_data f with
  | Parsed v => Some v
  | Corrupt => None
  end.

(** What one round of the loop of [get_remote_status] does to the dictionary
    it builds, for the caller [host] and the directory [m]. *)
Definition remote_step (host : string) (m : gmap string file)
    (remote_status : list (string * json)) (f : string) : list (string * json) :=
  if bool_decide (stem f <> host) then
    match m !! f ≫= parsed_value with
    | Some v => dict_set (stem f) v remote_status
    | None => remote_status
    end
  else remote_status.

(** The listing of [comms_dir.glob("*.json")]. *)
Definition presence_files (e : env) (w : world) : list string :=
  filter (fun n => glob_star (os_nt e) "" ".json" n) (names (comms w)).

(** Sample environments and stores, for the instances the statements are
    tried on: a POSIX host [host] without [AGENT_IDENTITY], whose clock
    starts at [start] and advances by 100 microseconds per reading and whose
    collaborators answer ["ok"]. *)
Definition sample_env_at (start : Z) (host : string) : env :=
  Env false None host (fun n => start + 100 * Z.of_nat n) (fun _ => "now") (fun _ => "")
      false (fun _ w => (Output "ok", w)) (fun _ => false).

Definition sample_env : string -> env := sample_env_at 1000000000.

Definition empty_world : world := World ∅ ∅ ∅ ∅ None 0 [].

(** A mailbox with a message for wizardpanda, a file for wizardpanda that
    does not parse, and a message for quasar. *)
Definition sample_mailbox : world :=
  World ∅
        (<["wizardpanda_quasar_1.json" := File (Parsed (JObj [("id", JInt 1)])) 0]>
           (<["wizardpanda_quasar_2.json" := File Corrupt 0]>
              (<["quasar_wizardpanda_3.json" := File (Parsed (JObj [("id", JInt 3)])) 0]> ∅)))
        ∅ ∅ None 0 [].

(** Presence records of quasar, written at second 990, and of wizardpanda,
    without a timestamp. *)
Definition sample_presence : world :=
  World (<["quasar.json" :=
             File (Parsed (JObj [("hostname", JStr "quasar"); ("timestamp", JFloat 990000000);
                                 ("status", JStr "active"); ("current_task", JStr "monitoring");
                                 ("last_seen", JStr "then")])) 990000000]>
           (<["wizardpanda.json" := File (Parsed (JObj [("hostname", JStr "wizardpanda")])) 0]> ∅))
        ∅ ∅ ∅ None 0 [].

(** The second store has the files and the trace of the first: at most the
    clock has been read in between. *)
Definition quiet (w w' : world) : Prop :=
  same_files w w' /\ trace w' = trace w.


(** Two updates, of which the first comes from chat 111. *)
Definition sample_updates : list tg_update :=
  [TgUpdate 5 (Some (TgMessage (Some "to wizardpanda: status") (Some 111)));
   TgUpdate 6 (Some (TgMessage (Some "to wizardpanda: run x.py") (Some 999)))].

Definition sample_config : bridge_config := Config "token" (SInt 111) (Some 4).

(** The records [get_remote_status] returns to the caller [e] in the store
    [w]. *)
Definition remote_records (e : env) (w : world) : list (string * json) :=
  foldl (remote_step (get_hostname e) (comms w)) [] (presence_files e w).

(** The record [d] is at least 120 seconds old at a reading of the clock,
    the [k]-th or a later one. *)
Definition stale_from (e : env) (k : nat) (d : json) : Prop :=
  exists k' ts stamp,
    (k <= k')%nat /\ py_get d "timestamp" (JInt 0) = Ok ts /\
    py_seconds ts = Ok stamp /\ 120 * second <= clock e k' - stamp.

(** An item of the shared slot may be taken by the fallback host [e]: at a
    reading of the clock, the [k]-th or a later one, the item is more than
    60 seconds old, and every record keyed [quasar] that the host sees is
    stale at a reading after that. *)
Definition may_take (e : env) (w : world) (k : nat) (f : file) : Prop :=
  exists k0,
    (k <= k0)%nat /\ 60 * second < clock e k0 - f_mtime f /\
    forall h d, (h, d) ∈ remote_records e w -> PyStr.lower h = "quasar" ->
                stale_from e (S k0) d.

(** A sample environment whose clock stands still. *)
Definition frozen_env (now : Z) (host : string) : env :=
  Env false None host (fun _ => now) (fun _ => "now") (fun _ => "")
      false (fun _ w => (Output "ok", w)) (fun _ => false).

(** The record of quasar is written at second 880; an item of the shared
    slot is written at second 939. *)
Definition sample_slot : world :=
  World (<["quasar.json" :=
             File (Parsed (JObj [("hostname", JStr "quasar"); ("timestamp", JFloat 880000000)]))
                  880000000]> ∅)
        ∅
        (<["Antigravity_939000.json" :=
             File (Parsed (JObj [("text", JStr "status"); ("timestamp", JFloat 939000000)]))
                  939000000]> ∅)
        ∅ None 0 [].


(** The names the first loop of the inbox poll of [e] lists. *)
Definition own (e : env) (name : string) : bool :=
  glob_star (os_nt e) (agent_identity e +:+ "_") ".json" name.

(** A sample environment with [AGENT_IDENTITY] set. *)
Definition sample_agent (identity host : string) : env :=
  Env false (Some identity) host (fun n => 1000000000 + 100 * Z.of_nat n) (fun _ => "now")
      (fun _ => "") false (fun _ w => (Output "ok", w)) (fun _ => false).





(** A sample environment whose collaborators fail. *)
Definition failing_env (host : string) : env :=
  Env false None host (fun n => 1000000000 + 100 * Z.of_nat n) (fun _ => "now")
      (fun _ => "") false (fun _ w => (Fails "boom", w)) (fun _ => false).

Definition sample_task : json :=
  JObj [("id", JInt 7); ("from", JStr "quasar"); ("to", JStr "wizardpanda");
        ("type", JStr "task"); ("content", JObj [("text", JStr "status")]);
        ("timestamp", JFloat 999000000)].







(** A sample Windows host. *)
Definition windows_env (host : string) : env :=
  Env true None host (fun n => 1000000000 + 100 * Z.of_nat n) (fun _ => "now")
      (fun _ => "") false (fun _ w => (Output "ok", w)) (fun _ => false).

(** The presence store of the samples, with the suffix of the record of
    quasar in capitals. *)
Definition sample_presence_nt : world :=
  World (<["quasar.JSON" :=
             File (Parsed (JObj [("hostname", JStr "quasar"); ("timestamp", JFloat 990000000);
                                 ("status", JStr "active"); ("current_task", JStr "monitoring");
                                 ("last_seen", JStr "then")])) 990000000]>
           (<["wizardpanda.json" := File (Parsed (JObj [("hostname", JStr "wizardpanda")])) 0]> ∅))
        ∅ ∅ ∅ None 0 [].

(** ** [nsync.py]: [NSyncHandler.on_any_event] *)

Module Watch.

(** A file system event, with the fields the handler reads. *)
Record fs_event := FsEvent {
  is_directory : bool;
  src_path : string }.

(** The handler: [last_sync], a reading of the clock or the initial 0, and
    the calls and lines of the cycles it has run. *)
Record handler := Handler {
  last_sync : Z;
  cycles : NSync.run_state }.

(** [self.debounce], 2 seconds. *)
Definition debounce : Z := 2 * second.

(** [NSyncHandler(repo_path)] *)
Definition new_handler : handler := Handler 0 NSync.fresh.

(** [on_any_event(event)]; [now] is what [time.time()] yields when the
    event is not ignored.  [last_sync] is assigned after [sync] has
    returned, and is therefore left as it was when [sync] raises. *)
Definition on_any_event (oracle : NSync.step -> NSync.step_outcome) (now : Z)
    (event : fs_event) : ST handler unit :=
  fun h =>
    if is_directory event || PyStrMore.contains ".git" (src_path event) then (Ok tt, h)
    else if debounce <? now - last_sync h then
      match NSync.sync oracle (cycles h) with
      | (Ok _, st) => (Ok tt, Handler now st)
      | (Raise ex, st) => (Raise ex, Handler (last_sync h) st)
      | (Pending, st) => (Pending, Handler (last_sync h) st)
      end
    else (Ok tt, h).

(** The observer hands the events to the handler one at a time, in order;
    each comes with the reading of the clock at which it is handled. *)
Definition dispatch (oracle : NSync.step -> NSync.step_outcome)
    (events : list (Z * fs_event)) : ST handler unit :=
  for_each (fun _ '(now, event) => on_any_event oracle now event) tt events.

End Watch.

(** ** [telegram_bridge.py]: [check_outbox] *)

(** A request to [sendMessage]: the chat, the text, and whether
    [parse_mode] is [Markdown]. *)
Record post := Post {
  post_chat : scalar;
  post_text : string;
  post_markdown : bool }.

(** What [requests.post] produces: a response with a status code, or an
    exception. *)
Inductive post_result :=
| Status (code : Z)
| PostFails.

(** The bridge process: the shared store, the directory
    [mcp_telegram_buffer] under the temporary directory of the host, and the
    requests posted so far. *)
Record bridge_state := BridgeState {
  store : world;
  buffer : gmap string file;
  posts : list post }.

Definition in_store {A} (m : M A) : ST bridge_state A :=
  fun st => let (r, w) := m (store st) in (r, BridgeState w (buffer st) (posts st)).

(** [try: m  except OSError: h] *)
Definition try_os_error {S A} (m : ST S A) (h : ST S A) : ST S A :=
  fun w =>
    match m w with
    | (Raise OSError, w') => h w'
    | r => r
    end.

(** [if target.exists(): os.remove(target)] *)
Definition remove_stale (name : string) : ST bridge_state unit :=
  fun st => (Ok tt, BridgeState (store st) (delete name (buffer st)) (posts st)).

(** [os.rename(str(f), str(target))]; [locked name] tells whether the entry
    of the outbox is held by another process, in which case the call
    raises [OSError]. *)
Definition rename_to_buffer (locked : string -> bool) (name : string)
  : ST bridge_state unit :=
  fun st =>
    match outbox (store st) !! name with
    | Some f =>
        if locked name then (Raise OSError, st)
        else (Ok tt,
              BridgeState (set_entries Outbox (delete name (outbox (store st))) (store st))
                          (<[name := f]> (buffer st)) (posts st))
    | None => (Raise OSError, st)
    end.

(** [with open(target, "r") as mf: json.load(mf)] *)
Definition load_staged (name : string) : ST bridge_state json :=
  fun st =>
    match buffer st !! name with
    | Some (File (Parsed v) _) => (Ok v, st)
    | Some (File Corrupt _) => (Raise JSONDecodeError, st)
    | None => (Raise OSError, st)
    end.

(** [os.remove(target)], called while [target] is still open for reading:
    on Windows an open file cannot be removed and the call raises
    [PermissionError], an [OSError]. *)
Definition remove_staged (e : env) (name : string) : ST bridge_state unit :=
  fun st =>
    if os_nt e then (Raise OSError, st)
    else
      match buffer st !! name with
      | Some _ => (Ok tt, BridgeState (store st) (delete name (buffer st)) (posts st))
      | None => (Raise OSError, st)
      end.

(** [requests.post(url, json=p)]: [answer n p] is what the endpoint makes
    of the request [p] when [n] requests were posted before it; the
    exceptions of [requests] are [OSError]s. *)
Definition requests_post (answer : nat -> post -> post_result) (p : post)
  : ST bridge_state Z :=
  fun st =>
    let st' := BridgeState (store st) (buffer st) (posts st ++ [p]) in
    match answer (List.length (posts st)) p with
    | Status code => (Ok code, st')
    | PostFails => (Raise OSError, st')
    end.

(** [not v] *)
Definition py_falsy (v : json) : bool :=
  match v with
  | JNull | JBool false | JInt 0 | JStr "" | JArr [] | JObj [] => true
  | JFloat us => us =? 0
  | _ => false
  end.

(** [s.replace("*", "")] *)
Fixpoint remove_asterisks (s : string) : string :=
  match s with
  | "" => ""
  | String c s' =>
      if Ascii.eqb c "*" then remove_asterisks s' else String c (remove_asterisks s')
  end.

(** The character U+1F4E2 in UTF-8. *)
Definition megaphone : string :=
  String "240" (String "159" (String "147" (String "162" ""))).

Definition outbound_text (e : env) (from_agent content : json) : string :=
  megaphone +:+ " *" +:+ py_str e from_agent +:+ "*:" +:+ newline +:+ py_str e content.

(** What [check_outbox] does with a file once it is staged. *)
Definition send_staged (e : env) (answer : nat -> post -> post_result)
    (config : bridge_config) (name : string) : ST bridge_state unit :=
  data <- load_staged name ;;
  from_agent <- lift (py_get data "from" (JStr "Unknown")) ;;
  content <- lift (py_get data "text" (JStr "")) ;;
  let content := if py_falsy content then JStr "[Empty Message]" else content in
  let text := outbound_text e from_agent content in
  try_exception
    (status <- requests_post answer (Post (chat_id config) text true) ;;
     if status =? 200 then remove_staged e name
     else if status =? 400 then
       requests_post answer (Post (chat_id config) (remove_asterisks text) false) ;;;
       remove_staged e name
     else ret tt)
    (fun _ => ret tt).

(** The body of [for f in outbox.glob("*.json")]. *)
Definition check_outbox_file (e : env) (answer : nat -> post -> post_result)
    (locked : string -> bool) (config : bridge_config) (_ : unit) (name : string)
  : ST bridge_state unit :=
  if PyStr.startswith "." name then ret tt
  else
    try_exception
      (moved <- try_os_error
                  (remove_stale name ;;; rename_to_buffer locked name ;;; ret true)
                  (ret false) ;;
       if (moved : bool) then send_staged e answer config name else ret tt)
      (fun _ => ret tt).

Definition check_outbox (e : env) (answer : nat -> post -> post_result)
    (locked : string -> bool) (config : bridge_config) : ST bridge_state unit :=
  fun st =>
    for_each (check_outbox_file e answer locked config) tt
      (filter (fun n => glob_star (os_nt e) "" ".json" n) (names (outbox (store st)))) st.

(** ** [telegram_bridge.py]: [main] *)

(** What [telegram_bridge.pid] holds: a number, or text that [int()]
    rejects. *)
Inductive pid_text :=
| PidNumber (pid : Z)
| PidGarbage.

Record daemon := Daemon {
  bridge : bridge_state;
  pid_file : option pid_text }.

Definition in_bridge {A} (m : ST bridge_state A) : ST daemon A :=
  fun d => let (r, st) := m (bridge d) in (r, Daemon st (pid_file d)).

(** [try: m  finally: h]; while [m] is still running, [h] has not run. *)
Definition finally {S A} (m : ST S A) (h : ST S unit) : ST S A :=
  fun w =>
    match m w with
    | (Pending, w') => (Pending, w')
    | (r, w') =>
        match h w' with
        | (Ok _, w'') => (r, w'')
        | (Raise ex, w'') => (Raise ex, w'')
        | (Pending, w'') => (Pending, w'')
        end
    end.

(** [pid_file.unlink()], and [if pid_file.exists(): pid_file.unlink()] *)
Definition unlink_pid : ST daemon unit :=
  fun d => (Ok tt, Daemon (bridge d) None).

(** [with open(pid_file, "w") as f: f.write(str(os.getpid()))] *)
Definition write_pid (own_pid : Z) : ST daemon unit :=
  fun d => (Ok tt, Daemon (bridge d) (Some (PidNumber own_pid))).

(** [get_config()], for a configuration file that parses when it exists. *)
Definition get_config : ST daemon (option bridge_config) :=
  fun d => (Ok (config_file (store (bridge d))), d).

(** The singleton check that opens [main]: whether [main] returns at once.
    [kill0 pid] tells whether [os.kill(pid, 0)] returns.  On Windows the
    check evaluates the name [subprocess], which this module does not
    import: the [NameError] is caught by the bare [except], like the
    failure of [int()] and of [os.kill]. *)
Definition already_running (e : env) (kill0 : Z -> bool) : ST daemon bool :=
  fun d =>
    match pid_file d with
    | None => (Ok false, d)
    | Some PidGarbage => (unlink_pid ;;; ret false) d
    | Some (PidNumber old_pid) =>
        if os_nt e then (unlink_pid ;;; ret false) d
        else if kill0 old_pid then (Ok true, d)
        else (unlink_pid ;;; ret false) d
    end.

(** [while True: poll_telegram(config); check_outbox(config); time.sleep(2)],
    for at most [fuel] rounds; [api round] is the endpoint of [getUpdates]
    in that round, and [config] is the dictionary as the polls have left
    it. *)
Fixpoint serve (e : env) (api : nat -> Z -> response) (answer : nat -> post -> post_result)
    (locked : string -> bool) (fuel round : nat) (config : bridge_config)
  : ST bridge_state Z :=
  match fuel with
  | O => pending
  | S n =>
      config' <- in_store (poll_telegram e (api round) config) ;;
      check_outbox e answer locked config' ;;;
      in_store (time_sleep e) ;;;
      serve e api answer locked n (S round) config'
  end.

(** [main()] of the bridge, for the process [own_pid]. *)
Definition bridge_main (e : env) (kill0 : Z -> bool) (own_pid : Z)
    (api : nat -> Z -> response) (answer : nat -> post -> post_result)
    (locked : string -> bool) (fuel : nat) : ST daemon Z :=
  running <- already_running e kill0 ;;
  if (running : bool) then ret 0
  else
    write_pid own_pid ;;;
    finally
      (try_exception
         (config <- get_config ;;
          match config with
          | None => ret 1
          | Some c => in_bridge (serve e api answer locked fuel 0 c)
          end)
         (fun _ => ret 1))
      unlink_pid.

(** ** [nsync.py]: [NSyncHandler.ensure_rules_links] *)

Module Links.

(** What a project holds under the name [mcp-global-rules]: nothing, a
    regular file, a directory of its own, or a link to a directory (a
    symbolic link on the POSIX host, a junction on Windows) whose
    destination exists or not. *)
Inductive node :=
| Absent
| PlainFile
| RealDir
| Link (resolves : bool).

(** An entry of the repository root. *)
Inductive item :=
| RegularFile
| Directory (rules : node).

(** The host: [os.name == 'nt'], whether [mcp_source] exists, whether
    [shutil.rmtree] of the target of a project succeeds, and whether the
    link of a project can be created where nothing is in its way. *)
Record host := Host {
  nt : bool;
  source_exists : bool;
  rmtree_ok : string -> bool;
  link_ok : string -> bool }.

(** [target.exists()], which follows links. *)
Definition path_exists (target : node) : bool :=
  match target with
  | Absent => false
  | PlainFile | RealDir => true
  | Link resolves => resolves
  end.

(** [target.is_symlink()]: a junction is not a symbolic link. *)
Definition is_symlink (h : host) (target : node) : bool :=
  match target with
  | Link _ => negb (nt h)
  | _ => false
  end.

(** [target.is_dir()], which follows links. *)
Definition is_dir (target : node) : bool :=
  match target with
  | RealDir => true
  | Link resolves => resolves
  | _ => false
  end.

(** The body of the loop for the project [name]; both [try] blocks pass
    over what is raised in them, and a link cannot be created over an
    entry that is there, dangling or not. *)
Definition ensure_target (h : host) (name : string) (target : node) : node :=
  let target :=
    if path_exists target && negb (is_symlink h target) then
      if negb (nt h) then
        if is_dir target && negb (is_symlink h target) then
          if rmtree_ok h name then Absent else target
        else target
      else target
    else target in
  if negb (path_exists target) then
    match target with
    | Absent => if link_ok h name then Link (source_exists h) else Absent
    | _ => target
    end
  else target.

(** [ensure_rules_links()] over the entries of the repository root; the
    rounds of the loop act on different entries. *)
Definition ensure_rules_links (h : host) (repo : gmap string item) : gmap string item :=
  map_imap (fun name entry =>
      Some match entry with
           | Directory target =>
               if negb (PyStr.startswith "." name)
               then Directory (ensure_target h name target)
               else entry
           | RegularFile => entry
           end)
    repo.

End Links.

(** * Properties *)

(** ** Strings *)

Example lower_Quasar : PyStr.lower "Quasar-PC_1" = "quasar-pc_1".
Proof. reflexivity. Qed.

Example strip_both : PyStr.strip "  run a b  " = "run a b".
Proof. reflexivity. Qed.

Example split_first_colon : PyStr.split_colon "to bob: say: hi" = Some ("to bob", " say: hi").
Proof. reflexivity. Qed.

Example remove_to_inner : PyStr.remove_to "to potato x" = "potax".
Proof. reflexivity. Qed.

(** ** The replication cycle *)

Section SyncCycle.

Variable oracle : NSync.step -> NSync.step_outcome.

Import NSync.

Ltac run_step s :=
  let E := fresh "E" in
  destruct (oracle s) as [?|[]] eqn:E; simpl.

(** The calls a cycle starts are the first calls of [order], up to and
    including the first one that raises. *)
Lemma sync_started :
  started (sync oracle fresh).2 =
    (fix go (l : list step) :=
       match l with
       | [] => []
       | s :: l' => s :: match oracle s with Returned _ => go l' | Raised _ => [] end
       end) order.
Proof.
  unfold sync, bind, try_exception, call, print, fresh; simpl.
  run_step EnsureRulesLinks; try reflexivity;
  run_step Chdir; try reflexivity;
  run_step GitAdd; try reflexivity;
  run_step GitCommit; try reflexivity;
  run_step GitPullRebase; try reflexivity;
  run_step GitPush; reflexivity.
Qed.

End SyncCycle.

(** C4, as amended.  A cycle starts its calls in the order of [NSync.order]
    and stops at the first call that raises: a call that is followed by
    another one has returned.  The exit code of a call plays no part: when
    every call that is started returns, with whatever code, all six are
    started. *)
Theorem sync_order_and_abort (oracle : NSync.step -> NSync.step_outcome) :
  let st := (NSync.sync oracle NSync.fresh).2 in
  (exists rest, NSync.order = NSync.started st ++ rest) /\
  (forall before s after,
      NSync.started st = before ++ s :: after -> after <> [] ->
      exists code, oracle s = NSync.Returned code) /\
  ((forall s, In s (NSync.started st) -> exists code, oracle s = NSync.Returned code) ->
   NSync.started st = NSync.order).
Proof.
  cbv zeta. rewrite sync_started. unfold NSync.order.
  destruct (oracle NSync.EnsureRulesLinks) eqn:E1;
  [destruct (oracle NSync.Chdir) eqn:E2;
   [destruct (oracle NSync.GitAdd) eqn:E3;
    [destruct (oracle NSync.GitCommit) eqn:E4;
     [destruct (oracle NSync.GitPullRebase) eqn:E5;
      [destruct (oracle NSync.GitPush) eqn:E6|]|]|]|]|].
  all: split; [eexists; reflexivity|].
  all: split;
    [ intros before s after H Hne;
      repeat (destruct before as [|? before]; simplify_eq/=; eauto);
      try (destruct before; discriminate)
    | intros H ].
  all: try reflexivity.
  all: exfalso.
  all: match goal with
       | E : _ ?s = NSync.Raised _ |- _ =>
           destruct (H s) as [c Hc]; [simpl; tauto | congruence]
       end.
Qed.

Lemma sync_order_and_abort_witness :
  let oracle := fun s => match s with
                         | NSync.GitPullRebase => NSync.Raised OSError
                         | _ => NSync.Returned 0
                         end in
  NSync.started (NSync.sync oracle NSync.fresh).2 =
    [NSync.EnsureRulesLinks; NSync.Chdir; NSync.GitAdd; NSync.GitCommit; NSync.GitPullRebase] /\
  (forall before s after,
      NSync.started (NSync.sync oracle NSync.fresh).2 = before ++ s :: after ->
      after <> [] -> exists code, oracle s = NSync.Returned code).
Proof.
  intros oracle. split; [reflexivity|].
  apply (sync_order_and_abort oracle).
Defined.

(** C4 as stated fails: [git commit] ends with status 1 (as it does when
    there is nothing to commit), and the pull and the push are started all
    the same. *)
Lemma sync_continues_after_failed_commit :
  let oracle := fun s => match s with
                         | NSync.GitCommit => NSync.Returned 1
                         | _ => NSync.Returned 0
                         end in
  step_fails (oracle NSync.GitCommit) /\
  NSync.started (NSync.sync oracle NSync.fresh).2 = NSync.order /\
  NSync.printed (NSync.sync oracle NSync.fresh).2 = [NSync.SyncComplete].
Proof. repeat split. intros [=]. Qed.

(** ** Strings and patterns *)

Lemma str_app_nil_l (s : string) : "" +:+ s = s.
Proof. reflexivity. Qed.

Lemma str_app_cons (c : ascii) (s t : string) : String c s +:+ t = String c (s +:+ t).
Proof. reflexivity. Qed.

Lemma str_app_assoc (a b c : string) : (a +:+ b) +:+ c = a +:+ b +:+ c.
Proof. induction a as [|x a IH]; [reflexivity|]. rewrite !str_app_cons. by f_equal. Qed.

Lemma strip_prefix_app (p r : string) : PyStr.strip_prefix p (p +:+ r) = Some r.
Proof.
  induction p as [|c p IH]; [by destruct r|].
  rewrite str_app_cons. simpl. by rewrite Ascii.eqb_refl.
Qed.

Lemma strip_prefix_Some (p s r : string) :
  PyStr.strip_prefix p s = Some r -> s = p +:+ r.
Proof.
  revert s. induction p as [|c p IH]; intros s H.
  - destruct s; simpl in H; by simplify_eq.
  - destruct s as [|d s]; simpl in H; [done|].
    destruct (Ascii.eqb_spec c d) as [->|]; [|done].
    rewrite str_app_cons. f_equal. by apply IH.
Qed.

Lemma endswith_app (mid suf : string) : PyStr.endswith suf (mid +:+ suf) = true.
Proof.
  induction mid as [|c mid IH].
  - rewrite str_app_nil_l. destruct suf; simpl; by rewrite ?Ascii.eqb_refl, ?String.eqb_refl.
  - rewrite str_app_cons. simpl. rewrite IH. by rewrite orb_true_r.
Qed.

Lemma lower_app (a b : string) : PyStr.lower (a +:+ b) = PyStr.lower a +:+ PyStr.lower b.
Proof. induction a as [|c a IH]; [reflexivity|]. rewrite !str_app_cons. simpl. by rewrite IH. Qed.

Lemma fold_case_app nt (a b : string) : fold_case nt (a +:+ b) = fold_case nt a +:+ fold_case nt b.
Proof. destruct nt; [apply lower_app|reflexivity]. Qed.

(** A name made of the prefix, anything, and the suffix matches. *)
Lemma glob_star_intro nt (pre suf mid : string) :
  glob_star nt pre suf (pre +:+ mid +:+ suf) = true.
Proof.
  unfold glob_star. rewrite !fold_case_app, strip_prefix_app. apply endswith_app.
Qed.

(** ** The mailbox *)

Lemma receive_file_parsed (messages : list json) (f : string) (v : json) (t : Z) (w : world) :
  mailbox w !! f = Some (File (Parsed v) t) ->
  receive_file messages f w =
    (Ok (messages ++ [v]), set_entries Mailbox (delete f (mailbox w)) w).
Proof.
  intros H. unfold receive_file, try_exception, bind, read_json, unlink, ret. simpl.
  rewrite H. simpl. by rewrite H.
Qed.

Lemma receive_file_corrupt (messages : list json) (f : string) (t : Z) (w : world) :
  mailbox w !! f = Some (File Corrupt t) ->
  receive_file messages f w = (Ok messages, (log (EvWarn f) w).2).
Proof.
  intros H. unfold receive_file, try_exception, bind, read_json, ret. simpl.
  by rewrite H.
Qed.

Lemma for_each_cons {S A B} (body : B -> A -> ST S B) (acc : B) (x : A) (l : list A) (w : S) :
  for_each body acc (x :: l) w =
    match body acc x w with
    | (Ok acc', w') => for_each body acc' l w'
    | (Raise ex, w') => (Raise ex, w')
    | (Pending, w') => (Pending, w')
    end.
Proof. reflexivity. Qed.

Lemma omap_cons {A B} (f : A -> option B) (x : A) (l : list A) :
  omap f (x :: l) = match f x with Some y => y :: omap f l | None => omap f l end.
Proof. reflexivity. Qed.

(** The loop of [listen_for_messages] over a listing [l] without repetition
    of entries of the mailbox [m0], started where these entries are still as
    in [m0]. *)
Lemma receive_loop (m0 : gmap string file) (l : list string) :
  NoDup l ->
  forall (messages : list json) (w : world),
    (forall n, n ∈ l -> mailbox w !! n = m0 !! n /\ is_Some (m0 !! n)) ->
    exists w',
      for_each receive_file messages l w =
        (Ok (messages ++ omap (fun n => m0 !! n ≫= parsed_value) l), w') /\
      (forall k, mailbox w' !! k =
                 if bool_decide (k ∈ l /\ is_Some (m0 !! k ≫= parsed_value))
                 then None else mailbox w !! k) /\
      trace w' = trace w ++ (EvWarn <$> filter (fun n => m0 !! n ≫= parsed_value = None) l) /\
      comms w' = comms w /\ inbox w' = inbox w /\ outbox w' = outbox w /\
      config_file w' = config_file w /\ ticks w' = ticks w.
Proof.
  induction 1 as [|n l Hn Hl IH]; intros messages w Hw.
  - exists w. simpl. unfold ret. rewrite !app_nil_r. done.
  - destruct (Hw n) as [Hwn [[d t] Hm0]]; [by left|].
    rewrite Hm0 in Hwn. rewrite for_each_cons.
    assert (forall k, k ∈ l -> k <> n) as Hne by (intros k ? ->; done).
    destruct d as [v|].
    + rewrite (receive_file_parsed _ _ v t) by done.
      destruct (IH (messages ++ [v]) (set_entries Mailbox (delete n (mailbox w)) w))
        as (w' & Hrun & Hlook & Htr & ?).
      { intros k Hk. cbn [set_entries mailbox]. rewrite lookup_delete_ne by (by apply not_eq_sym, Hne).
        apply Hw. by right. }
      exists w'. rewrite Hrun.
      rewrite omap_cons, Hm0. cbn [mbind option_bind parsed_value f_data].
      rewrite <- app_assoc. cbn [app].
      split; [done|]. split; [|split; [|done]].
      * intros k. rewrite Hlook. cbn [set_entries mailbox].
        destruct (decide (k = n)) as [->|Hkn].
        -- rewrite lookup_delete_eq.
           rewrite (bool_decide_eq_true_2 (n ∈ n :: l /\ _)); [by case_bool_decide|].
           split; [by left|]. rewrite Hm0. by eexists.
        -- rewrite lookup_delete_ne by done.
           apply (f_equal (fun b : bool => if b then None else mailbox w !! k)).
           apply bool_decide_ext. rewrite elem_of_cons. intuition congruence.
      * rewrite Htr. cbn [set_entries trace]. rewrite filter_cons_False; [done|].
        rewrite Hm0. done.
    + rewrite (receive_file_corrupt _ _ t) by done.
      destruct (IH messages (log (EvWarn n) w).2) as (w' & Hrun & Hlook & Htr & ?).
      { intros k Hk. cbn [log snd mailbox]. apply Hw. by right. }
      exists w'. rewrite Hrun.
      rewrite omap_cons, Hm0. cbn [mbind option_bind parsed_value f_data].
      split; [done|]. split; [|split; [|done]].
      * intros k. rewrite Hlook. cbn [log snd mailbox].
        apply (f_equal (fun b : bool => if b then None else mailbox w !! k)).
        apply bool_decide_ext. rewrite elem_of_cons.
        split; [intuition|]. intros [[->|?] Hp]; [|done].
        rewrite Hm0 in Hp. by destruct Hp.
      * rewrite Htr. cbn [log snd trace]. rewrite filter_cons_True by (by rewrite Hm0).
        rewrite fmap_cons. by rewrite <- app_assoc.
Qed.

Lemma omap_listing (m : gmap string file) (P : string -> bool) (g : file -> option json)
    (l : list (string * file)) :
  (forall n f, (n, f) ∈ l -> m !! n = Some f) ->
  omap (fun n => m !! n ≫= g) (filter (fun n => P n) l.*1) =
  omap (fun '(n, f) => if P n then g f else None) l.
Proof.
  induction l as [|[n f] l IH]; intros Hl; [done|].
  rewrite fmap_cons. cbn [fst]. rewrite (omap_cons _ (n, f)).
  assert (m !! n = Some f) as Hn by (apply Hl; by left).
  assert (forall n f, (n, f) ∈ l -> m !! n = Some f) as Hl' by (intros; apply Hl; by right).
  destruct (P n) eqn:HP.
  - rewrite filter_cons_True by (by rewrite HP).
    rewrite omap_cons, Hn. cbn [mbind option_bind]. by rewrite (IH Hl').
  - rewrite filter_cons_False by (rewrite HP; exact id). exact (IH Hl').
Qed.

(** What [listen_for_messages] returns and the store it leaves. *)
Lemma listen_for_messages_spec (e : env) (w : world) :
  exists w',
    listen_for_messages e w =
      (Ok (omap (fun '(n, f) => if addressed e n then parsed_value f else None)
                (map_to_list (mailbox w))), w') /\
    (forall k, mailbox w' !! k =
               if bool_decide (addressed e k /\ is_Some (mailbox w !! k ≫= parsed_value))
               then None else mailbox w !! k) /\
    trace w' = trace w ++
      (EvWarn <$> filter (fun n => mailbox w !! n ≫= parsed_value = None /\ addressed e n)
                         (names (mailbox w))) /\
    comms w' = comms w /\ inbox w' = inbox w /\ outbox w' = outbox w /\
    config_file w' = config_file w /\ ticks w' = ticks w.
Proof.
  unfold listen_for_messages, glob, bind. cbn [entries].
  set (l := filter _ (names (mailbox w))).
  assert (forall n, n ∈ l -> is_Some (mailbox w !! n)) as Hin.
  { intros n [_ Hn]%list_elem_of_filter. unfold names in Hn.
    apply list_elem_of_fmap in Hn as [[n' f] [-> Hf]].
    apply elem_of_map_to_list in Hf. by eexists. }
  destruct (receive_loop (mailbox w) l) with (messages := @nil json) (w := w)
    as (w' & Hrun & Hlook & Htr & Hframe).
  { apply NoDup_filter, NoDup_fst_map_to_list. }
  { intros n Hn. split; [done|]. by apply Hin. }
  exists w'. rewrite Hrun. cbn [app].
  split; [|split; [|split; [|done]]].
  - f_equal. f_equal. apply (omap_listing (mailbox w) (addressed e) parsed_value).
    intros n f. apply elem_of_map_to_list.
  - intros k. rewrite Hlook.
    apply (f_equal (fun b : bool => if b then None else mailbox w !! k)).
    apply bool_decide_ext. unfold l. rewrite list_elem_of_filter.
    split; [intros [[? _] ?]; done|]. intros [Ha Hs]. split; [|done]. split; [done|].
    destruct (mailbox w !! k) as [f|] eqn:Hk; [|by destruct Hs].
    unfold names. apply list_elem_of_fmap. exists (k, f). split; [done|].
    by apply elem_of_map_to_list.
  - rewrite Htr. unfold l. by rewrite list_filter_filter.
Qed.

(** C7.  [listen_for_messages] returns the documents of the files addressed
    to the caller that parse, in the order of the listing, and nothing
    else.  Such a file is gone afterwards.  A file addressed to the caller
    that does not parse is left as it was, with a warning in the trace, and
    is therefore listed again by the next call.  Files addressed to others
    are left alone. *)
Theorem receive_deletes_parsed_keeps_corrupt (e : env) (w : world) :
  host_ident (get_hostname e) = true ->
  exists msgs w',
    listen_for_messages e w = (Ok msgs, w') /\
    msgs = omap (fun '(n, f) => if addressed e n then parsed_value f else None)
                (map_to_list (mailbox w)) /\
    (forall n f, mailbox w !! n = Some f -> addressed e n = true ->
        match f_data f with
        | Parsed v => v ∈ msgs /\ mailbox w' !! n = None
        | Corrupt => mailbox w' !! n = Some f /\ EvWarn n ∈ trace w'
        end) /\
    (forall n, addressed e n = false -> mailbox w' !! n = mailbox w !! n).
Proof.
  intros _.
  destruct (listen_for_messages_spec e w) as (w' & Hrun & Hlook & Htr & _).
  eexists _, w'. split; [exact Hrun|]. split; [done|]. split.
  - intros n [d t] Hn Ha. cbn [f_data]. destruct d as [v|].
    + split.
      * apply list_elem_of_omap. exists (n, File (Parsed v) t).
        split; [by apply elem_of_map_to_list|]. by rewrite Ha.
      * rewrite Hlook, bool_decide_eq_true_2; [done|].
        split; [by rewrite Ha|]. rewrite Hn. by eexists.
    + split.
      * rewrite Hlook, bool_decide_eq_false_2; [done|].
        intros [_ Hs]. rewrite Hn in Hs. by destruct Hs.
      * rewrite Htr. apply elem_of_app. right.
        apply list_elem_of_fmap. exists n. split; [done|].
        apply list_elem_of_filter. split; [split; [by rewrite Hn|by rewrite Ha]|].
        unfold names. apply list_elem_of_fmap. exists (n, File Corrupt t).
        split; [done|]. by apply elem_of_map_to_list.
  - intros n Ha. rewrite Hlook, bool_decide_eq_false_2; [done|].
    intros [Ha' _]. by rewrite Ha in Ha'.
Qed.

Lemma message_file_addressed (e : env) (sender : string) (msg_id : Z) :
  addressed e (message_file (get_hostname e) sender msg_id) = true.
Proof.
  unfold addressed, message_file.
  replace (get_hostname e +:+ "_" +:+ sender +:+ "_" +:+ pretty msg_id +:+ ".json")
    with ((get_hostname e +:+ "_") +:+ (sender +:+ "_" +:+ pretty msg_id) +:+ ".json")
    by (by rewrite !str_app_assoc).
  apply glob_star_intro.
Qed.

Lemma listen_empty (e : env) (w : world) :
  mailbox w = ∅ -> listen_for_messages e w = (Ok [], w).
Proof.
  intros H. unfold listen_for_messages, glob, bind, names. simpl.
  by rewrite H, map_to_list_empty.
Qed.

(** The store after [send_message]: one more file in the mailbox, two more
    readings of the clock and the stamp of the file system, one more
    replication. *)
Lemma send_message_store (e : env) (recipient type : string) (content : json) (w : world) :
  let msg_id := Z.quot (clock e (ticks w)) 1000 in
  let name := message_file recipient (get_hostname e) msg_id in
  let payload :=
    JObj [("id", JInt msg_id); ("from", JStr (get_hostname e)); ("to", JStr recipient);
          ("type", JStr type); ("content", content);
          ("timestamp", JFloat (clock e (S (ticks w))))] in
  send_message e recipient type content w =
    (Ok name,
     World (comms w)
           (<[name := File (Parsed payload) (clock e (S (S (ticks w))))]> (mailbox w))
           (inbox w) (outbox w) (config_file w) (S (S (S (ticks w))))
           (trace w ++ [EvSync])).
Proof. reflexivity. Qed.

(** C2.  On an empty mailbox, after host A sends [{text: x}] to host B, the
    first [listen_for_messages] of B returns one message, whose content is
    [{text: x}], and leaves the mailbox empty; the second returns none. *)
Theorem mailbox_round_trip (ea eb : env) (type x : string) (w : world) :
  host_ident (get_hostname ea) = true ->
  host_ident (get_hostname eb) = true ->
  mailbox w = ∅ ->
  exists file w1 m w2,
    send_message ea (get_hostname eb) type (JObj [("text", JStr x)]) w = (Ok file, w1) /\
    listen_for_messages eb w1 = (Ok [m], w2) /\
    py_getitem m "content" = Ok (JObj [("text", JStr x)]) /\
    mailbox w2 = ∅ /\
    listen_for_messages eb w2 = (Ok [], w2).
Proof.
  intros _ _ Hempty. rewrite send_message_store. cbv zeta.
  set (name := message_file _ _ _). set (payload := JObj _). set (w1 := World _ _ _ _ _ _ _).
  destruct (listen_for_messages_spec eb w1) as (w2 & Hrun & Hlook & _).
  assert (mailbox w1 = {[name := File (Parsed payload) (clock ea (S (S (ticks w))))]}) as Hbox.
  { unfold w1. cbn [mailbox]. by rewrite Hempty, insert_empty. }
  rewrite Hbox, map_to_list_singleton in Hrun. cbn [omap list_omap] in Hrun.
  unfold name in Hrun at 1. rewrite message_file_addressed in Hrun.
  cbn [parsed_value f_data] in Hrun.
  assert (mailbox w2 = ∅) as Hgone.
  { apply map_eq. intros k. rewrite Hlook, Hbox, lookup_empty.
    case_bool_decide as Hk; [done|].
    destruct (decide (k = name)) as [->|Hne]; [|by rewrite lookup_singleton_ne].
    exfalso. apply Hk. split.
    - unfold name. by rewrite message_file_addressed.
    - rewrite lookup_singleton_eq. by eexists. }
  exists name, w1, payload, w2.
  split; [done|]. split; [done|]. split; [done|]. split; [done|].
  by apply listen_empty.
Qed.

Lemma mailbox_round_trip_witness :
  exists file w1 m w2,
    send_message (sample_env "quasar") "wizardpanda" "task" (JObj [("text", JStr "ping")])
                 empty_world = (Ok file, w1) /\
    listen_for_messages (sample_env "wizardpanda") w1 = (Ok [m], w2) /\
    py_getitem m "content" = Ok (JObj [("text", JStr "ping")]) /\
    mailbox w2 = ∅ /\
    listen_for_messages (sample_env "wizardpanda") w2 = (Ok [], w2).
Proof.
  apply (mailbox_round_trip (sample_env "quasar") (sample_env "wizardpanda") "task" "ping"
           empty_world); reflexivity.
Defined.

Lemma receive_deletes_parsed_keeps_corrupt_witness :
  exists msgs w',
    listen_for_messages (sample_env "wizardpanda") sample_mailbox = (Ok msgs, w') /\
    msgs = omap (fun '(n, f) => if addressed (sample_env "wizardpanda") n
                                then parsed_value f else None)
                (map_to_list (mailbox sample_mailbox)) /\
    (forall n f, mailbox sample_mailbox !! n = Some f ->
        addressed (sample_env "wizardpanda") n = true ->
        match f_data f with
        | Parsed v => v ∈ msgs /\ mailbox w' !! n = None
        | Corrupt => mailbox w' !! n = Some f /\ EvWarn n ∈ trace w'
        end) /\
    (forall n, addressed (sample_env "wizardpanda") n = false ->
               mailbox w' !! n = mailbox sample_mailbox !! n).
Proof.
  apply (receive_deletes_parsed_keeps_corrupt (sample_env "wizardpanda") sample_mailbox).
  reflexivity.
Defined.

Example receive_sample :
  (listen_for_messages (sample_env "wizardpanda") sample_mailbox).1
  = Ok [JObj [("id", JInt 1)]] /\
  mailbox (listen_for_messages (sample_env "wizardpanda") sample_mailbox).2
  = <["wizardpanda_quasar_2.json" := File Corrupt 0]>
      (<["quasar_wizardpanda_3.json" := File (Parsed (JObj [("id", JInt 3)])) 0]> ∅) /\
  trace (listen_for_messages (sample_env "wizardpanda") sample_mailbox).2
  = [EvWarn "wizardpanda_quasar_2.json"].
Proof. repeat split; vm_compute; reflexivity. Qed.

Lemma str_length_app (a b : string) :
  String.length (a +:+ b) = (String.length a + String.length b)%nat.
Proof. induction a as [|c a IH]; [done|]. rewrite str_app_cons. simpl. by rewrite IH. Qed.







(** ** The presence store *)

Lemma substring_prefix (a b : string) : String.substring 0 (String.length a) (a +:+ b) = a.
Proof.
  induction a as [|c a IH]; [by destruct b|].
  rewrite str_app_cons. simpl. by rewrite IH.
Qed.

Lemma stem_json (a : string) : a <> "" -> stem (a +:+ ".json") = a.
Proof.
  intros Ha. unfold stem. rewrite str_length_app. cbn [String.length].
  destruct (Nat.eqb_spec (String.length a + 5) 5) as [Hl|Hl].
  - destruct a; [done|simpl in Hl; lia].
  - replace (String.length a + 5 - 5)%nat with (String.length a) by lia.
    apply substring_prefix.
Qed.

Lemma endswith_inv (suf s : string) :
  PyStr.endswith suf s = true -> exists mid, s = mid +:+ suf.
Proof.
  induction s as [|c s IH]; cbn [PyStr.endswith]; intros H.
  - apply orb_true_iff in H as [H|H]; [|done].
    apply String.eqb_eq in H as <-. by exists "".
  - apply orb_true_iff in H as [H|H].
    + apply String.eqb_eq in H as <-. by exists "".
    + destruct (IH H) as [mid ->]. by exists (String c mid).
Qed.

Lemma host_ident_nonempty (h : string) : host_ident h = true -> h <> "".
Proof. by destruct h. Qed.

(** On the POSIX host, the only listed file whose stem is the host
    identifier [h] is [h.json]. *)
Lemma stem_presence_file (h n : string) :
  host_ident h = true ->
  glob_star false "" ".json" n = true -> stem n = h -> n = h +:+ ".json".
Proof.
  intros Hh Hn Hs. unfold glob_star, fold_case in Hn. cbn [PyStr.strip_prefix] in Hn.
  destruct n as [|c n]; [done|].
  apply endswith_inv in Hn as [mid Hmid]. rewrite Hmid in *.
  destruct mid as [|d mid].
  - rewrite str_app_nil_l in Hs. subst h. by vm_compute in Hh.
  - rewrite stem_json in Hs by done. by subst.
Qed.

Lemma dict_get_set {V} (k k' : string) (v : V) (d : list (string * V)) :
  dict_get k (dict_set k' v d) = if decide (k = k') then Some v else dict_get k d.
Proof.
  induction d as [|[k0 v0] d IH]; simpl.
  - destruct (String.eqb_spec k k'); by case_decide.
  - destruct (String.eqb_spec k' k0) as [->|Hne]; simpl.
    + destruct (String.eqb_spec k k0); by case_decide.
    + destruct (String.eqb_spec k k0) as [->|]; [|done].
      by rewrite decide_False by done.
Qed.

(** [get_remote_status] only reads: it returns the dictionary built by
    [remote_step] over the listing and leaves the store as it is. *)
Lemma get_remote_status_reads (e : env) (w : world) :
  AgentPresence.get_remote_status e w =
    (Ok (remote_records e w), w).
Proof.
  unfold AgentPresence.get_remote_status, glob, bind, remote_records, presence_files.
  cbn [entries].
  generalize (filter (fun n => glob_star (os_nt e) "" ".json" n) (names (comms w))).
  generalize (@nil (string * json)).
  intros acc l. revert acc. induction l as [|f l IH]; intros acc; [done|].
  rewrite for_each_cons. cbn [foldl]. unfold remote_step at 2.
  case_bool_decide; [|apply IH].
  unfold try_all, bind, read_json, ret. cbn [entries].
  destruct (comms w !! f) as [[[v|] t]|]; cbn; apply IH.
Qed.

(** The record the dictionary holds for a host identifier [h] on the POSIX
    host: the document of [h.json], unless [h] is the caller. *)
Lemma remote_status_lookup (host : string) (m : gmap string file) (h : string)
    (l : list string) :
  host_ident h = true ->
  NoDup l ->
  (forall n, n ∈ l -> glob_star false "" ".json" n = true) ->
  forall acc,
    dict_get h (foldl (remote_step host m) acc l) =
      match (if bool_decide (h +:+ ".json" ∈ l /\ h <> host)
             then m !! (h +:+ ".json") ≫= parsed_value else None) with
      | Some v => Some v
      | None => dict_get h acc
      end.
Proof.
  intros Hh. induction 1 as [|f l Hf Hl IH]; intros Hglob acc.
  - cbn [foldl]. rewrite bool_decide_eq_false_2; [done|].
    intros [H _]. by apply elem_of_nil in H.
  - cbn [foldl]. rewrite IH by (intros; apply Hglob; by right).
    assert (stem f = h -> f = h +:+ ".json") as Hstem
      by (apply stem_presence_file; [done|apply Hglob; by left]).
    destruct (decide (f = h +:+ ".json")) as [->|Hne].
    + rewrite (bool_decide_eq_false_2 (_ ∈ l /\ _)) by (by intros [? _]).
      unfold remote_step. rewrite !stem_json by (by apply host_ident_nonempty).
      assert (h +:+ ".json" ∈ (h +:+ ".json") :: l) as Hin by (by left).
      repeat case_bool_decide; try tauto.
      destruct (_ ≫= parsed_value); [|reflexivity].
      rewrite dict_get_set. by rewrite decide_True.
    + assert (dict_get h (remote_step host m acc f) = dict_get h acc) as ->.
      { unfold remote_step. destruct (bool_decide (stem f <> host)); [|done].
        destruct (m !! f ≫= parsed_value); [|done].
        rewrite dict_get_set. rewrite decide_False; [done|]. intros Heq. by apply Hne, Hstem. }
      rewrite (bool_decide_ext (h +:+ ".json" ∈ f :: l /\ h <> host)
                 (h +:+ ".json" ∈ l /\ h <> host)); [done|].
      rewrite elem_of_cons. intuition congruence.
Qed.

Lemma presence_file_listed (e : env) (w : world) (h : string) :
  h +:+ ".json" ∈ presence_files e w <-> is_Some (comms w !! (h +:+ ".json")).
Proof.
  unfold presence_files. rewrite list_elem_of_filter. unfold names.
  rewrite list_elem_of_fmap. split.
  - intros [_ [[n f] [-> Hf]]]. apply elem_of_map_to_list in Hf. by eexists.
  - intros [f Hf]. split.
    + apply Is_true_true. exact (glob_star_intro (os_nt e) "" ".json" h).
    + exists (h +:+ ".json", f). split; [done|]. by apply elem_of_map_to_list.
Qed.

(** The record of a host identifier [h] that a caller on the POSIX host
    sees. *)
Lemma visible_record (e : env) (w : world) (h : string) :
  os_nt e = false -> host_ident h = true ->
  dict_get h (remote_records e w) =
    if bool_decide (h <> get_hostname e) then comms w !! (h +:+ ".json") ≫= parsed_value
    else None.
Proof.
  intros Hnt Hh. unfold remote_records. rewrite (remote_status_lookup _ _ h) ; [|done| |].
  - cbn [dict_get].
    destruct (decide (h = get_hostname e)) as [Heq|Hne].
    + rewrite bool_decide_eq_false_2 by (intros [_ ?]; done).
      by rewrite bool_decide_eq_false_2 by (intros H; by apply H).
    + rewrite (bool_decide_eq_true_2 (h <> _)) by done.
      case_bool_decide as Hin; [by destruct (_ ≫= _)|].
      destruct (comms w !! (h +:+ ".json")) as [f|] eqn:Hf; [|done].
      exfalso. apply Hin. split; [|done]. apply presence_file_listed. by eexists.
  - apply NoDup_filter, NoDup_fst_map_to_list.
  - intros n [Hn _]%list_elem_of_filter. rewrite Hnt in Hn. by apply Is_true_true.
Qed.

(** *** Presence files on a host that ignores the case of letters *)
















Example ping_alive :
  exit_status (main (sample_env "wizardpanda") 0 ["ping"; "quasar"] sample_presence).1 = Some 0.
Proof. vm_compute. reflexivity. Qed.

Example ping_stale :
  exit_status (main (sample_env_at 1100000000 "wizardpanda") 0 ["ping"; "quasar"]
                 sample_presence).1 = Some 1.
Proof. vm_compute. reflexivity. Qed.

Example ping_windows :
  exit_status (main (windows_env "wizardpanda") 0 ["ping"; "quasar"] sample_presence_nt).1
  = Some 0 /\
  exit_status (main (sample_env "wizardpanda") 0 ["ping"; "quasar"] sample_presence_nt).1
  = Some 1.
Proof. split; vm_compute; reflexivity. Qed.

(** A timestamp that is an [int] beyond the range of the floats. *)
Example ping_overflow :
  let w := World (<["quasar.json" := File (Parsed (JObj [("timestamp", JInt (10 ^ 400))])) 0]> ∅)
                 ∅ ∅ ∅ None 0 [] in
  (main (sample_env "wizardpanda") 0 ["ping"; "quasar"] w).1 = Raise OverflowError /\
  exit_status (main (sample_env "wizardpanda") 0 ["ping"; "quasar"] w).1 = Some 1.
Proof. split; vm_compute; reflexivity. Qed.

Example ping_no_timestamp :
  (main (sample_env "quasar") 0 ["ping"; "wizardpanda"] sample_presence).1
  = Raise (KeyError "timestamp").
Proof. vm_compute. reflexivity. Qed.

Lemma quiet_refl (w : world) : quiet w w.
Proof. by repeat split. Qed.

Lemma quiet_trans (w1 w2 w3 : world) : quiet w1 w2 -> quiet w2 w3 -> quiet w1 w3.
Proof.
  unfold quiet, same_files. intros (? & ?) (? & ?).
  repeat split; intuition congruence.
Qed.

Lemma quiet_tick (w : world) : quiet w (tick w).
Proof. by repeat split. Qed.

Lemma for_each_quiet {A B} (body : B -> A -> M B) :
  (forall acc x w, quiet w (body acc x w).2) ->
  forall l acc w, quiet w (for_each body acc l w).2.
Proof.
  intros Hbody. induction l as [|x l IH]; intros acc w; [apply quiet_refl|].
  rewrite for_each_cons. specialize (Hbody acc x w).
  destruct (body acc x w) as [[acc'|ex|] w1]; [|done..].
  by eapply quiet_trans, IH.
Qed.



Example status_writes_presence :
  comms (show_status (sample_env "laptop") sample_presence).2 !! "laptop.json"
  = Some (File (Parsed (JObj [("hostname", JStr "laptop"); ("timestamp", JFloat 1000000000);
                               ("status", JStr "active"); ("current_task", JStr "monitoring");
                               ("last_seen", JStr "now")])) 1000000200)
  /\ trace (show_status (sample_env "laptop") sample_presence).2 = [EvSync].
Proof. split; vm_compute; reflexivity. Qed.

(** ** The channel bridge *)







(** The gate of [poll_telegram] only reads. *)
Lemma poll_gate_quiet (e : env) (w : world) : quiet w (poll_gate e w).2.
Proof.
  unfold poll_gate. destruct (os_nt e); [apply quiet_refl|].
  unfold primary_seen. unfold bind at 1. rewrite get_remote_status_reads.
  apply for_each_quiet. intros seen [host data] w0.
  destruct seen; [apply quiet_refl|].
  unfold bind, time_time, lift, ret, raise.
  repeat (case_match; simplify_eq/=); first [apply quiet_refl | apply quiet_tick].
Qed.



Example poll_sample :
  let out := poll_telegram (sample_env "quasar") (fun _ => Http 200 sample_updates)
               sample_config empty_world in
  names (inbox out.2) = ["wizardpanda_1000000.json"] /\
  config_file out.2 = Some (Config "token" (SInt 111) (Some 6)).
Proof. split; vm_compute; reflexivity. Qed.


(** ** Separators in file names *)

Lemma ident_char_not_underscore (c : ascii) :
  ident_char c = true -> Ascii.eqb c "_" = false.
Proof. destruct c as [[] [] [] [] [] [] [] []]; vm_compute; congruence. Qed.

Lemma lower_ascii_underscore (c : ascii) :
  Ascii.eqb (PyStr.lower_ascii c) "_" = Ascii.eqb c "_".
Proof. by destruct c as [[] [] [] [] [] [] [] []]. Qed.

Lemma all_chars_impl (P Q : ascii -> bool) (s : string) :
  (forall c, P c = true -> Q c = true) -> all_chars P s = true -> all_chars Q s = true.
Proof.
  intros HPQ. induction s as [|c s IH]; [done|]. simpl.
  intros [Hc Hs]%andb_true_iff. by rewrite (HPQ c Hc), IH.
Qed.

Lemma host_ident_no_underscore (s : string) :
  host_ident s = true -> no_underscore s = true.
Proof.
  destruct s as [|c s]; [done|]. unfold host_ident.
  intros [_ H]%andb_true_iff. revert H. apply all_chars_impl.
  intros c' Hc'. by rewrite ident_char_not_underscore.
Qed.

Lemma no_underscore_fold nt (s : string) :
  no_underscore s = true -> no_underscore (fold_case nt s) = true.
Proof.
  destruct nt; [|done]. unfold no_underscore, fold_case.
  induction s as [|c s IH]; [done|]. simpl.
  intros [Hc Hs]%andb_true_iff. by rewrite lower_ascii_underscore, Hc, IH.
Qed.

(** Two texts without underscore that are followed by an underscore at the
    start of the same name are the same text. *)
Lemma separator_unique (a b rest r : string) :
  no_underscore a = true -> no_underscore b = true ->
  PyStr.strip_prefix (a +:+ "_") (b +:+ "_" +:+ rest) = Some r -> a = b.
Proof.
  revert b. induction a as [|c a IH]; intros [|d b] Ha Hb H.
  - done.
  - rewrite str_app_nil_l, str_app_cons in H. cbn [PyStr.strip_prefix] in H.
    unfold no_underscore in Hb. cbn [all_chars] in Hb.
    apply andb_true_iff in Hb as [Hd _]. rewrite Ascii.eqb_sym in H.
    destruct (Ascii.eqb d "_"); done.
  - rewrite !str_app_cons, !str_app_nil_l in H. cbn [PyStr.strip_prefix] in H.
    unfold no_underscore in Ha. cbn [all_chars] in Ha.
    apply andb_true_iff in Ha as [Hc _].
    destruct (Ascii.eqb c "_"); done.
  - rewrite !str_app_cons in H. cbn [PyStr.strip_prefix] in H.
    unfold no_underscore in Ha, Hb. cbn [all_chars] in Ha, Hb.
    apply andb_true_iff in Ha as [_ Ha]. apply andb_true_iff in Hb as [_ Hb].
    destruct (Ascii.eqb_spec c d) as [->|]; [|done]. f_equal. by apply IH.
Qed.

(** A name of the shared slot is not listed by the first loop of an agent
    whose identity is a host identifier other than Antigravity. *)
Lemma shared_not_own nt (ident n : string) :
  host_ident ident = true ->
  PyStr.lower ident <> "antigravity" ->
  glob_star nt "Antigravity_" ".json" n = true ->
  glob_star nt (ident +:+ "_") ".json" n = false.
Proof.
  intros Hid Hlow Hn. unfold glob_star in *.
  destruct (PyStr.strip_prefix (fold_case nt "Antigravity_") (fold_case nt n))
    as [rest|] eqn:Hpre; [|done].
  apply strip_prefix_Some in Hpre.
  destruct (PyStr.strip_prefix (fold_case nt (ident +:+ "_")) (fold_case nt n))
    as [r|] eqn:Hown; [|done].
  exfalso. apply Hlow.
  rewrite Hpre, fold_case_app in Hown.
  assert (fold_case nt ident = fold_case nt "Antigravity") as Heq.
  { apply (separator_unique _ _ rest r).
    - by apply no_underscore_fold, host_ident_no_underscore.
    - by destruct nt.
    - by destruct nt. }
  destruct nt; simpl in Heq; [done|]. by subst.
Qed.

(** ** The channel inbox *)

Lemma stale_from_mono (e : env) (k1 k2 : nat) (d : json) :
  (k1 <= k2)%nat -> stale_from e k2 d -> stale_from e k1 d.
Proof.
  intros Hk (k' & ts & stamp & Hk' & ?). exists k', ts, stamp.
  split; [lia|done].
Qed.

Lemma remote_records_comms (e : env) (w w' : world) :
  comms w' = comms w -> remote_records e w' = remote_records e w.
Proof. intros H. unfold remote_records, presence_files. by rewrite H. Qed.

Lemma may_take_mono (e : env) (w w' : world) (k1 k2 : nat) (f : file) :
  comms w' = comms w -> (k1 <= k2)%nat -> may_take e w' k2 f -> may_take e w k1 f.
Proof.
  intros Hc Hk (k0 & Hk0 & Hage & Hstale). exists k0.
  split; [lia|]. split; [done|]. by rewrite <- (remote_records_comms e w w').
Qed.

Lemma quasar_seen_step (e : env) (active : bool) (h : string) (d : json) (s : world) :
  exists r s',
    quasar_seen e active (h, d) s = (r, s') /\
    quiet s s' /\ (ticks s <= ticks s')%nat /\
    (r = Ok false ->
     active = false /\ (PyStr.lower h = "quasar" -> stale_from e (ticks s) d)).
Proof.
  unfold quasar_seen.
  destruct (String.eqb_spec (PyStr.lower h) "quasar") as [Hq|Hq].
  - unfold bind, time_time, lift, ret.
    destruct (py_get d "timestamp" (JInt 0)) as [ts|ex|] eqn:Hts.
    2,3: eexists _, _; split; [reflexivity|]; split; [apply quiet_tick|];
         split; [cbn; lia|done].
    destruct (py_seconds ts) as [stamp|ex|] eqn:Hst.
    2,3: eexists _, _; split; [reflexivity|]; split; [apply quiet_tick|];
         split; [cbn; lia|done].
    eexists _, _. split; [reflexivity|]. split; [apply quiet_tick|].
    split; [cbn; lia|].
    destruct (Z.ltb_spec (clock e (ticks s) - stamp) (120 * second)) as [Hlt|Hge].
    + intros [=].
    + intros [= ->]. split; [done|]. intros _.
      exists (ticks s), ts, stamp. by repeat split.
  - eexists _, s. split; [reflexivity|]. split; [apply quiet_refl|].
    split; [lia|]. intros [= ->]. by split.
Qed.

Lemma quasar_active_loop (e : env) (remotes : list (string * json)) :
  forall (active : bool) (s : world),
    exists r s',
      for_each (quasar_seen e) active remotes s = (r, s') /\
      quiet s s' /\ (ticks s <= ticks s')%nat /\
      (r = Ok false ->
       active = false /\
       forall h d, (h, d) ∈ remotes -> PyStr.lower h = "quasar" ->
                   stale_from e (ticks s) d).
Proof.
  induction remotes as [|[h d] remotes IH]; intros active s.
  - exists (Ok active), s. split; [done|]. split; [apply quiet_refl|].
    split; [lia|]. intros [= ->]. split; [done|]. intros h d Hin. by apply elem_of_nil in Hin.
  - rewrite for_each_cons.
    destruct (quasar_seen_step e active h d s) as (r1 & s1 & -> & Hq1 & Ht1 & Hr1).
    destruct r1 as [a1|ex|].
    2,3: eexists _, s1; split; [reflexivity|]; split; [done|]; split; [done|done].
    destruct (IH a1 s1) as (r & s' & -> & Hq & Ht & Hr).
    exists r, s'. split; [done|]. split; [by eapply quiet_trans|]. split; [lia|].
    intros Hfalse. destruct (Hr Hfalse) as [-> Hrest].
    destruct (Hr1 eq_refl) as [-> Hhead]. split; [done|].
    intros h' d' [[= -> ->]|Hin]%elem_of_cons Hlow.
    + by apply Hhead.
    + apply (stale_from_mono e _ (ticks s1)); [done|]. by apply (Hrest h' d').
Qed.

Lemma is_primary_fallback (e : env) (s : world) :
  PyStr.lower (get_hostname e) <> "quasar" ->
  exists r s',
    is_primary e s = (r, s') /\
    quiet s s' /\ (ticks s <= ticks s')%nat /\
    (r = Ok true ->
     forall h d, (h, d) ∈ remote_records e s -> PyStr.lower h = "quasar" ->
                 stale_from e (ticks s) d).
Proof.
  intros Hhost. unfold is_primary.
  destruct (String.eqb_spec (PyStr.lower (get_hostname e)) "quasar") as [|_]; [done|].
  unfold bind at 1. rewrite get_remote_status_reads. unfold quasar_active, bind.
  destruct (quasar_active_loop e (remote_records e s) false s) as (r & s' & -> & Hq & Ht & Hr).
  destruct r as [[|]|ex|]; eexists _, s'; (split; [reflexivity|]);
    (split; [done|]); (split; [done|]); try done.
  intros _. by apply Hr.
Qed.

(** One round of the second loop: the presence store is left as it was, and
    an item that is taken from the inbox is one that may be taken. *)
Lemma take_shared_step (e : env) (messages : list json) (x : string) (s : world) :
  PyStr.lower (get_hostname e) <> "quasar" ->
  exists r s',
    take_shared e messages x s = (r, s') /\
    comms s' = comms s /\ (ticks s <= ticks s')%nat /\
    (forall n, inbox s !! n = None -> inbox s' !! n = None) /\
    (forall n f, inbox s !! n = Some f ->
       inbox s' !! n = Some f \/ (inbox s' !! n = None /\ may_take e s (ticks s) f)).
Proof.
  intros Hhost. unfold take_shared, try_all. unfold bind at 1. unfold stat_mtime.
  cbn [entries].
  destruct (inbox s !! x) as [fx|] eqn:Hx.
  2: { eexists _, s. split; [reflexivity|]. split; [done|]. split; [lia|].
       split; [done|]. by left. }
  unfold bind at 1. unfold time_time.
  destruct (Z.ltb_spec (60 * second) (clock e (ticks s) - f_mtime fx)) as [Hage|Hage].
  2: { eexists _, (tick s). split; [reflexivity|]. split; [done|]. split; [cbn; lia|].
       split; [done|]. by left. }
  unfold bind at 1.
  destruct (is_primary_fallback e (tick s) Hhost)
    as (r & s1 & -> & ((Hc & _ & Hi & _) & _) & Ht & Hr).
  cbn [comms inbox ticks tick] in Hc, Hi, Ht.
  destruct r as [[|]|ex|].
  2,3,4: eexists _, s1; (split; [reflexivity|]); (split; [done|]); (split; [lia|]);
         (split; [by rewrite <- Hi|]); intros n f Hn; left; by rewrite <- Hi.
  unfold bind at 1. unfold read_json. cbn [entries]. rewrite <- Hi, Hx.
  destruct fx as [[v|] t].
  2: { eexists _, s1. split; [reflexivity|]. split; [done|]. split; [lia|].
       split; [by rewrite <- Hi|]. intros n f Hn. left. by rewrite <- Hi. }
  unfold bind, unlink, ret. cbn [entries]. rewrite <- Hi, Hx.
  eexists _, _. split; [reflexivity|]. cbn [set_entries comms ticks inbox].
  split; [done|]. split; [lia|].
  split; [intros n Hn; by apply lookup_delete_None; right|].
  intros n f Hn. destruct (decide (n = x)) as [->|Hne].
  - right. rewrite lookup_delete_eq. split; [done|].
    rewrite Hx in Hn. injection Hn as <-.
    exists (ticks s). split; [lia|]. split; [done|].
    intros h d Hin Hlow. apply (Hr eq_refl h d); [|done].
    by rewrite (remote_records_comms e s (tick s)).
  - left. by rewrite lookup_delete_ne.
Qed.

Lemma fallback_loop (e : env) (l : list string) :
  PyStr.lower (get_hostname e) <> "quasar" ->
  forall (messages : list json) (s : world),
    exists r s',
      for_each (take_shared e) messages l s = (r, s') /\
      comms s' = comms s /\ (ticks s <= ticks s')%nat /\
      (forall n, inbox s !! n = None -> inbox s' !! n = None) /\
      (forall n f, inbox s !! n = Some f ->
         inbox s' !! n = Some f \/ (inbox s' !! n = None /\ may_take e s (ticks s) f)).
Proof.
  intros Hhost. induction l as [|x l IH]; intros messages s.
  - eexists _, s. split; [reflexivity|]. split; [done|]. split; [lia|].
    split; [done|]. by left.
  - rewrite for_each_cons.
    destruct (take_shared_step e messages x s Hhost)
      as (r1 & s1 & -> & Hc1 & Ht1 & Hnew1 & Hn1).
    destruct r1 as [acc|ex|].
    2,3: by eexists _, s1.
    destruct (IH acc s1) as (r & s' & -> & Hc & Ht & Hnew & Hn).
    exists r, s'. split; [done|]. split; [congruence|]. split; [lia|].
    split; [by auto|].
    intros n f Hnf. destruct (Hn1 n f Hnf) as [Hkeep|[Hgone Hmay]].
    + destruct (Hn n f Hkeep) as [?|[? Hmay]]; [by left|].
      right. split; [done|]. by apply (may_take_mono e s s1 _ (ticks s1)).
    + right. split; [by apply Hnew|done].
Qed.

(** The first loop leaves alone the entries that are not in its listing,
    the presence store and the clock. *)
Lemma own_loop (l : list string) :
  forall (messages : list json) (s : world),
    exists r s',
      for_each take_own messages l s = (r, s') /\
      comms s' = comms s /\ ticks s' = ticks s /\
      (forall n, n ∉ l -> inbox s' !! n = inbox s !! n).
Proof.
  induction l as [|x l IH]; intros messages s.
  - by eexists _, s.
  - rewrite for_each_cons.
    assert (exists r1 s1, take_own messages x s = (r1, s1) /\
              comms s1 = comms s /\ ticks s1 = ticks s /\
              (forall n, n <> x -> inbox s1 !! n = inbox s !! n))
      as (r1 & s1 & -> & Hc1 & Ht1 & Hn1).
    { unfold take_own, try_all, bind, read_json, unlink, ret. cbn [entries].
      destruct (inbox s !! x) as [[[v|] t]|] eqn:Hx; try (by eexists _, s).
      rewrite Hx. eexists _, _. split; [reflexivity|].
      repeat split. intros n Hne. cbn. by rewrite lookup_delete_ne. }
    destruct r1 as [acc|ex|].
    2,3: eexists _, s1; (split; [reflexivity|]); (split; [done|]); (split; [done|]);
         intros n Hn; apply Hn1; intros ->; apply Hn; by left.
    destruct (IH acc s1) as (r & s' & -> & Hc & Ht & Hn).
    exists r, s'. split; [done|]. split; [congruence|]. split; [congruence|].
    intros n Hnl. rewrite Hn by (intros ?; apply Hnl; by right).
    apply Hn1. intros ->. apply Hnl. by left.
Qed.

(** What a poll of the channel inbox by a fallback host does to an item of
    the shared slot: it leaves it, or takes it when it may. *)
Lemma shared_item_fate (e : env) (w : world) (n : string) (f : file) :
  PyStr.lower (get_hostname e) <> "quasar" ->
  host_ident (agent_identity e) = true ->
  PyStr.lower (agent_identity e) <> "antigravity" ->
  glob_star (os_nt e) "Antigravity_" ".json" n = true ->
  inbox w !! n = Some f ->
  let w' := (listen_for_telegram_messages e w).2 in
  inbox w' !! n = Some f \/ (inbox w' !! n = None /\ may_take e w (ticks w) f).
Proof.
  intros Hhost Hid Hag Hn Hf. cbv zeta.
  destruct (listen_for_telegram_messages e w) as [r0 w'] eqn:Hrun. cbn [snd].
  unfold listen_for_telegram_messages in Hrun. unfold bind at 1 in Hrun.
  unfold priority_pass in Hrun. unfold bind at 1 in Hrun. unfold glob at 1 in Hrun.
  cbn [entries] in Hrun.
  set (own := filter _ (names (inbox w))) in Hrun.
  assert (n ∉ own) as Hown.
  { unfold own. rewrite list_elem_of_filter. intros [Hm _].
    apply Is_true_true in Hm. by rewrite shared_not_own in Hm. }
  destruct (own_loop own [] w) as (r1 & s1 & Hrun1 & Hc1 & Ht1 & Hn1).
  rewrite Hrun1 in Hrun.
  assert (inbox s1 !! n = Some f) as Hf1 by (by rewrite Hn1).
  destruct r1 as [messages|ex|]; [|injection Hrun as <- <-; by left..].
  destruct (String.eqb_spec (PyStr.lower (agent_identity e)) "antigravity") as [|_]; [done|].
  unfold fallback_pass in Hrun. unfold bind at 1 in Hrun. unfold glob at 1 in Hrun.
  cbn [entries] in Hrun.
  destruct (fallback_loop e (filter (fun n => glob_star (os_nt e) "Antigravity_" ".json" n)
                                    (names (inbox s1))) Hhost messages s1)
    as (r & s' & Hrun2 & Hc & Ht & _ & Hfate).
  rewrite Hrun2 in Hrun. injection Hrun as <- <-.
  destruct (Hfate n f Hf1) as [?|[? Hmay]]; [by left|].
  right. split; [done|]. apply (may_take_mono e w s1 _ (ticks s1)); [done|lia|done].
Qed.

(** C1, as amended.  A host that is not Quasar nor the IDE agent takes an
    item of the shared slot only when the item is more than 60 seconds old
    and every presence record of Quasar it sees is at least 120 seconds old
    (there may be none).  While a record of Quasar is less than 60 seconds
    old, the host leaves every item of the shared slot in place, whatever
    the age of the item. *)
Theorem fallback_takes_only_stale (e : env) (w : world) (n : string) (f : file) :
  PyStr.lower (get_hostname e) <> "quasar" ->
  host_ident (agent_identity e) = true ->
  PyStr.lower (agent_identity e) <> "antigravity" ->
  glob_star (os_nt e) "Antigravity_" ".json" n = true ->
  inbox w !! n = Some f ->
  let w' := (listen_for_telegram_messages e w).2 in
  (inbox w' !! n = None -> may_take e w (ticks w) f) /\
  (forall h d ts stamp,
      (h, d) ∈ remote_records e w -> PyStr.lower h = "quasar" ->
      py_get d "timestamp" (JInt 0) = Ok ts -> py_seconds ts = Ok stamp ->
      (forall k, (ticks w <= k)%nat -> clock e k - stamp < 60 * second) ->
      inbox w' !! n = Some f).
Proof.
  intros Hhost Hid Hag Hn Hf. cbv zeta.
  destruct (shared_item_fate e w n f Hhost Hid Hag Hn Hf) as [Hkeep|[Hgone Hmay]].
  - split; [by rewrite Hkeep|done].
  - split; [done|].
    intros h d ts stamp Hin Hlow Hts Hst Hfresh. exfalso.
    destruct Hmay as (k0 & Hk0 & _ & Hstale).
    destruct (Hstale h d Hin Hlow) as (k' & ts' & stamp' & Hk' & Hts' & Hst' & Hold).
    rewrite Hts in Hts'. injection Hts' as <-. rewrite Hst in Hst'. injection Hst' as <-.
    specialize (Hfresh k'). unfold second in *. lia.
Qed.

Lemma fallback_takes_only_stale_witness :
  let e := frozen_env 1000000000 "wizardpanda" in
  let w' := (listen_for_telegram_messages e sample_slot).2 in
  (inbox w' !! "Antigravity_939000.json" = None ->
   may_take e sample_slot (ticks sample_slot)
     (File (Parsed (JObj [("text", JStr "status"); ("timestamp", JFloat 939000000)]))
           939000000)) /\
  (forall h d ts stamp,
      (h, d) ∈ remote_records e sample_slot -> PyStr.lower h = "quasar" ->
      py_get d "timestamp" (JInt 0) = Ok ts -> py_seconds ts = Ok stamp ->
      (forall k, (ticks sample_slot <= k)%nat -> clock e k - stamp < 60 * second) ->
      inbox w' !! "Antigravity_939000.json"
      = Some (File (Parsed (JObj [("text", JStr "status"); ("timestamp", JFloat 939000000)]))
                   939000000)).
Proof.
  intros e.
  apply (fallback_takes_only_stale e sample_slot "Antigravity_939000.json");
    [by vm_compute | reflexivity | by vm_compute | reflexivity | reflexivity].
Defined.

(** C1 as stated fails: the record of Quasar is exactly 120 seconds old,
    not more, and wizardpanda takes the item, which is 61 seconds old. *)
Lemma fallback_takes_at_120_seconds :
  let e := frozen_env 1000000000 "wizardpanda" in
  let out := listen_for_telegram_messages e sample_slot in
  comms sample_slot !! "quasar.json"
  = Some (File (Parsed (JObj [("hostname", JStr "quasar"); ("timestamp", JFloat 880000000)]))
               880000000) /\
  (forall k, clock e k - 880000000 = 120 * second) /\
  (forall k, clock e k - 939000000 = 61 * second) /\
  out.1 = Ok [JObj [("text", JStr "status"); ("timestamp", JFloat 939000000)]] /\
  inbox out.2 !! "Antigravity_939000.json" = None.
Proof. repeat split; vm_compute; reflexivity. Qed.

(** ** Routing by prefix *)











(** The first loop over a listing without repetition returns the document
    of every listed file that parses and removes the file. *)
Lemma own_loop_takes (l : list string) :
  NoDup l ->
  forall (messages : list json) (s : world),
    exists msgs s',
      for_each take_own messages l s = (Ok msgs, s') /\
      (forall v, v ∈ messages -> v ∈ msgs) /\
      (forall n, n ∉ l -> inbox s' !! n = inbox s !! n) /\
      (forall n v t, n ∈ l -> inbox s !! n = Some (File (Parsed v) t) ->
                     v ∈ msgs /\ inbox s' !! n = None).
Proof.
  induction 1 as [|x l Hx Hl IH]; intros messages s.
  - exists messages, s. split; [done|]. split; [done|]. split; [done|].
    intros n v t Hn. by apply elem_of_nil in Hn.
  - rewrite for_each_cons.
    destruct (inbox s !! x) as [[[v|] t]|] eqn:Hsx.
    + assert (take_own messages x s =
              (Ok (messages ++ [v]), set_entries Inbox (delete x (inbox s)) s)) as ->.
      { unfold take_own, try_all, bind, read_json, unlink, ret. cbn [entries].
        rewrite Hsx. by rewrite Hsx. }
      destruct (IH (messages ++ [v]) (set_entries Inbox (delete x (inbox s)) s))
        as (msgs & s' & -> & Hacc & Hframe & Htake).
      cbn [set_entries inbox] in Hframe, Htake.
      exists msgs, s'. split; [done|].
      split; [intros v' Hv'; apply Hacc, elem_of_app; by left|].
      split.
      * intros n Hn. rewrite Hframe by (intros ?; apply Hn; by right).
        apply lookup_delete_ne. intros ->. apply Hn. by left.
      * intros n v' t' [->|Hn]%elem_of_cons Hsn.
        -- rewrite Hsx in Hsn. injection Hsn as <- <-. split.
           ++ apply Hacc, elem_of_app. right. by left.
           ++ rewrite Hframe by done. apply lookup_delete_eq.
        -- apply (Htake n v' t'); [done|].
           rewrite lookup_delete_ne; [done|]. by intros ->.
    + assert (take_own messages x s = (Ok messages, s)) as ->.
      { unfold take_own, try_all, bind, read_json, ret. cbn [entries]. by rewrite Hsx. }
      destruct (IH messages s) as (msgs & s' & -> & Hacc & Hframe & Htake).
      exists msgs, s'. split; [done|]. split; [done|]. split.
      * intros n Hn. apply Hframe. intros ?; apply Hn; by right.
      * intros n v' t' [->|Hn]%elem_of_cons Hsn; [congruence|]. by apply (Htake n v' t').
    + assert (take_own messages x s = (Ok messages, s)) as ->.
      { unfold take_own, try_all, bind, read_json, ret. cbn [entries]. by rewrite Hsx. }
      destruct (IH messages s) as (msgs & s' & -> & Hacc & Hframe & Htake).
      exists msgs, s'. split; [done|]. split; [done|]. split.
      * intros n Hn. apply Hframe. intros ?; apply Hn; by right.
      * intros n v' t' [->|Hn]%elem_of_cons Hsn; [congruence|]. by apply (Htake n v' t').
Qed.

(** What the first loop of the inbox poll of [e] does: a file it lists that
    parses is returned and removed, a file it does not list is left. *)
Lemma priority_pass_spec (e : env) (w : world) :
  exists msgs w',
    priority_pass e w = (Ok msgs, w') /\
    (forall n, own e n = false -> inbox w' !! n = inbox w !! n) /\
    (forall n v t, own e n = true -> inbox w !! n = Some (File (Parsed v) t) ->
                   v ∈ msgs /\ inbox w' !! n = None).
Proof.
  unfold priority_pass, glob, bind. cbn [entries].
  set (l := filter _ (names (inbox w))).
  destruct (own_loop_takes l) with (messages := @nil json) (s := w)
    as (msgs & w' & -> & _ & Hframe & Htake).
  { apply NoDup_filter, NoDup_fst_map_to_list. }
  exists msgs, w'. split; [done|]. split.
  - intros n Hn. apply Hframe. unfold l. rewrite list_elem_of_filter.
    intros [Hm _]. apply Is_true_true in Hm. unfold own in Hn. congruence.
  - intros n v t Hn Hf. apply (Htake n v t); [|done].
    unfold l. apply list_elem_of_filter. split; [by apply Is_true_true|].
    unfold names. apply list_elem_of_fmap. exists (n, File (Parsed v) t).
    split; [done|]. by apply elem_of_map_to_list.
Qed.






(** The same instruction addressed to the IDE agent: the first rule of
    [handle_instruction] has taken the prefix away before the rule for
    Antigravity looks for it. *)
Example prefix_antigravity_lowercased :
  names (inbox (handle_instruction (sample_env "wizardpanda") "to antigravity: hello"
                  empty_world).2) = ["antigravity_1000000.json"] /\
  names (inbox (handle_instruction (sample_env "wizardpanda") "to antigravity hello"
                  empty_world).2) = ["Antigravity_1000000.json"].
Proof. split; vm_compute; reflexivity. Qed.

(** ** The agent loop *)












Example failure_becomes_reply :
  let out := handle_message (failing_env "wizardpanda") sample_task empty_world in
  out.1 = Ok tt /\
  (parsed_value <$> mailbox out.2 !! "quasar_wizardpanda_1000000.json") =
    Some (Some (JObj [("id", JInt 1000000); ("from", JStr "wizardpanda"); ("to", JStr "quasar");
                      ("type", JStr "result");
                      ("content", JObj [("text", JStr "Error executing task: boom")]);
                      ("timestamp", JFloat 1000000100)])).
Proof. split; vm_compute; reflexivity. Qed.


(** * Further properties *)

(** ** Presence records seen by peers *)

Lemma remote_step_skips_self (host : string) (m : gmap string file) (l : list string) :
  forall acc, dict_get host (foldl (remote_step host m) acc l) = dict_get host acc.
Proof.
  induction l as [|f l IH]; intros acc; [done|]. cbn [foldl]. rewrite IH.
  unfold remote_step. destruct (bool_decide (stem f <> host)) eqn:Hd; [|done].
  apply bool_decide_eq_true in Hd.
  destruct (m !! f ≫= parsed_value); [|done].
  rewrite dict_get_set. by rewrite decide_False by congruence.
Qed.

(** X1.  [get_remote_status] only reads: it returns normally and leaves the
    store as it was.  The dictionary it returns never holds a record under
    the caller's own name, and on the POSIX host it holds, for any other
    host identifier [h], the document of [h.json] when that file exists and
    parses, and nothing when the file is missing or does not parse. *)
Theorem remote_status_lists_other_hosts (e : env) (w : world) (h : string) :
  os_nt e = false ->
  host_ident h = true ->
  exists remotes,
    AgentPresence.get_remote_status e w = (Ok remotes, w) /\
    dict_get (get_hostname e) remotes = None /\
    dict_get h remotes =
      if bool_decide (h <> get_hostname e)
      then comms w !! (h +:+ ".json") ≫= parsed_value
      else None.
Proof.
  intros Hnt Hh. exists (remote_records e w).
  split; [apply get_remote_status_reads|]. split.
  - unfold remote_records. by rewrite remote_step_skips_self.
  - by apply visible_record.
Qed.

Lemma remote_status_lists_other_hosts_witness :
  exists remotes,
    AgentPresence.get_remote_status (sample_env "wizardpanda") sample_presence
    = (Ok remotes, sample_presence) /\
    dict_get (get_hostname (sample_env "wizardpanda")) remotes = None /\
    dict_get "quasar" remotes =
      if bool_decide ("quasar" <> get_hostname (sample_env "wizardpanda"))
      then comms sample_presence !! ("quasar" +:+ ".json") ≫= parsed_value
      else None.
Proof.
  apply (remote_status_lists_other_hosts (sample_env "wizardpanda") sample_presence "quasar");
    reflexivity.
Defined.

(** X2.  A heartbeat of host A is what host B reads next: after
    [AgentPresence.update status task] by A, [get_remote_status] of any
    other POSIX host B returns under A's name the record that the update
    returned, with the status, the task and the clock reading of A; A itself
    does not see its own record. *)
Theorem heartbeat_visible_to_peer (ea eb : env) (status task : string) (w : world) :
  os_nt eb = false ->
  host_ident (get_hostname ea) = true ->
  get_hostname ea <> get_hostname eb ->
  let beat := AgentPresence.update ea status task w in
  exists d remotes,
    beat.1 = Ok d /\
    AgentPresence.get_remote_status eb beat.2 = (Ok remotes, beat.2) /\
    dict_get (get_hostname ea) remotes = Some d /\
    py_getitem d "status" = Ok (JStr status) /\
    py_getitem d "current_task" = Ok (JStr task) /\
    py_getitem d "timestamp" = Ok (JFloat (clock ea (ticks w))) /\
    dict_get (get_hostname ea) (remote_records ea beat.2) = None.
Proof.
  intros Hnt Hid Hne. cbv zeta.
  set (d := AgentPresence.record ea (get_hostname ea) (clock ea (ticks w))
              (clock ea (S (ticks w))) status task).
  set (w1 := (AgentPresence.update ea status task w).2).
  assert (AgentPresence.update ea status task w = (Ok d, w1)) as Hrun by reflexivity.
  assert (comms w1 !! (get_hostname ea +:+ ".json") =
          Some (File (Parsed d) (clock ea (S (S (ticks w)))))) as Hfile
    by apply lookup_insert_eq.
  exists d, (remote_records eb w1). rewrite Hrun. cbn [fst snd].
  split; [done|]. split; [apply get_remote_status_reads|]. split.
  - rewrite visible_record by done.
    rewrite bool_decide_eq_true_2 by done. by rewrite Hfile.
  - repeat split. unfold remote_records. by rewrite remote_step_skips_self.
Qed.

Lemma heartbeat_visible_to_peer_witness :
  let ea := sample_env "quasar" in
  let eb := sample_env "wizardpanda" in
  let beat := AgentPresence.update ea "active" "building" empty_world in
  exists d remotes,
    beat.1 = Ok d /\
    AgentPresence.get_remote_status eb beat.2 = (Ok remotes, beat.2) /\
    dict_get (get_hostname ea) remotes = Some d /\
    py_getitem d "status" = Ok (JStr "active") /\
    py_getitem d "current_task" = Ok (JStr "building") /\
    py_getitem d "timestamp" = Ok (JFloat (clock ea (ticks empty_world))) /\
    dict_get (get_hostname ea) (remote_records ea beat.2) = None.
Proof.
  intros ea eb.
  apply (heartbeat_visible_to_peer ea eb "active" "building" empty_world);
    [reflexivity | reflexivity | by vm_compute].
Defined.

(** ** Delivery in the mailbox *)

(** A message file written for [recipient] is not listed by the mailbox poll
    of a host whose name differs from [recipient] by more than the case of
    its letters. *)
Lemma message_file_not_addressed (e : env) (recipient sender : string) (msg_id : Z) :
  host_ident recipient = true ->
  host_ident (get_hostname e) = true ->
  PyStr.lower (get_hostname e) <> PyStr.lower recipient ->
  addressed e (message_file recipient sender msg_id) = false.
Proof.
  intros Hr Hh Hne. unfold addressed, message_file, glob_star.
  destruct (PyStr.strip_prefix _ _) as [r|] eqn:Hpre; [|done].
  exfalso. apply Hne.
  rewrite !fold_case_app in Hpre.
  assert (fold_case (os_nt e) "_" = "_") as Hus by (by destruct (os_nt e)).
  rewrite Hus in Hpre.
  apply separator_unique in Hpre;
    [|by apply no_underscore_fold, host_ident_no_underscore..].
  destruct (os_nt e); simpl in Hpre; congruence.
Qed.

(** X3.  A message stays for its recipient, among hosts whose names are
    host identifiers (letters, digits, [-] and [.], hence no underscore):
    the file [send_message] writes for such a recipient is still in the
    mailbox, unchanged, after the mailbox poll of any such host whose name
    differs from the recipient's by more than letter case, and the poll of
    the recipient returns its document and removes it. *)
Theorem message_stays_for_its_recipient (ea eb ec : env) (type : string) (content : json)
    (w : world) :
  host_ident (get_hostname eb) = true ->
  host_ident (get_hostname ec) = true ->
  PyStr.lower (get_hostname ec) <> PyStr.lower (get_hostname eb) ->
  exists name w1 f m,
    send_message ea (get_hostname eb) type content w = (Ok name, w1) /\
    mailbox w1 !! name = Some f /\ parsed_value f = Some m /\
    py_getitem m "to" = Ok (JStr (get_hostname eb)) /\
    mailbox (listen_for_messages ec w1).2 !! name = Some f /\
    (exists msgs, (listen_for_messages eb w1).1 = Ok msgs /\ m ∈ msgs) /\
    mailbox (listen_for_messages eb w1).2 !! name = None.
Proof.
  intros Hb Hc Hne. rewrite send_message_store. cbv zeta.
  set (name := message_file _ _ _). set (payload := JObj _).
  set (f := File (Parsed payload) _). set (w1 := World _ _ _ _ _ _ _).
  assert (mailbox w1 !! name = Some f) as Hfile by apply lookup_insert_eq.
  exists name, w1, f, payload.
  split; [done|]. split; [done|]. split; [done|]. split; [done|]. split; [|split].
  - destruct (listen_for_messages_spec ec w1) as (w2 & -> & Hlook & _). cbn [snd].
    rewrite Hlook, bool_decide_eq_false_2; [done|].
    intros [Ha _]. unfold name in Ha. by rewrite message_file_not_addressed in Ha.
  - destruct (listen_for_messages_spec eb w1) as (w2 & -> & _). cbn [fst].
    eexists. split; [reflexivity|].
    apply list_elem_of_omap. exists (name, f).
    split; [by apply elem_of_map_to_list|].
    unfold name. by rewrite message_file_addressed.
  - destruct (listen_for_messages_spec eb w1) as (w2 & -> & Hlook & _). cbn [snd].
    rewrite Hlook, bool_decide_eq_true_2; [done|]. split.
    + unfold name. by rewrite message_file_addressed.
    + rewrite Hfile. by eexists.
Qed.

Lemma message_stays_for_its_recipient_witness :
  let ea := sample_env "quasar" in
  let eb := sample_env "wizardpanda" in
  let ec := sample_env "pi5" in
  exists name w1 f m,
    send_message ea (get_hostname eb) "task" (JObj [("text", JStr "status")]) empty_world
    = (Ok name, w1) /\
    mailbox w1 !! name = Some f /\ parsed_value f = Some m /\
    py_getitem m "to" = Ok (JStr (get_hostname eb)) /\
    mailbox (listen_for_messages ec w1).2 !! name = Some f /\
    (exists msgs, (listen_for_messages eb w1).1 = Ok msgs /\ m ∈ msgs) /\
    mailbox (listen_for_messages eb w1).2 !! name = None.
Proof.
  intros ea eb ec.
  apply (message_stays_for_its_recipient ea eb ec "task" (JObj [("text", JStr "status")])
           empty_world); [reflexivity | reflexivity | by vm_compute].
Defined.

(** The names have to be host identifiers: a host named [a] lists, and
    takes, the message written for a host named [a_b]. *)
Example underscore_in_host_name :
  let sent := send_message (sample_env "quasar") "a_b" "task" (JObj [("text", JStr "status")])
                empty_world in
  sent.1 = Ok "a_b_quasar_1000000.json" /\
  (exists m, (listen_for_messages (sample_env "a") sent.2).1 = Ok [m] /\
             py_getitem m "to" = Ok (JStr "a_b")) /\
  mailbox (listen_for_messages (sample_env "a") sent.2).2 = ∅.
Proof.
  split; [vm_compute; reflexivity|]. split; [|vm_compute; reflexivity].
  eexists. split; vm_compute; reflexivity.
Qed.

Lemma omap_none {A B} (g : A -> option B) (l : list A) :
  (forall x, x ∈ l -> g x = None) -> omap g l = [].
Proof.
  induction l as [|x l IH]; intros H; [done|].
  rewrite omap_cons, (H x) by (by left). apply IH. intros y Hy. apply H. by right.
Qed.

(** X4.  Whatever the mailbox holds, a mailbox poll leaves nothing for the
    next one: a second [listen_for_messages] of the same host, with no send
    in between, returns no message and leaves the mailbox as the first poll
    left it.  A message that was read is therefore delivered once. *)
Theorem second_poll_returns_nothing (e : env) (w : world) :
  let first := listen_for_messages e w in
  let second := listen_for_messages e first.2 in
  second.1 = Ok [] /\ mailbox second.2 = mailbox first.2.
Proof.
  cbv zeta.
  destruct (listen_for_messages_spec e w) as (w1 & -> & Hlook1 & _). cbn [snd].
  assert (forall n f, mailbox w1 !! n = Some f -> addressed e n = true ->
                      parsed_value f = None) as Hleft.
  { intros n f Hn Ha. pose proof (Hlook1 n) as Hl. rewrite Hn in Hl.
    destruct (bool_decide _) eqn:Hd; [done|]. apply bool_decide_eq_false in Hd.
    destruct (parsed_value f) as [v|] eqn:Hp; [|done].
    exfalso. apply Hd. split; [by rewrite Ha|]. rewrite <- Hl. cbn. rewrite Hp. by eexists. }
  destruct (listen_for_messages_spec e w1) as (w2 & -> & Hlook2 & _). cbn [fst snd].
  split.
  - f_equal. apply omap_none. intros [n f] Hin%elem_of_map_to_list.
    destruct (addressed e n) eqn:Ha; [|done]. by apply (Hleft n f).
  - apply map_eq. intros k. rewrite Hlook2.
    destruct (bool_decide _) eqn:Hd; [|done]. apply bool_decide_eq_true in Hd.
    destruct Hd as [Ha [v Hv]].
    destruct (mailbox w1 !! k) as [f|] eqn:Hk; [|done].
    cbn in Hv. rewrite (Hleft k f) in Hv; [done|done|]. by apply Is_true_true.
Qed.

(** X5.  Replies are not answered: the message that [send_message] writes
    with type [result] (the type of every reply of the agent loop) parses,
    and handling it in the agent loop of any host returns at once: no
    collaborator is asked, nothing is sent and the store is left as it
    was. *)
Theorem replies_are_not_answered (e e' : env) (recipient : string) (content : json)
    (w w' : world) :
  let sent := send_message e recipient "result" content w in
  exists name f m,
    sent.1 = Ok name /\ mailbox sent.2 !! name = Some f /\ parsed_value f = Some m /\
    handle_message e' m w' = (Ok tt, w').
Proof.
  cbv zeta. rewrite send_message_store. cbv zeta. cbn [fst snd mailbox].
  eexists _, _, _. split; [reflexivity|]. split; [apply lookup_insert_eq|].
  split; reflexivity.
Qed.

(** ** The shared slot of the channel inbox *)

Lemma is_primary_quiet (e : env) (s : world) :
  exists r s', is_primary e s = (r, s') /\ quiet s s' /\ (ticks s <= ticks s')%nat.
Proof.
  destruct (String.eqb_spec (PyStr.lower (get_hostname e)) "quasar") as [Hq|Hq].
  - exists (Ok true), s. unfold is_primary. rewrite Hq.
    split; [done|]. split; [apply quiet_refl|lia].
  - destruct (is_primary_fallback e s Hq) as (r & s' & H & Hq' & Ht & _). by exists r, s'.
Qed.

(** One round of the second loop, on any host: only the entry it looks at
    can change, and that entry is left when it is at most 60 seconds old. *)
Lemma take_shared_any (e : env) (messages : list json) (x : string) (s : world) :
  exists r s',
    take_shared e messages x s = (r, s') /\
    comms s' = comms s /\ (ticks s <= ticks s')%nat /\
    (forall n, n <> x -> inbox s' !! n = inbox s !! n) /\
    (forall f, inbox s !! x = Some f -> clock e (ticks s) - f_mtime f <= 60 * second ->
               inbox s' !! x = Some f).
Proof.
  unfold take_shared, try_all. unfold bind at 1. unfold stat_mtime. cbn [entries].
  destruct (inbox s !! x) as [fx|] eqn:Hx.
  2: { eexists _, s. split; [reflexivity|]. split; [done|]. split; [lia|]. by split. }
  unfold bind at 1. unfold time_time.
  destruct (Z.ltb_spec (60 * second) (clock e (ticks s) - f_mtime fx)) as [Hage|Hage].
  2: { eexists _, (tick s). split; [reflexivity|]. split; [done|]. split; [cbn; lia|].
       split; [done|]. intros f [= <-] _. done. }
  unfold bind at 1.
  destruct (is_primary_quiet e (tick s)) as (r & s1 & -> & ((Hc & _ & Hi & _) & _) & Ht).
  cbn [comms inbox ticks tick] in Hc, Hi, Ht.
  assert (forall f, Some fx = Some f -> clock e (ticks s) - f_mtime f <= 60 * second ->
                    inbox s1 !! x = Some f) as Hyoung
    by (intros f [= <-] ?; lia).
  destruct r as [[|]|ex|].
  2,3,4: eexists _, s1; (split; [reflexivity|]); (split; [done|]); (split; [lia|]);
         (split; [intros n _; by rewrite <- Hi|]); intros f [= <-] ?; lia.
  unfold bind at 1. unfold read_json. cbn [entries]. rewrite <- Hi, Hx.
  destruct fx as [[v|] t].
  2: { eexists _, s1. split; [reflexivity|]. split; [done|]. split; [lia|].
       split; [intros n _; by rewrite <- Hi|]. intros f [= <-] ?. cbn in *. lia. }
  unfold bind, unlink, ret. cbn [entries]. rewrite <- Hi, Hx.
  eexists _, _. split; [reflexivity|]. cbn [set_entries comms ticks inbox].
  split; [done|]. split; [lia|]. split.
  - intros n Hne. by rewrite lookup_delete_ne.
  - intros f [= <-] ?. cbn in *. lia.
Qed.

Lemma shared_loop_any (e : env) (l : list string) :
  forall (messages : list json) (s : world),
    exists r s',
      for_each (take_shared e) messages l s = (r, s') /\
      comms s' = comms s /\ (ticks s <= ticks s')%nat /\
      (forall n, n ∉ l -> inbox s' !! n = inbox s !! n) /\
      (forall n f, inbox s !! n = Some f ->
         (forall k, (ticks s <= k)%nat -> clock e k - f_mtime f <= 60 * second) ->
         inbox s' !! n = Some f).
Proof.
  induction l as [|x l IH]; intros messages s.
  - eexists _, s. split; [reflexivity|]. split; [done|]. split; [lia|]. by split.
  - rewrite for_each_cons.
    destruct (take_shared_any e messages x s) as (r1 & s1 & -> & Hc1 & Ht1 & Hn1 & Hy1).
    assert (forall n f, inbox s !! n = Some f ->
              (forall k, (ticks s <= k)%nat -> clock e k - f_mtime f <= 60 * second) ->
              inbox s1 !! n = Some f) as Hkeep1.
    { intros n f Hn Hyoung. destruct (decide (n = x)) as [->|Hne].
      - apply Hy1; [done|]. by apply Hyoung.
      - by rewrite Hn1. }
    assert (forall n, n ∉ x :: l -> inbox s1 !! n = inbox s !! n) as Hframe1.
    { intros n Hn. apply Hn1. intros ->. apply Hn. by left. }
    destruct r1 as [acc|ex|].
    2,3: eexists _, s1; (split; [reflexivity|]); (split; [done|]); (split; [done|]);
         by split.
    destruct (IH acc s1) as (r & s' & -> & Hc & Ht & Hn & Hy).
    exists r, s'. split; [done|]. split; [congruence|]. split; [lia|]. split.
    + intros n Hnl. rewrite Hn by (intros ?; apply Hnl; by right). by apply Hframe1.
    + intros n f Hnf Hyoung. apply Hy; [by apply Hkeep1|].
      intros k Hk. apply Hyoung. lia.
Qed.

(** The first loop does not read the clock and leaves the presence store. *)
Lemma priority_pass_clock (e : env) (w : world) :
  ticks (priority_pass e w).2 = ticks w /\ comms (priority_pass e w).2 = comms w.
Proof.
  unfold priority_pass, glob, bind. cbn [entries].
  destruct (own_loop (filter (fun n => glob_star (os_nt e) (agent_identity e +:+ "_") ".json" n)
                             (names (inbox w))) [] w) as (r & s' & -> & Hc & Ht & _).
  done.
Qed.

(** X6.  An item of the shared slot that is at most 60 seconds old at every
    reading of the clock is left in place by the channel poll of every
    background agent, Quasar included, whatever the presence store holds. *)
Theorem young_shared_items_are_left (e : env) (w : world) (n : string) (f : file) :
  host_ident (agent_identity e) = true ->
  PyStr.lower (agent_identity e) <> "antigravity" ->
  glob_star (os_nt e) "Antigravity_" ".json" n = true ->
  inbox w !! n = Some f ->
  (forall k, (ticks w <= k)%nat -> clock e k - f_mtime f <= 60 * second) ->
  inbox (listen_for_telegram_messages e w).2 !! n = Some f.
Proof.
  intros Hid Hag Hn Hf Hyoung.
  unfold listen_for_telegram_messages. unfold bind at 1.
  destruct (priority_pass_spec e w) as (msgs & w1 & Hrun & Hframe & _).
  pose proof (priority_pass_clock e w) as [Ht1 _].
  rewrite Hrun in Ht1 |- *. cbn [snd] in Ht1.
  destruct (String.eqb_spec (PyStr.lower (agent_identity e)) "antigravity") as [|_]; [done|].
  unfold fallback_pass, glob, bind. cbn [entries].
  destruct (shared_loop_any e (filter (fun n => glob_star (os_nt e) "Antigravity_" ".json" n)
                                      (names (inbox w1))) msgs w1)
    as (r & s' & -> & _ & _ & _ & Hkeep).
  cbn [snd]. apply Hkeep.
  - rewrite Hframe; [done|]. unfold own. by apply shared_not_own.
  - intros k Hk. apply Hyoung. lia.
Qed.

Lemma young_shared_items_are_left_witness :
  inbox (listen_for_telegram_messages (frozen_env 990000000 "quasar") sample_slot).2
    !! "Antigravity_939000.json"
  = Some (File (Parsed (JObj [("text", JStr "status"); ("timestamp", JFloat 939000000)]))
               939000000).
Proof.
  apply (young_shared_items_are_left (frozen_env 990000000 "quasar") sample_slot);
    [reflexivity | by vm_compute | reflexivity | reflexivity |].
  intros k _. by vm_compute.
Defined.

(** One round of the second loop on Quasar. *)
Lemma take_shared_quasar (e : env) (messages : list json) (x : string) (s : world) :
  PyStr.lower (get_hostname e) = "quasar" ->
  exists msgs s',
    take_shared e messages x s = (Ok msgs, s') /\
    (forall v, v ∈ messages -> v ∈ msgs) /\
    (ticks s <= ticks s')%nat /\
    (forall n, n <> x -> inbox s' !! n = inbox s !! n) /\
    (forall n, inbox s !! n = None -> inbox s' !! n = None) /\
    (forall v t, inbox s !! x = Some (File (Parsed v) t) ->
                 60 * second < clock e (ticks s) - t ->
                 v ∈ msgs /\ inbox s' !! x = None).
Proof.
  intros Hq. unfold take_shared, try_all. unfold bind at 1. unfold stat_mtime. cbn [entries].
  destruct (inbox s !! x) as [fx|] eqn:Hx.
  2: { eexists _, s. split; [reflexivity|]. split; [done|]. split; [lia|].
       split; [done|]. by split. }
  unfold bind at 1. unfold time_time.
  destruct (Z.ltb_spec (60 * second) (clock e (ticks s) - f_mtime fx)) as [Hage|Hage].
  2: { eexists _, (tick s). split; [reflexivity|]. split; [done|]. split; [cbn; lia|].
       split; [done|]. split; [done|]. intros v t [= ->] ?. cbn in Hage. lia. }
  unfold bind at 1. unfold is_primary. rewrite Hq. cbn [String.eqb Ascii.eqb Bool.eqb].
  unfold ret at 1. unfold bind at 1. unfold read_json. cbn [entries tick inbox]. rewrite Hx.
  destruct fx as [[v|] t].
  2: { eexists _, (tick s). split; [reflexivity|]. split; [done|]. split; [cbn; lia|].
       split; [done|]. split; [done|]. intros v t' [=]. }
  unfold bind, unlink, ret. cbn [entries tick inbox]. rewrite Hx.
  eexists _, _. split; [reflexivity|]. cbn [set_entries comms ticks inbox tick].
  split; [intros v' Hv'; apply elem_of_app; by left|]. split; [lia|].
  split; [intros n Hne; by rewrite lookup_delete_ne|].
  split; [intros n Hn; by apply lookup_delete_None; right|].
  intros v' t' [= -> ->] _. split; [apply elem_of_app; right; by left|].
  apply lookup_delete_eq.
Qed.

Lemma quasar_loop (e : env) (l : list string) :
  PyStr.lower (get_hostname e) = "quasar" ->
  NoDup l ->
  forall (messages : list json) (s : world),
    exists msgs s',
      for_each (take_shared e) messages l s = (Ok msgs, s') /\
      (forall v, v ∈ messages -> v ∈ msgs) /\
      (ticks s <= ticks s')%nat /\
      (forall n, inbox s !! n = None -> inbox s' !! n = None) /\
      (forall n v t, n ∈ l -> inbox s !! n = Some (File (Parsed v) t) ->
         (forall k, (ticks s <= k)%nat -> 60 * second < clock e k - t) ->
         v ∈ msgs /\ inbox s' !! n = None).
Proof.
  intros Hq. induction 1 as [|x l Hx Hl IH]; intros messages s.
  - exists messages, s. split; [done|]. split; [done|]. split; [lia|]. split; [done|].
    intros n v t Hn. by apply elem_of_nil in Hn.
  - rewrite for_each_cons.
    destruct (take_shared_quasar e messages x s Hq)
      as (acc & s1 & -> & Hacc1 & Ht1 & Hframe1 & Hnone1 & Htake1).
    destruct (IH acc s1) as (msgs & s' & -> & Hacc & Ht & Hnone & Htake).
    exists msgs, s'. split; [done|]. split; [by auto|]. split; [lia|]. split; [by auto|].
    intros n v t [->|Hn]%elem_of_cons Hsn Hold.
    + destruct (Htake1 v t Hsn) as [Hv Hgone]; [apply Hold; lia|]. by auto.
    + apply (Htake n v t); [done| |intros k Hk; apply Hold; lia].
      rewrite Hframe1; [done|]. by intros ->.
Qed.

(** X7.  Quasar is always primary: its channel poll takes every item of the
    shared slot that parses and is more than 60 seconds old at every
    reading of the clock, returns its document and removes the file, and it
    does so without looking at the presence store. *)
Theorem quasar_takes_stale_items (e : env) (w : world) (n : string) (v : json) (t : Z) :
  PyStr.lower (get_hostname e) = "quasar" ->
  host_ident (agent_identity e) = true ->
  PyStr.lower (agent_identity e) <> "antigravity" ->
  glob_star (os_nt e) "Antigravity_" ".json" n = true ->
  inbox w !! n = Some (File (Parsed v) t) ->
  (forall k, (ticks w <= k)%nat -> 60 * second < clock e k - t) ->
  exists msgs w',
    listen_for_telegram_messages e w = (Ok msgs, w') /\
    v ∈ msgs /\ inbox w' !! n = None.
Proof.
  intros Hq Hid Hag Hn Hf Hold.
  unfold listen_for_telegram_messages. unfold bind at 1.
  destruct (priority_pass_spec e w) as (msgs0 & w1 & Hrun & Hframe & _).
  pose proof (priority_pass_clock e w) as [Ht1 _].
  rewrite Hrun in Ht1 |- *. cbn [snd] in Ht1.
  destruct (String.eqb_spec (PyStr.lower (agent_identity e)) "antigravity") as [|_]; [done|].
  unfold fallback_pass, glob, bind. cbn [entries].
  assert (inbox w1 !! n = Some (File (Parsed v) t)) as Hf1.
  { rewrite Hframe; [done|]. unfold own. by apply shared_not_own. }
  destruct (quasar_loop e (filter (fun n => glob_star (os_nt e) "Antigravity_" ".json" n)
                                  (names (inbox w1))) Hq) with (messages := msgs0) (s := w1)
    as (msgs & w' & -> & _ & _ & _ & Htake).
  { apply NoDup_filter, NoDup_fst_map_to_list. }
  exists msgs, w'. split; [done|].
  apply (Htake n v t); [|done|intros k Hk; apply Hold; lia].
  apply list_elem_of_filter. split; [by apply Is_true_true|].
  unfold names. apply list_elem_of_fmap. exists (n, File (Parsed v) t).
  split; [done|]. by apply elem_of_map_to_list.
Qed.

Lemma quasar_takes_stale_items_witness :
  exists msgs w',
    listen_for_telegram_messages (frozen_env 1000000000 "Quasar") sample_slot = (Ok msgs, w') /\
    JObj [("text", JStr "status"); ("timestamp", JFloat 939000000)] ∈ msgs /\
    inbox w' !! "Antigravity_939000.json" = None.
Proof.
  apply (quasar_takes_stale_items (frozen_env 1000000000 "Quasar") sample_slot
           "Antigravity_939000.json" _ 939000000);
    [reflexivity | reflexivity | by vm_compute | reflexivity | reflexivity |].
  intros k _. by vm_compute.
Defined.

(** X8.  The IDE agent, whose identity is Antigravity in any letter case,
    takes the items under its own name at once: its channel poll returns
    the document of every such file that parses and removes the file
    without reading the clock or the presence store, and it touches no
    other file of the inbox. *)
Theorem ide_agent_takes_at_once (e : env) (w : world) :
  PyStr.lower (agent_identity e) = "antigravity" ->
  exists msgs w',
    listen_for_telegram_messages e w = (Ok msgs, w') /\
    ticks w' = ticks w /\ comms w' = comms w /\
    (forall n v t, own e n = true -> inbox w !! n = Some (File (Parsed v) t) ->
                   v ∈ msgs /\ inbox w' !! n = None) /\
    (forall n, own e n = false -> inbox w' !! n = inbox w !! n).
Proof.
  intros Hag. unfold listen_for_telegram_messages. unfold bind at 1.
  destruct (priority_pass_spec e w) as (msgs & w1 & Hrun & Hframe & Htake).
  pose proof (priority_pass_clock e w) as [Ht1 Hc1].
  rewrite Hrun in Ht1, Hc1 |- *. cbn [snd] in Ht1, Hc1.
  rewrite Hag. exists msgs, w1.
  split; [reflexivity|]. split; [done|]. split; [done|]. split; [exact Htake|exact Hframe].
Qed.

Lemma ide_agent_takes_at_once_witness :
  exists msgs w',
    listen_for_telegram_messages (sample_agent "Antigravity" "desktop") sample_slot
    = (Ok msgs, w') /\
    ticks w' = ticks sample_slot /\ comms w' = comms sample_slot /\
    (forall n v t, own (sample_agent "Antigravity" "desktop") n = true ->
                   inbox sample_slot !! n = Some (File (Parsed v) t) ->
                   v ∈ msgs /\ inbox w' !! n = None) /\
    (forall n, own (sample_agent "Antigravity" "desktop") n = false ->
               inbox w' !! n = inbox sample_slot !! n).
Proof.
  apply (ide_agent_takes_at_once (sample_agent "Antigravity" "desktop") sample_slot).
  reflexivity.
Defined.



(** ** The command line *)

(** X10.  A command line that names no command, an unknown command, or a
    command without the arguments it needs ([send] with fewer than three,
    [ping] without a host, [heartbeat] with fewer than two) only prints the
    help: [main] returns 0 and the store is left as it was. *)
Theorem incomplete_command_only_prints_help (e : env) (fuel : nat) (w : world) :
  main e fuel [] w = (Ok 0, w) /\
  (forall args, (List.length args < 3)%nat -> main e fuel ("send" :: args) w = (Ok 0, w)) /\
  main e fuel ["ping"] w = (Ok 0, w) /\
  (forall args, (List.length args < 2)%nat ->
                main e fuel ("heartbeat" :: args) w = (Ok 0, w)) /\
  (forall cmd args,
      cmd ∉ ["status"; "send"; "listen"; "ping"; "heartbeat"; "collaborate"] ->
      main e fuel (cmd :: args) w = (Ok 0, w)).
Proof.
  split; [reflexivity|]. split; [|split; [reflexivity|split]].
  - intros [|a [|b [|c args]]] Hlen; try reflexivity. simpl in Hlen. lia.
  - intros [|a [|b args]] Hlen; try reflexivity. simpl in Hlen. lia.
  - intros cmd args Hcmd. rewrite !not_elem_of_cons in Hcmd.
    destruct Hcmd as (H1 & H2 & H3 & H4 & H5 & H6 & _).
    apply String.eqb_neq in H1, H2, H3, H4, H5, H6.
    unfold main. by rewrite H1, H2, H3, H4, H5, H6.
Qed.

Lemma incomplete_command_only_prints_help_witness :
  main (sample_env "wizardpanda") 0 ["send"; "quasar"; "task"] sample_presence
  = (Ok 0, sample_presence).
Proof.
  apply (proj1 (proj2 (incomplete_command_only_prints_help (sample_env "wizardpanda") 0
                         sample_presence)) ["quasar"; "task"]).
  simpl. lia.
Defined.

(** ** The idle agent loop *)

Lemma channel_poll_empty (e : env) (s : world) :
  inbox s = ∅ -> listen_for_telegram_messages e s = (Ok [], s).
Proof.
  intros Hi.
  assert (forall pre, glob e Inbox pre ".json" s = (Ok [], s)) as Hglob.
  { intros pre. unfold glob, names. cbn [entries]. by rewrite Hi, map_to_list_empty. }
  unfold listen_for_telegram_messages, priority_pass. unfold bind at 1. unfold bind at 1.
  rewrite Hglob. cbn [for_each]. unfold ret at 1.
  destruct (String.eqb _ _); [done|].
  unfold fallback_pass, bind. by rewrite Hglob.
Qed.

(** A round of the loop with nothing to handle: the sleep and one
    heartbeat. *)
Lemma idle_cycle (e : env) (s : world) :
  mailbox s = ∅ -> inbox s = ∅ ->
  autonomous_cycle e s =
    if sigint e (ticks s) then (Raise KeyboardInterrupt, s)
    else (Ok tt, (AgentPresence.update e "active" "listening for team tasks" s).2).
Proof.
  intros Hm Hi. unfold autonomous_cycle. unfold bind at 1. rewrite listen_empty by done.
  cbn [for_each]. unfold bind at 1. unfold ret at 1. unfold bind at 1.
  rewrite channel_poll_empty by done.
  cbn [for_each]. unfold bind at 1. unfold ret at 1. unfold bind at 1. unfold time_sleep.
  by destruct (sigint e (ticks s)).
Qed.

Lemma idle_rounds (e : env) (fuel : nat) :
  forall s, mailbox s = ∅ -> inbox s = ∅ ->
    (forall j, (j < fuel)%nat -> sigint e (ticks s + 3 * j)%nat = false) ->
    exists s',
      while_true fuel (autonomous_cycle e) s = (Pending, s') /\
      mailbox s' = ∅ /\ inbox s' = ∅ /\ outbox s' = outbox s /\
      ticks s' = (ticks s + 3 * fuel)%nat /\
      trace s' = trace s ++ replicate fuel EvSync /\
      (forall n, is_Some (comms s !! n) -> is_Some (comms s' !! n)).
Proof.
  induction fuel as [|fuel IH]; intros s Hm Hi Hsig.
  - exists s. split; [done|]. split; [done|]. split; [done|]. split; [done|].
    split; [lia|]. split; [by rewrite app_nil_r|done].
  - cbn [while_true]. unfold bind. rewrite idle_cycle by done.
    pose proof (Hsig 0%nat) as H0. rewrite Nat.mul_0_r, Nat.add_0_r in H0.
    rewrite H0 by lia.
    set (s1 := (AgentPresence.update e "active" "listening for team tasks" s).2).
    assert (ticks s1 = S (S (S (ticks s)))) as Ht1 by reflexivity.
    destruct (IH s1) as (s' & -> & Hm' & Hi' & Ho' & Ht' & Htr' & Hc'); [done|done| |].
    { intros j Hj. rewrite Ht1.
      replace (S (S (S (ticks s))) + 3 * j)%nat with (ticks s + 3 * S j)%nat by lia.
      apply Hsig. lia. }
    exists s'. split; [done|]. split; [done|]. split; [done|]. split; [by rewrite Ho'|].
    split; [lia|]. split.
    + rewrite Htr'. change (trace s1) with (trace s ++ [EvSync]). by rewrite <- app_assoc.
    + intros n Hn. apply Hc'. unfold s1. cbn. apply lookup_insert_is_Some.
      destruct (decide (get_hostname e +:+ ".json" = n)); [by left|by right].
Qed.

Lemma interrupted_rounds (e : env) (k : nat) :
  forall fuel s, (k < fuel)%nat -> mailbox s = ∅ -> inbox s = ∅ ->
    (forall j, (j < k)%nat -> sigint e (ticks s + 3 * j)%nat = false) ->
    sigint e (ticks s + 3 * k)%nat = true ->
    exists s',
      while_true fuel (autonomous_cycle e) s = (Raise KeyboardInterrupt, s') /\
      mailbox s' = ∅ /\ inbox s' = ∅ /\ outbox s' = outbox s /\
      trace s' = trace s ++ replicate k EvSync.
Proof.
  induction k as [|k IH]; intros fuel s Hk Hm Hi Hsig Hint.
  - destruct fuel as [|fuel]; [lia|]. cbn [while_true]. unfold bind.
    rewrite idle_cycle by done.
    rewrite Nat.mul_0_r, Nat.add_0_r in Hint. rewrite Hint.
    exists s. split; [done|]. split; [done|]. split; [done|]. split; [done|].
    by rewrite app_nil_r.
  - destruct fuel as [|fuel]; [lia|]. cbn [while_true]. unfold bind.
    rewrite idle_cycle by done.
    pose proof (Hsig 0%nat) as H0. rewrite Nat.mul_0_r, Nat.add_0_r in H0.
    rewrite H0 by lia.
    set (s1 := (AgentPresence.update e "active" "listening for team tasks" s).2).
    assert (ticks s1 = S (S (S (ticks s)))) as Ht1 by reflexivity.
    destruct (IH fuel s1) as (s' & -> & Hm' & Hi' & Ho' & Htr'); [lia|done|done| | |].
    { intros j Hj. rewrite Ht1.
      replace (S (S (S (ticks s))) + 3 * j)%nat with (ticks s + 3 * S j)%nat by lia.
      apply Hsig. lia. }
    { rewrite Ht1.
      by replace (S (S (S (ticks s))) + 3 * k)%nat with (ticks s + 3 * S k)%nat by lia. }
    exists s'. split; [done|]. split; [done|]. split; [done|]. split; [by rewrite Ho'|].
    rewrite Htr'. change (trace s1) with (trace s ++ [EvSync]).
    by rewrite <- app_assoc.
Qed.

Lemma autonomous_loop_entry (e : env) (fuel : nat) (w : world) :
  autonomous_loop e fuel w =
    try_interrupt (while_true fuel (autonomous_cycle e)) (ret tt)
      (AgentPresence.update e "active" "autonomous collaboration" w).2.
Proof. reflexivity. Qed.

(** X11.  With an empty mailbox and an empty channel inbox, and while no
    interrupt arrives, the agent loop does not end: after any number of
    rounds it is still running, it has written its presence record and
    started one replication on entry and once per round, and it has left
    mailbox, inbox and outbox as they were. *)
Theorem idle_loop_keeps_beating (e : env) (fuel : nat) (w : world) :
  mailbox w = ∅ -> inbox w = ∅ ->
  (forall k, sigint e k = false) ->
  let out := autonomous_loop e fuel w in
  out.1 = Pending /\
  trace out.2 = trace w ++ replicate (S fuel) EvSync /\
  ticks out.2 = (ticks w + 3 * S fuel)%nat /\
  mailbox out.2 = ∅ /\ inbox out.2 = ∅ /\ outbox out.2 = outbox w /\
  is_Some (comms out.2 !! (get_hostname e +:+ ".json")).
Proof.
  intros Hm Hi Hsig. cbv zeta. rewrite autonomous_loop_entry.
  set (s0 := (AgentPresence.update e "active" "autonomous collaboration" w).2).
  destruct (idle_rounds e fuel s0) as (s' & Hrun & Hm' & Hi' & Ho' & Ht' & Htr' & Hc');
    [done|done|intros; apply Hsig|].
  unfold try_interrupt. rewrite Hrun. cbn [fst snd].
  split; [done|]. split.
  { rewrite Htr'. change (trace s0) with (trace w ++ [EvSync]). by rewrite <- app_assoc. }
  split; [rewrite Ht'; change (ticks s0) with (S (S (S (ticks w)))); lia|].
  split; [done|]. split; [done|]. split; [by rewrite Ho'|].
  apply Hc'. eexists. apply lookup_insert_eq.
Qed.

Lemma idle_loop_keeps_beating_witness :
  let out := autonomous_loop (sample_env "wizardpanda") 3 empty_world in
  out.1 = Pending /\
  trace out.2 = trace empty_world ++ replicate 4 EvSync /\
  ticks out.2 = (ticks empty_world + 3 * 4)%nat /\
  mailbox out.2 = ∅ /\ inbox out.2 = ∅ /\ outbox out.2 = outbox empty_world /\
  is_Some (comms out.2 !! (get_hostname (sample_env "wizardpanda") +:+ ".json")).
Proof.
  apply (idle_loop_keeps_beating (sample_env "wizardpanda") 3 empty_world); reflexivity.
Defined.

(** X12.  An interrupt from the keyboard that arrives during the sleep of
    round [k + 1] of an idle agent loop ends the loop normally: the
    exception is caught, the loop returns, and the only replications it has
    started are the one on entry and one for each of the [k] rounds that
    were completed. *)
Theorem interrupt_ends_idle_loop (e : env) (fuel k : nat) (w : world) :
  mailbox w = ∅ -> inbox w = ∅ ->
  (k < fuel)%nat ->
  (forall j, (j < k)%nat -> sigint e (ticks w + 3 * S j)%nat = false) ->
  sigint e (ticks w + 3 * S k)%nat = true ->
  let out := autonomous_loop e fuel w in
  out.1 = Ok tt /\
  trace out.2 = trace w ++ replicate (S k) EvSync /\
  mailbox out.2 = ∅ /\ inbox out.2 = ∅ /\ outbox out.2 = outbox w.
Proof.
  intros Hm Hi Hk Hsig Hint. cbv zeta. rewrite autonomous_loop_entry.
  set (s0 := (AgentPresence.update e "active" "autonomous collaboration" w).2).
  assert (ticks s0 = S (S (S (ticks w)))) as Ht0 by reflexivity.
  destruct (interrupted_rounds e k fuel s0) as (s' & Hrun & Hm' & Hi' & Ho' & Htr');
    [done|done|done| | |].
  { intros j Hj. rewrite Ht0.
    replace (S (S (S (ticks w))) + 3 * j)%nat with (ticks w + 3 * S j)%nat by lia.
    by apply Hsig. }
  { rewrite Ht0.
    by replace (S (S (S (ticks w))) + 3 * k)%nat with (ticks w + 3 * S k)%nat by lia. }
  unfold try_interrupt. rewrite Hrun. cbn [fst snd ret].
  split; [done|]. split.
  { rewrite Htr'. change (trace s0) with (trace w ++ [EvSync]). by rewrite <- app_assoc. }
  split; [done|]. split; [done|]. by rewrite Ho'.
Qed.

Lemma interrupt_ends_idle_loop_witness :
  let e := Env false None "wizardpanda" (fun n => 1000000000 + 100 * Z.of_nat n)
             (fun _ => "now") (fun _ => "") false (fun _ w => (Output "ok", w))
             (fun n => (n =? 6)%nat) in
  let out := autonomous_loop e 5 empty_world in
  out.1 = Ok tt /\
  trace out.2 = trace empty_world ++ replicate 2 EvSync /\
  mailbox out.2 = ∅ /\ inbox out.2 = ∅ /\ outbox out.2 = outbox empty_world.
Proof.
  intros e.
  apply (interrupt_ends_idle_loop e 5 1 empty_world); [reflexivity | reflexivity | lia | |].
  - intros j Hj. assert (j = 0%nat) as -> by lia. reflexivity.
  - reflexivity.
Defined.

(** ** The gate and the failures of the inbound poll *)

(** The loop of the gate over records that hold a host name and a
    timestamp as [AgentPresence.update] writes them: it ends normally, and
    with [True] when it has seen a record of Quasar that is less than 120
    seconds old. *)
Lemma primary_seen_loop (e : env) (l : list (string * json)) :
  (forall h d, (h, d) ∈ l -> exists host now,
      py_get d "hostname" (JStr "") = Ok (JStr host) /\
      py_get d "timestamp" (JInt 0) = Ok (JFloat now)) ->
  forall (seen : bool) (s : world),
    exists b s',
      for_each (fun seen '(host, data) =>
          if (seen : bool) then ret true
          else
            name <- lift (py_get data "hostname" (JStr "")) ;;
            is_quasar <- match name with
                         | JStr s => ret (String.eqb (PyStr.lower s) "quasar")
                         | _ => raise AttributeError
                         end ;;
            if (is_quasar : bool) || PyStrMore.contains "window" (PyStr.lower host) then
              now <- time_time e ;;
              ts <- lift (py_get data "timestamp" (JInt 0)) ;;
              stamp <- lift (py_seconds ts) ;;
              ret (now - stamp <? 120 * second)
            else ret false)
        seen l s = (Ok b, s') /\
      (ticks s <= ticks s')%nat /\
      (seen = true -> b = true) /\
      (forall h d host now, (h, d) ∈ l ->
          py_get d "hostname" (JStr "") = Ok (JStr host) -> PyStr.lower host = "quasar" ->
          py_get d "timestamp" (JInt 0) = Ok (JFloat now) ->
          (forall k, (ticks s <= k)%nat -> clock e k - now < 120 * second) -> b = true).
Proof.
  match goal with |- context [for_each ?f] => set (body := f) end.
  induction l as [|[h0 d0] l IH]; intros Hreg seen s.
  - exists seen, s. split; [done|]. split; [lia|]. split; [done|].
    intros h d host now Hin. by apply elem_of_nil in Hin.
  - rewrite for_each_cons.
    assert (forall h d, (h, d) ∈ l -> exists host now,
              py_get d "hostname" (JStr "") = Ok (JStr host) /\
              py_get d "timestamp" (JInt 0) = Ok (JFloat now)) as Hreg'
      by (intros h d Hin; apply (Hreg h d); by right).
    destruct seen.
    { assert (body true (h0, d0) s = (Ok true, s)) as -> by reflexivity.
      destruct (IH Hreg' true s) as (b & s' & -> & Ht & Hb & _).
      exists b, s'. split; [done|]. split; [done|]. split; [done|].
      intros. by apply Hb. }
    destruct (Hreg h0 d0) as (host0 & now0 & Hhost0 & Hnow0); [by left|].
    destruct (String.eqb (PyStr.lower host0) "quasar"
              || PyStrMore.contains "window" (PyStr.lower h0)) eqn:Hcand.
    + assert (body false (h0, d0) s =
              (Ok (clock e (ticks s) - now0 <? 120 * second), tick s)) as ->.
      { unfold body. cbv beta iota. unfold bind, lift, ret, raise, time_time.
        rewrite Hhost0. cbv beta iota. rewrite Hcand. rewrite Hnow0. reflexivity. }
      destruct (IH Hreg' (clock e (ticks s) - now0 <? 120 * second) (tick s))
        as (b & s' & -> & Ht & Hb & Hfresh).
      cbn [ticks tick] in Ht, Hfresh.
      exists b, s'. split; [done|]. split; [lia|]. split; [done|].
      intros h d host now [[= -> ->]|Hin]%elem_of_cons Hhost Hq Hnow Hyoung.
      * rewrite Hnow0 in Hnow. injection Hnow as <-. apply Hb.
        apply Z.ltb_lt. apply Hyoung. lia.
      * apply (Hfresh h d host now); try done. intros k Hk. apply Hyoung. lia.
    + assert (body false (h0, d0) s = (Ok false, s)) as ->.
      { unfold body. cbv beta iota. unfold bind, lift, ret, raise, time_time.
        rewrite Hhost0. cbv beta iota. rewrite Hcand. reflexivity. }
      destruct (IH Hreg' false s) as (b & s' & -> & Ht & Hb & Hfresh).
      exists b, s'. split; [done|]. split; [done|]. split; [done|].
      intros h d host now [[= -> ->]|Hin]%elem_of_cons Hhost Hq Hnow Hyoung.
      * rewrite Hhost0 in Hhost. injection Hhost as <-.
        rewrite Hq in Hcand. done.
      * by apply (Hfresh h d host now).
Qed.

(** X13.  A bridge on a host that is not Windows defers to Quasar: when the
    presence records it sees hold a host name and a timestamp, and one of
    them is a record of Quasar less than 120 seconds old, [poll_telegram]
    returns before it asks the endpoint: whatever the endpoint would have
    answered, the configuration is returned as it was, and the files and
    the trace are left as they were, so that nothing is routed and the
    cursor does not move. *)
Theorem posix_bridge_defers_to_quasar (e : env) (api : Z -> response)
    (config : bridge_config) (w : world) (h : string) (d : json) (host : string) (now : Z) :
  os_nt e = false ->
  (forall h d, (h, d) ∈ remote_records e w -> exists host now,
      py_get d "hostname" (JStr "") = Ok (JStr host) /\
      py_get d "timestamp" (JInt 0) = Ok (JFloat now)) ->
  (h, d) ∈ remote_records e w ->
  py_get d "hostname" (JStr "") = Ok (JStr host) ->
  PyStr.lower host = "quasar" ->
  py_get d "timestamp" (JInt 0) = Ok (JFloat now) ->
  (forall k, (ticks w <= k)%nat -> clock e k - now < 120 * second) ->
  exists w', poll_telegram e api config w = (Ok config, w') /\ quiet w w'.
Proof.
  intros Hnt Hreg Hin Hhost Hq Hnow Hyoung.
  pose proof (poll_gate_quiet e w) as Hquiet.
  assert ((poll_gate e w).1 = Ok true) as Hgate.
  { unfold poll_gate. rewrite Hnt. unfold primary_seen. unfold bind at 1.
    rewrite get_remote_status_reads.
    destruct (primary_seen_loop e (remote_records e w) Hreg false w)
      as (b & s' & -> & _ & _ & Hfresh).
    cbn [fst]. f_equal. by apply (Hfresh h d host now). }
  unfold poll_telegram. unfold bind at 1.
  destruct (poll_gate e w) as [r w0]. cbn [fst snd] in *. subst r.
  by exists w0.
Qed.

Lemma posix_bridge_defers_to_quasar_witness :
  exists w',
    poll_telegram (frozen_env 990000000 "wizardpanda") (fun _ => Http 200 sample_updates)
      sample_config sample_slot = (Ok sample_config, w') /\
    quiet sample_slot w'.
Proof.
  assert (remote_records (frozen_env 990000000 "wizardpanda") sample_slot =
          [("quasar", JObj [("hostname", JStr "quasar"); ("timestamp", JFloat 880000000)])])
    as Hrec by (vm_compute; reflexivity).
  apply (posix_bridge_defers_to_quasar (frozen_env 990000000 "wizardpanda")
           (fun _ => Http 200 sample_updates) sample_config sample_slot
           "quasar" (JObj [("hostname", JStr "quasar"); ("timestamp", JFloat 880000000)])
           "quasar" 880000000).
  - reflexivity.
  - intros h d Hin. rewrite Hrec in Hin. apply list_elem_of_singleton in Hin.
    injection Hin as -> ->. exists "quasar", 880000000. split; reflexivity.
  - rewrite Hrec. by left.
  - reflexivity.
  - reflexivity.
  - reflexivity.
  - intros k _. vm_compute. reflexivity.
Defined.

(** X14.  A poll that fails changes nothing: when the request raises, or
    the endpoint answers with a status other than 200, [poll_telegram]
    leaves the files and the trace as they were (no instruction is routed
    and the cursor is not saved), and if it returns a configuration it is
    the one it was given, so that the same offset is asked for again. *)
Theorem failed_poll_changes_nothing (e : env) (api : Z -> response)
    (config : bridge_config) (w : world) :
  (api (default 0 (last_update_id config) + 1) = NetworkError \/
   exists status updates,
     api (default 0 (last_update_id config) + 1) = Http status updates /\ status <> 200) ->
  let out := poll_telegram e api config w in
  quiet w out.2 /\
  (forall c, out.1 = Ok c -> c = config) /\
  ((poll_gate e w).1 = Ok false -> out.1 = Ok config).
Proof.
  intros Hapi. cbv zeta.
  pose proof (poll_gate_quiet e w) as Hquiet.
  destruct (poll_telegram e api config w) as [r w'] eqn:Hrun. cbn [fst snd].
  unfold poll_telegram in Hrun. unfold bind at 1 in Hrun.
  destruct (poll_gate e w) as [[[|]|ex|] w0]; cbn [fst snd] in *.
  - unfold ret in Hrun. injection Hrun as <- <-.
    split; [done|]. split; [by intros c [= <-]|done].
  - unfold try_exception in Hrun.
    destruct Hapi as [Ha|(status & updates & Ha & Hstatus)]; rewrite Ha in Hrun.
    + cbn in Hrun. injection Hrun as <- <-.
      split; [done|]. split; [by intros c [= <-]|done].
    + destruct (Z.eqb_spec status 200) as [|_]; [done|].
      cbn in Hrun. injection Hrun as <- <-.
      split; [done|]. split; [by intros c [= <-]|done].
  - injection Hrun as <- <-. split; [done|]. split; [intros c [=]|done].
  - injection Hrun as <- <-. split; [done|]. split; [intros c [=]|done].
Qed.

Lemma failed_poll_changes_nothing_witness :
  let out := poll_telegram (sample_env "quasar") (fun _ => Http 409 sample_updates)
               sample_config empty_world in
  quiet empty_world out.2 /\
  (forall c, out.1 = Ok c -> c = sample_config) /\
  ((poll_gate (sample_env "quasar") empty_world).1 = Ok false -> out.1 = Ok sample_config).
Proof.
  apply (failed_poll_changes_nothing (sample_env "quasar") (fun _ => Http 409 sample_updates)
           sample_config empty_world).
  right. exists 409, sample_updates. split; [reflexivity|lia].
Defined.

(** ** What a replication cycle reports *)

(** X15.  What a cycle reports is decided by the last call it started.  If
    [ensure_rules_links] raises, the exception leaves [sync] and nothing is
    printed.  Otherwise, if the last call returned, all six calls were
    started, [sync] returns and prints one line, [Sync complete]; if the
    last call raised an [Exception], [sync] returns all the same and
    prints one line, [Sync failed] with that exception; an interrupt from
    the keyboard leaves [sync] and nothing is printed. *)
Theorem sync_reports_last_call (oracle : NSync.step -> NSync.step_outcome) :
  let out := NSync.sync oracle NSync.fresh in
  match oracle NSync.EnsureRulesLinks with
  | NSync.Raised ex =>
      out = (Raise ex, NSync.RunState [NSync.EnsureRulesLinks] [])
  | NSync.Returned _ =>
      match List.last (oracle <$> NSync.started out.2) (NSync.Returned 0) with
      | NSync.Returned _ =>
          out = (Ok tt, NSync.RunState NSync.order [NSync.SyncComplete])
      | NSync.Raised ex =>
          if is_Exception ex
          then out.1 = Ok tt /\ NSync.printed out.2 = [NSync.SyncFailed ex]
          else out.1 = Raise ex /\ NSync.printed out.2 = []
      end
  end.
Proof.
  cbv zeta.
  unfold NSync.sync, bind, try_exception, NSync.call, NSync.print, NSync.fresh; simpl.
  destruct (oracle NSync.EnsureRulesLinks) as [c1|ex1] eqn:E1; simpl; [|done].
  destruct (oracle NSync.Chdir) as [c2|ex2] eqn:E2; simpl.
  2: { destruct ex2; simpl; rewrite ?E1, ?E2, ?E3, ?E4, ?E5, ?E6; simpl; split; reflexivity. }
  destruct (oracle NSync.GitAdd) as [c3|ex3] eqn:E3; simpl.
  2: { destruct ex3; simpl; rewrite ?E1, ?E2, ?E3, ?E4, ?E5, ?E6; simpl; split; reflexivity. }
  destruct (oracle NSync.GitCommit) as [c4|ex4] eqn:E4; simpl.
  2: { destruct ex4; simpl; rewrite ?E1, ?E2, ?E3, ?E4, ?E5, ?E6; simpl; split; reflexivity. }
  destruct (oracle NSync.GitPullRebase) as [c5|ex5] eqn:E5; simpl.
  2: { destruct ex5; simpl; rewrite ?E1, ?E2, ?E3, ?E4, ?E5, ?E6; simpl; split; reflexivity. }
  destruct (oracle NSync.GitPush) as [c6|ex6] eqn:E6; simpl.
  2: { destruct ex6; simpl; rewrite ?E1, ?E2, ?E3, ?E4, ?E5, ?E6; simpl; split; reflexivity. }
  rewrite ?E1, ?E2, ?E3, ?E4, ?E5, ?E6. simpl. done.
Qed.

(** ** Debounced cycles *)

(** Events that are ignored, or that come within the debounce interval of
    the last cycle, leave the handler as it is. *)
Lemma settled_events (oracle : NSync.step -> NSync.step_outcome)
    (events : list (Z * Watch.fs_event)) (h : Watch.handler) :
  (forall now ev, (now, ev) ∈ events ->
      Watch.is_directory ev = true \/
      PyStrMore.contains ".git" (Watch.src_path ev) = true \/
      now - Watch.last_sync h <= Watch.debounce) ->
  Watch.dispatch oracle events h = (Ok tt, h).
Proof.
  unfold Watch.dispatch. induction events as [|[now ev] events IH]; intros Hev; [done|].
  rewrite for_each_cons.
  assert (Watch.on_any_event oracle now ev h = (Ok tt, h)) as ->.
  { unfold Watch.on_any_event.
    destruct (Hev now ev) as [->|[Hgit|Hnear]]; [by left|done| |].
    - rewrite Hgit. by rewrite orb_true_r.
    - destruct (_ || _); [done|].
      by destruct (Z.ltb_spec Watch.debounce (now - Watch.last_sync h)); [lia|]. }
  apply IH. intros now' ev' Hin. apply (Hev now' ev'). by right.
Qed.

(** X16.  A burst of events starts one cycle.  The first event that is not
    ignored and comes more than two seconds after the last cycle runs
    [sync] and, when [sync] returns, sets [last_sync] to the reading taken
    before the cycle.  Every further event that is on a directory, has
    [.git] in its path, or is handled within two seconds of that reading
    is dropped: no call is started for it and the handler is left as it
    is. *)
Theorem burst_starts_one_cycle (oracle : NSync.step -> NSync.step_outcome)
    (h : Watch.handler) (t : Z) (ev : Watch.fs_event) (events : list (Z * Watch.fs_event)) :
  Watch.is_directory ev = false ->
  PyStrMore.contains ".git" (Watch.src_path ev) = false ->
  Watch.debounce < t - Watch.last_sync h ->
  (NSync.sync oracle (Watch.cycles h)).1 = Ok tt ->
  (forall now ev', (now, ev') ∈ events ->
      Watch.is_directory ev' = true \/
      PyStrMore.contains ".git" (Watch.src_path ev') = true \/
      now - t <= Watch.debounce) ->
  Watch.dispatch oracle ((t, ev) :: events) h =
    (Ok tt, Watch.Handler t (NSync.sync oracle (Watch.cycles h)).2).
Proof.
  intros Hdir Hgit Hlate Hsync Hrest.
  unfold Watch.dispatch. rewrite for_each_cons.
  assert (Watch.on_any_event oracle t ev h =
          (Ok tt, Watch.Handler t (NSync.sync oracle (Watch.cycles h)).2)) as ->.
  { unfold Watch.on_any_event. rewrite Hdir, Hgit. cbn [orb].
    destruct (Z.ltb_spec Watch.debounce (t - Watch.last_sync h)); [|lia].
    destruct (NSync.sync oracle (Watch.cycles h)) as [r st]. cbn [fst snd] in *.
    by subst r. }
  by apply settled_events.
Qed.

Lemma burst_starts_one_cycle_witness :
  let oracle := fun _ : NSync.step => NSync.Returned 0 in
  Watch.dispatch oracle
    [(5000000, Watch.FsEvent false "notes/a.txt");
     (5400000, Watch.FsEvent false "notes/b.txt");
     (9000000, Watch.FsEvent false ".git/index");
     (7000000, Watch.FsEvent false "notes/a.txt")]
    Watch.new_handler =
  (Ok tt, Watch.Handler 5000000 (NSync.sync oracle (Watch.cycles Watch.new_handler)).2).
Proof.
  intros oracle.
  apply (burst_starts_one_cycle oracle Watch.new_handler 5000000
           (Watch.FsEvent false "notes/a.txt")); [reflexivity | reflexivity | | reflexivity |].
  - vm_compute. reflexivity.
  - intros now ev' Hin. rewrite !elem_of_cons in Hin.
    destruct Hin as [[= -> ->]|[[= -> ->]|[[= -> ->]|Hin]]].
    + right. right. vm_compute. discriminate.
    + right. left. reflexivity.
    + right. right. vm_compute. discriminate.
    + by apply elem_of_nil in Hin.
Defined.

(** A cycle starts with [ensure_rules_links], whatever ran before. *)
Lemma sync_starts_a_call (oracle : NSync.step -> NSync.step_outcome) (st : NSync.run_state) :
  exists rest,
    NSync.started (NSync.sync oracle st).2 =
      NSync.started st ++ NSync.EnsureRulesLinks :: rest.
Proof.
  unfold NSync.sync, bind, try_exception, NSync.call, NSync.print; simpl.
  destruct (oracle NSync.EnsureRulesLinks) as [?|?]; simpl; [|by exists []].
  destruct (oracle NSync.Chdir) as [?|ex]; simpl;
    [|exists [NSync.Chdir]; destruct (is_Exception ex); simpl; by rewrite <- !app_assoc].
  destruct (oracle NSync.GitAdd) as [?|ex]; simpl;
    [|exists [NSync.Chdir; NSync.GitAdd]; destruct (is_Exception ex); simpl;
      by rewrite <- !app_assoc].
  destruct (oracle NSync.GitCommit) as [?|ex]; simpl;
    [|exists [NSync.Chdir; NSync.GitAdd; NSync.GitCommit]; destruct (is_Exception ex); simpl;
      by rewrite <- !app_assoc].
  destruct (oracle NSync.GitPullRebase) as [?|ex]; simpl;
    [|exists [NSync.Chdir; NSync.GitAdd; NSync.GitCommit; NSync.GitPullRebase];
      destruct (is_Exception ex); simpl; by rewrite <- !app_assoc].
  exists [NSync.Chdir; NSync.GitAdd; NSync.GitCommit; NSync.GitPullRebase; NSync.GitPush].
  destruct (oracle NSync.GitPush) as [?|ex]; simpl;
    [|destruct (is_Exception ex); simpl]; by rewrite <- !app_assoc.
Qed.

(** X17.  A cycle that raises is not debounced.  When [ensure_rules_links]
    raises, the exception leaves [on_any_event] and [last_sync] keeps its
    old value: no git command has been started, and the next event that is
    not ignored starts a new cycle even when it comes within two seconds. *)
Theorem raising_cycle_is_not_debounced (oracle oracle' : NSync.step -> NSync.step_outcome)
    (h : Watch.handler) (t t' : Z) (ev ev' : Watch.fs_event) (ex : exn) :
  Watch.is_directory ev = false ->
  PyStrMore.contains ".git" (Watch.src_path ev) = false ->
  Watch.is_directory ev' = false ->
  PyStrMore.contains ".git" (Watch.src_path ev') = false ->
  Watch.debounce < t - Watch.last_sync h ->
  t <= t' ->
  oracle NSync.EnsureRulesLinks = NSync.Raised ex ->
  let out := Watch.on_any_event oracle t ev h in
  let next := Watch.on_any_event oracle' t' ev' out.2 in
  out.1 = Raise ex /\
  Watch.last_sync out.2 = Watch.last_sync h /\
  NSync.started (Watch.cycles out.2) =
    NSync.started (Watch.cycles h) ++ [NSync.EnsureRulesLinks] /\
  exists rest,
    NSync.started (Watch.cycles next.2) =
      NSync.started (Watch.cycles out.2) ++ NSync.EnsureRulesLinks :: rest.
Proof.
  intros Hdir Hgit Hdir' Hgit' Hlate Hle Hraise. cbv zeta.
  assert (Watch.on_any_event oracle t ev h =
          (Raise ex, Watch.Handler (Watch.last_sync h)
                       (NSync.RunState (NSync.started (Watch.cycles h) ++ [NSync.EnsureRulesLinks])
                                       (NSync.printed (Watch.cycles h))))) as ->.
  { unfold Watch.on_any_event. rewrite Hdir, Hgit. cbn [orb].
    destruct (Z.ltb_spec Watch.debounce (t - Watch.last_sync h)); [|lia].
    unfold NSync.sync, bind, NSync.call. by rewrite Hraise. }
  cbn [fst snd Watch.last_sync Watch.cycles NSync.started].
  split; [done|]. split; [done|]. split; [done|].
  unfold Watch.on_any_event. rewrite Hdir', Hgit'. cbn [orb Watch.last_sync Watch.cycles].
  destruct (Z.ltb_spec Watch.debounce (t' - Watch.last_sync h)); [|lia].
  match goal with |- context [NSync.sync oracle' ?st] =>
    destruct (sync_starts_a_call oracle' st) as [rest Hrest];
    destruct (NSync.sync oracle' st) as [[[]|ex'|] st'] end;
    cbn [snd Watch.cycles NSync.started] in *; by exists rest.
Qed.

Lemma raising_cycle_is_not_debounced_witness :
  let oracle := fun s => match s with
                         | NSync.EnsureRulesLinks => NSync.Raised OSError
                         | _ => NSync.Returned 0
                         end in
  let ev := Watch.FsEvent false "notes/a.txt" in
  let out := Watch.on_any_event oracle 5000000 ev Watch.new_handler in
  let next := Watch.on_any_event oracle 5000100 ev out.2 in
  out.1 = Raise OSError /\
  Watch.last_sync out.2 = Watch.last_sync Watch.new_handler /\
  NSync.started (Watch.cycles out.2) =
    NSync.started (Watch.cycles Watch.new_handler) ++ [NSync.EnsureRulesLinks] /\
  exists rest,
    NSync.started (Watch.cycles next.2) =
      NSync.started (Watch.cycles out.2) ++ NSync.EnsureRulesLinks :: rest.
Proof.
  intros oracle ev.
  apply (raising_cycle_is_not_debounced oracle oracle Watch.new_handler 5000000 5000100 ev ev
           OSError); try reflexivity.
  vm_compute. discriminate.
Defined.

(** ** The outbox of the channel bridge *)

(** What [send_staged] can change: the staged file itself and the list of
    requests; what leaves it is an [Exception]. *)
Lemma send_staged_frame (e : env) (answer : nat -> post -> post_result)
    (config : bridge_config) (name : string) (st : bridge_state) :
  exists r st',
    send_staged e answer config name st = (r, st') /\
    match r with Ok _ => True | Raise ex => is_Exception ex = true | Pending => False end /\
    store st' = store st /\
    (forall n, n <> name -> buffer st' !! n = buffer st !! n) /\
    (exists more, posts st' = posts st ++ more).
Proof.
  unfold send_staged, bind, load_staged, lift, try_exception, requests_post, remove_staged,
    ret, py_get.
  repeat (case_match; simplify_eq/=);
    eexists _, _; (split; [reflexivity|]); cbn [store buffer posts];
    (split; [done|]); (split; [done|]);
    (split; [intros ? ?; by rewrite ?lookup_delete_ne by done|]);
    first [ by exists [] ; rewrite app_nil_r
          | by eexists
          | eexists; by rewrite <- app_assoc ].
Qed.

(** One round of the loop of [check_outbox]. *)
Lemma check_outbox_file_step (e : env) (answer : nat -> post -> post_result)
    (locked : string -> bool) (config : bridge_config) (name : string) (st : bridge_state) :
  exists st',
    check_outbox_file e answer locked config tt name st = (Ok tt, st') /\
    (forall n, outbox (store st') !! n =
       if bool_decide (n = name) && negb (PyStr.startswith "." name) && negb (locked name)
       then None else outbox (store st) !! n) /\
    (forall n, n <> name -> buffer st' !! n = buffer st !! n) /\
    (comms (store st') = comms (store st) /\ mailbox (store st') = mailbox (store st) /\
     inbox (store st') = inbox (store st) /\ config_file (store st') = config_file (store st) /\
     ticks (store st') = ticks (store st) /\ trace (store st') = trace (store st)) /\
    (exists more, posts st' = posts st ++ more) /\
    (PyStr.startswith "." name = true -> st' = st).
Proof.
  unfold check_outbox_file. destruct (PyStr.startswith "." name) eqn:Hdot.
  { exists st. split; [done|]. split; [intros n; by rewrite andb_false_r|].
    split; [done|]. split; [done|]. split; [by exists []; rewrite app_nil_r|done]. }
  unfold try_exception at 1. unfold bind at 1.
  unfold try_os_error, bind, remove_stale, rename_to_buffer, ret. cbn [store buffer posts].
  destruct (outbox (store st) !! name) as [f|] eqn:Hf.
  - destruct (locked name) eqn:Hl.
    + eexists. split; [reflexivity|]. cbn [store buffer posts].
      split; [intros n; by rewrite andb_false_r|].
      split; [intros n Hn; by rewrite lookup_delete_ne|].
      split; [done|]. split; [by exists []; rewrite app_nil_r|done].
    + match goal with |- context [send_staged e answer config name ?s] =>
        destruct (send_staged_frame e answer config name s)
          as (r & st' & -> & Hr & Hstore & Hbuf & more & Hposts) end.
      cbn [store buffer posts] in Hstore, Hbuf, Hposts.
      assert (match r with
              | Ok a => (Ok a, st')
              | Raise e0 => if is_Exception e0 then (Ok (), st') else (Raise e0, st')
              | Pending => (Pending, st')
              end = (Ok tt, st')) as ->.
      { destruct r as [[]|ex|]; [done| |done]. by rewrite Hr. }
      exists st'. split; [done|]. rewrite Hstore. cbn [set_entries outbox comms mailbox inbox
        config_file ticks trace].
      split.
      { intros n. cbn [negb andb]. rewrite andb_true_r.
        case_bool_decide as Hn; [subst n; apply lookup_delete_eq|].
        by rewrite lookup_delete_ne. }
      split.
      { intros n Hn. rewrite Hbuf by done. rewrite lookup_insert_ne by done.
        by rewrite lookup_delete_ne. }
      split; [done|]. split; [by exists more|done].
  - eexists. split; [reflexivity|]. cbn [store buffer posts].
    split.
    { intros n. destruct (_ && _ && _) eqn:Hc; [|done].
      apply andb_true_iff in Hc as [[Hn%bool_decide_eq_true _]%andb_true_iff _].
      by subst n. }
    split; [intros n Hn; by rewrite lookup_delete_ne|].
    split; [done|]. split; [by exists []; rewrite app_nil_r|done].
Qed.

Lemma check_outbox_loop (e : env) (answer : nat -> post -> post_result)
    (locked : string -> bool) (config : bridge_config) (l : list string) :
  forall st,
    exists st',
      for_each (check_outbox_file e answer locked config) tt l st = (Ok tt, st') /\
      (forall n, outbox (store st') !! n =
         if bool_decide (n ∈ l) && negb (PyStr.startswith "." n) && negb (locked n)
         then None else outbox (store st) !! n) /\
      (forall n, n ∉ l -> buffer st' !! n = buffer st !! n) /\
      (comms (store st') = comms (store st) /\ mailbox (store st') = mailbox (store st) /\
       inbox (store st') = inbox (store st) /\
       config_file (store st') = config_file (store st) /\
       ticks (store st') = ticks (store st) /\ trace (store st') = trace (store st)) /\
      (exists more, posts st' = posts st ++ more) /\
      ((forall n, n ∈ l -> PyStr.startswith "." n = true) -> st' = st).
Proof.
  induction l as [|x l IH]; intros st.
  - exists st. split; [done|]. split; [done|]. split; [done|]. split; [done|].
    split; [by exists []; rewrite app_nil_r|done].
  - rewrite for_each_cons.
    destruct (check_outbox_file_step e answer locked config x st)
      as (st1 & -> & Hout1 & Hbuf1 & Hrest1 & [more1 Hposts1] & Hdot1).
    destruct (IH st1) as (st' & -> & Hout & Hbuf & Hrest & [more Hposts] & Hdot).
    exists st'. split; [done|]. split; [|split; [|split; [|split]]].
    + intros n. rewrite Hout, Hout1.
      destruct (decide (n = x)) as [->|Hne].
      * rewrite (bool_decide_eq_true_2 (x ∈ x :: l)) by (by left).
        rewrite (bool_decide_eq_true_2 (x = x)) by done.
        by destruct (bool_decide (x ∈ l)), (PyStr.startswith "." x), (locked x).
      * rewrite (bool_decide_eq_false_2 (n = x)) by done. cbn [andb].
        rewrite (bool_decide_ext (n ∈ x :: l) (n ∈ l)); [done|].
        rewrite elem_of_cons. tauto.
    + intros n Hn. rewrite Hbuf by (intros ?; apply Hn; by right).
      apply Hbuf1. intros ->. apply Hn. by left.
    + intuition congruence.
    + exists (more1 ++ more). by rewrite Hposts, Hposts1, app_assoc.
    + intros Hall. rewrite Hdot by (intros; apply Hall; by right).
      apply Hdot1, Hall. by left.
Qed.

(** What [check_outbox] does to the outbox, in any state and whatever the
    endpoint answers. *)
Lemma check_outbox_spec (e : env) (answer : nat -> post -> post_result)
    (locked : string -> bool) (config : bridge_config) (st : bridge_state) :
  exists st',
    check_outbox e answer locked config st = (Ok tt, st') /\
    (forall n, outbox (store st') !! n =
       if glob_star (os_nt e) "" ".json" n && negb (PyStr.startswith "." n) && negb (locked n)
       then None else outbox (store st) !! n) /\
    (comms (store st') = comms (store st) /\ mailbox (store st') = mailbox (store st) /\
     inbox (store st') = inbox (store st) /\
     config_file (store st') = config_file (store st) /\
     ticks (store st') = ticks (store st) /\ trace (store st') = trace (store st)) /\
    (exists more, posts st' = posts st ++ more).
Proof.
  unfold check_outbox.
  set (l := filter (fun n => glob_star (os_nt e) "" ".json" n) (names (outbox (store st)))).
  destruct (check_outbox_loop e answer locked config l st)
    as (st' & Hrun & Hout & _ & Hrest & Hposts & _).
  exists st'. split; [done|]. split; [|done].
  intros n. rewrite Hout.
  destruct (glob_star (os_nt e) "" ".json" n) eqn:Hg.
  - destruct (outbox (store st) !! n) as [f|] eqn:Hf; [|by repeat case_match].
    rewrite bool_decide_eq_true_2; [done|].
    unfold l. apply list_elem_of_filter. split; [by rewrite Hg|].
    unfold names. apply list_elem_of_fmap. exists (n, f). split; [done|].
    by apply elem_of_map_to_list.
  - rewrite bool_decide_eq_false_2; [done|].
    unfold l. rewrite list_elem_of_filter. intros [Hm _]. by rewrite Hg in Hm.
Qed.

(** X18.  [check_outbox] drains the outbox whatever the endpoint answers:
    it returns normally, and afterwards the outbox holds no file that
    matches [*.json], does not start with a dot and is not locked; every
    such file has been moved to the staging directory before any request
    was made.  The other files of the outbox and the rest of the shared
    store are left as they were, and the requests posted before are still
    the first of the list. *)
Theorem outbox_is_drained (e : env) (answer : nat -> post -> post_result)
    (locked : string -> bool) (config : bridge_config) (st : bridge_state) :
  exists st',
    check_outbox e answer locked config st = (Ok tt, st') /\
    (forall n, outbox (store st') !! n =
       if glob_star (os_nt e) "" ".json" n && negb (PyStr.startswith "." n) && negb (locked n)
       then None else outbox (store st) !! n) /\
    comms (store st') = comms (store st) /\ mailbox (store st') = mailbox (store st) /\
    inbox (store st') = inbox (store st) /\ config_file (store st') = config_file (store st) /\
    trace (store st') = trace (store st) /\
    (exists more, posts st' = posts st ++ more).
Proof.
  destruct (check_outbox_spec e answer locked config st)
    as (st' & Hrun & Hout & (? & ? & ? & ? & ? & ?) & Hposts).
  exists st'. by repeat split.
Qed.

(** X19.  A staged file is not sent again.  When no file is locked, a
    second [check_outbox] that follows the first without a new
    notification in between does nothing at all, whatever the endpoint
    answered the first time and would answer now: no request is posted and
    the staging directory is left as it is.  A message whose delivery
    failed therefore stays in the staging directory for good. *)
Theorem staged_files_are_not_sent_again (e : env) (answer1 answer2 : nat -> post -> post_result)
    (locked : string -> bool) (config : bridge_config) (st : bridge_state) :
  (forall n, locked n = false) ->
  let st1 := (check_outbox e answer1 locked config st).2 in
  check_outbox e answer2 locked config st1 = (Ok tt, st1).
Proof.
  intros Hfree. cbv zeta.
  destruct (check_outbox_spec e answer1 locked config st) as (st1 & -> & Hout & _).
  cbn [snd]. unfold check_outbox.
  set (l := filter (fun n => glob_star (os_nt e) "" ".json" n) (names (outbox (store st1)))).
  destruct (check_outbox_loop e answer2 locked config l st1) as (st2 & -> & _ & _ & _ & _ & Hdot).
  f_equal. apply Hdot. intros n [Hg Hn]%list_elem_of_filter.
  unfold names in Hn. apply list_elem_of_fmap in Hn as [[n' f] [-> Hf]].
  apply elem_of_map_to_list in Hf. cbn [fst] in *.
  rewrite Hout in Hf. apply Is_true_true in Hg. rewrite Hg, Hfree in Hf. cbn [andb negb] in Hf.
  rewrite andb_true_r in Hf. by destruct (PyStr.startswith "." n').
Qed.

Lemma staged_then_removed (name : string) (f : file) (buf : gmap string file) :
  delete name (<[name := f]> (delete name buf)) = delete name buf.
Proof.
  apply map_eq. intros k. destruct (decide (k = name)) as [->|Hne].
  - by rewrite !lookup_delete_eq.
  - by rewrite !lookup_delete_ne, lookup_insert_ne, lookup_delete_ne.
Qed.

(** What becomes of a staged notification with a sender and a text, as a
    function of what the endpoint answers. *)
Lemma send_staged_result (e : env) (answer : nat -> post -> post_result)
    (config : bridge_config) (name : string) (st : bridge_state)
    (d : list (string * json)) (t : Z) (sender text : string) :
  buffer st !! name = Some (File (Parsed (JObj d)) t) ->
  dict_get "from" d = Some (JStr sender) ->
  dict_get "text" d = Some (JStr text) ->
  text <> "" ->
  let body := outbound_text e (JStr sender) (JStr text) in
  let p := Post (chat_id config) body true in
  let p' := Post (chat_id config) (remove_asterisks body) false in
  let n := List.length (posts st) in
  let unstaged := if os_nt e then buffer st else delete name (buffer st) in
  send_staged e answer config name st =
    (Ok tt,
     match answer n p with
     | Status code =>
         if code =? 200 then BridgeState (store st) unstaged (posts st ++ [p])
         else if code =? 400 then
           match answer (S n) p' with
           | Status _ => BridgeState (store st) unstaged (posts st ++ [p; p'])
           | PostFails => BridgeState (store st) (buffer st) (posts st ++ [p; p'])
           end
         else BridgeState (store st) (buffer st) (posts st ++ [p])
     | PostFails => BridgeState (store st) (buffer st) (posts st ++ [p])
     end).
Proof.
  intros Hbuf Hfrom Htext Hne. cbv zeta.
  unfold send_staged. unfold bind at 1. unfold load_staged. rewrite Hbuf.
  unfold bind at 1. unfold lift at 1. cbn [py_get]. rewrite Hfrom.
  unfold bind at 1. unfold lift at 1. cbn [py_get]. rewrite Htext.
  assert (py_falsy (JStr text) = false) as -> by (by destruct text).
  unfold try_exception. unfold bind at 1. unfold requests_post at 1.
  cbn [posts buffer store].
  destruct (answer (List.length (posts st)) _) as [code|]; [|done].
  destruct (code =? 200).
  { unfold remove_staged. cbn [buffer store posts]. destruct (os_nt e); [done|].
    by rewrite Hbuf. }
  destruct (code =? 400); [|done].
  unfold bind, requests_post, remove_staged, ret. cbn [posts buffer store].
  rewrite length_app. cbn [List.length]. rewrite Nat.add_1_r.
  destruct (answer (S _) _) as [code'|]; [|by rewrite <- app_assoc].
  destruct (os_nt e); [by rewrite <- app_assoc|]. cbn [posts buffer store].
  rewrite Hbuf. by rewrite <- app_assoc.
Qed.

Lemma outbox_file_listed (nt : bool) (msg_id : Z) :
  glob_star nt "" ".json" (outbox_file msg_id) = true /\
  PyStr.startswith "." (outbox_file msg_id) = false.
Proof.
  split; [|reflexivity]. unfold outbox_file.
  replace ("out_" +:+ pretty msg_id +:+ ".json")
    with ("" +:+ ("out_" +:+ pretty msg_id) +:+ ".json")
    by (by rewrite str_app_nil_l, str_app_assoc).
  apply glob_star_intro.
Qed.

(** [check_outbox] after one notification in an outbox that was empty: the
    file is staged and sent. *)
Lemma check_notification (agent e : env) (answer : nat -> post -> post_result)
    (locked : string -> bool) (config : bridge_config) (text : string) (w : world)
    (buf : gmap string file) (ps : list post) :
  outbox w = ∅ ->
  locked (outbox_file (Z.quot (clock agent (ticks w)) 1000)) = false ->
  let name := outbox_file (Z.quot (clock agent (ticks w)) 1000) in
  let doc := JObj [("text", JStr text); ("from", JStr (get_hostname agent));
                   ("timestamp", JFloat (clock agent (S (ticks w))))] in
  let w1 := (notify_user_telegram agent text w).2 in
  outbox w1 = {[name := File (Parsed doc) (clock agent (S (S (ticks w))))]} /\
  check_outbox e answer locked config (BridgeState w1 buf ps) =
    try_exception
      (send_staged e answer config name) (fun _ => ret tt)
      (BridgeState (set_entries Outbox ∅ w1)
                   (<[name := File (Parsed doc) (clock agent (S (S (ticks w))))]>
                      (delete name buf)) ps).
Proof.
  intros Hempty Hfree. cbv zeta.
  set (name := outbox_file (Z.quot (clock agent (ticks w)) 1000)) in *.
  set (file := File _ _).
  set (w1 := (notify_user_telegram agent text w).2).
  assert (outbox w1 = {[name := file]}) as Hbox.
  { unfold w1, notify_user_telegram, bind, time_time, write_json. cbn.
    by rewrite Hempty, insert_empty. }
  split; [done|].
  destruct (outbox_file_listed (os_nt e) (Z.quot (clock agent (ticks w)) 1000))
    as [Hglob Hdot]. fold name in Hglob, Hdot.
  unfold check_outbox. cbn [store]. unfold names. rewrite Hbox, map_to_list_singleton.
  cbn [fmap list_fmap fst]. rewrite filter_cons_True by (by rewrite Hglob).
  rewrite filter_nil. rewrite for_each_cons.
  assert (check_outbox_file e answer locked config () name (BridgeState w1 buf ps) =
          try_exception (send_staged e answer config name) (fun _ => ret tt)
            (BridgeState (set_entries Outbox ∅ w1) (<[name := file]> (delete name buf)) ps))
    as ->.
  { unfold check_outbox_file. rewrite Hdot.
    unfold try_exception. unfold bind at 1.
    unfold try_os_error, bind, remove_stale, rename_to_buffer, ret. cbn [store buffer posts].
    rewrite Hbox, lookup_singleton_eq, Hfree. by rewrite delete_singleton_eq. }
  by destruct (try_exception _ _ _) as [[[]|ex|] st'].
Qed.

(** X20.  A notification reaches the endpoint once.  After
    [notify_user_telegram text] in an empty outbox, with a text that is not
    empty, the next [check_outbox] posts one request, for the configured
    chat, in Markdown, whose text is the megaphone, the name of the sender
    between asterisks, a colon, a line break and [text].  When the endpoint
    answers 200 nothing else is posted and the outbox is empty; the staged
    copy is removed on a host that is not Windows, and stays in the staging
    directory on Windows, where a file that is open cannot be removed. *)
Theorem notification_is_delivered_once (agent e : env) (answer : nat -> post -> post_result)
    (locked : string -> bool) (config : bridge_config) (text : string) (w : world)
    (buf : gmap string file) (ps : list post) :
  outbox w = ∅ ->
  text <> "" ->
  locked (outbox_file (Z.quot (clock agent (ticks w)) 1000)) = false ->
  answer (List.length ps)
         (Post (chat_id config) (outbound_text e (JStr (get_hostname agent)) (JStr text)) true)
  = Status 200 ->
  let name := outbox_file (Z.quot (clock agent (ticks w)) 1000) in
  let w1 := (notify_user_telegram agent text w).2 in
  exists st',
    check_outbox e answer locked config (BridgeState w1 buf ps) = (Ok tt, st') /\
    posts st' =
      ps ++ [Post (chat_id config)
                  (megaphone +:+ " *" +:+ get_hostname agent +:+ "*:" +:+ newline +:+ text)
                  true] /\
    outbox (store st') = ∅ /\
    (if os_nt e then is_Some (buffer st' !! name) else buffer st' = delete name buf).
Proof.
  intros Hempty Htext Hfree Hanswer. cbv zeta.
  destruct (check_notification agent e answer locked config text w buf ps Hempty Hfree)
    as [_ ->].
  unfold try_exception.
  erewrite send_staged_result;
    [|apply lookup_insert_eq|reflexivity|reflexivity|done].
  cbn [posts store buffer]. rewrite Hanswer. cbn [Z.eqb Pos.eqb].
  eexists. split; [reflexivity|]. cbn [posts store buffer set_entries outbox].
  split; [done|]. split; [done|].
  destruct (os_nt e).
  - rewrite lookup_insert_eq. by eexists.
  - apply staged_then_removed.
Qed.

Lemma notification_is_delivered_once_witness :
  let agent := sample_env "wizardpanda" in
  let e := sample_env "quasar" in
  let name := outbox_file (Z.quot (clock agent (ticks empty_world)) 1000) in
  let w1 := (notify_user_telegram agent "done" empty_world).2 in
  exists st',
    check_outbox e (fun _ _ => Status 200) (fun _ => false) sample_config
      (BridgeState w1 ∅ []) = (Ok tt, st') /\
    posts st' =
      [] ++ [Post (chat_id sample_config)
                  (megaphone +:+ " *" +:+ get_hostname agent +:+ "*:" +:+ newline +:+ "done")
                  true] /\
    outbox (store st') = ∅ /\
    (if os_nt e then is_Some (buffer st' !! name) else buffer st' = delete name ∅).
Proof.
  intros agent e.
  apply (notification_is_delivered_once agent e (fun _ _ => Status 200) (fun _ => false)
           sample_config "done" empty_world ∅ []); [reflexivity|discriminate|reflexivity..].
Defined.

(** X21.  A request that the endpoint rejects with status 400 is repeated
    once, without [parse_mode] and with every asterisk taken out of the
    text, those of the message included.  On a host that is not Windows
    the staged file is then removed whatever status the second request
    gets: the message is neither in the outbox nor in the staging
    directory afterwards. *)
Theorem markdown_rejection_drops_message (agent e : env)
    (answer : nat -> post -> post_result) (locked : string -> bool) (config : bridge_config)
    (text : string) (w : world) (buf : gmap string file) (ps : list post) (code : Z) :
  os_nt e = false ->
  outbox w = ∅ ->
  text <> "" ->
  locked (outbox_file (Z.quot (clock agent (ticks w)) 1000)) = false ->
  let body := outbound_text e (JStr (get_hostname agent)) (JStr text) in
  answer (List.length ps) (Post (chat_id config) body true) = Status 400 ->
  answer (S (List.length ps)) (Post (chat_id config) (remove_asterisks body) false)
  = Status code ->
  let name := outbox_file (Z.quot (clock agent (ticks w)) 1000) in
  let w1 := (notify_user_telegram agent text w).2 in
  exists st',
    check_outbox e answer locked config (BridgeState w1 buf ps) = (Ok tt, st') /\
    posts st' = ps ++ [Post (chat_id config) body true;
                       Post (chat_id config) (remove_asterisks body) false] /\
    outbox (store st') !! name = None /\ buffer st' !! name = None.
Proof.
  intros Hnt Hempty Htext Hfree. cbv zeta. intros Hfirst Hsecond.
  destruct (check_notification agent e answer locked config text w buf ps Hempty Hfree)
    as [_ ->].
  unfold try_exception.
  erewrite send_staged_result;
    [|apply lookup_insert_eq|reflexivity|reflexivity|done].
  cbn [posts store buffer]. rewrite Hfirst. cbn [Z.eqb Pos.eqb]. rewrite Hsecond, Hnt.
  eexists. split; [reflexivity|]. cbn [posts store buffer set_entries outbox].
  split; [done|]. split; [done|]. apply lookup_delete_eq.
Qed.

Lemma markdown_rejection_drops_message_witness :
  let agent := sample_env "wizardpanda" in
  let e := sample_env "quasar" in
  let answer := fun (n : nat) (_ : post) => if (n =? 0)%nat then Status 400 else Status 500 in
  let body := outbound_text e (JStr (get_hostname agent)) (JStr "2 * 3") in
  let name := outbox_file (Z.quot (clock agent (ticks empty_world)) 1000) in
  let w1 := (notify_user_telegram agent "2 * 3" empty_world).2 in
  exists st',
    check_outbox e answer (fun _ => false) sample_config (BridgeState w1 ∅ []) = (Ok tt, st') /\
    posts st' = [] ++ [Post (chat_id sample_config) body true;
                       Post (chat_id sample_config) (remove_asterisks body) false] /\
    outbox (store st') !! name = None /\ buffer st' !! name = None.
Proof.
  intros agent e answer.
  apply (markdown_rejection_drops_message agent e answer (fun _ => false) sample_config
           "2 * 3" empty_world ∅ [] 500); [reflexivity|reflexivity|discriminate|reflexivity..].
Defined.

Lemma staged_files_are_not_sent_again_witness :
  let agent := sample_env "wizardpanda" in
  let e := sample_env "quasar" in
  let st := BridgeState (notify_user_telegram agent "done" empty_world).2 ∅ [] in
  let st1 := (check_outbox e (fun _ _ => Status 500) (fun _ => false) sample_config st).2 in
  check_outbox e (fun _ _ => Status 200) (fun _ => false) sample_config st1 = (Ok tt, st1).
Proof.
  intros agent e st.
  apply (staged_files_are_not_sent_again e (fun _ _ => Status 500) (fun _ _ => Status 200)
           (fun _ => false) sample_config st).
  reflexivity.
Defined.

(** ** The bridge process *)

(** The loop of the bridge does not end by itself. *)
Lemma serve_never_returns (e : env) (api : nat -> Z -> response)
    (answer : nat -> post -> post_result) (locked : string -> bool) (fuel : nat) :
  forall (round : nat) (config : bridge_config) (st : bridge_state) (code : Z),
    (serve e api answer locked fuel round config st).1 <> Ok code.
Proof.
  induction fuel as [|fuel IH]; intros round config st code; [done|].
  cbn [serve]. unfold bind.
  destruct (in_store _ st) as [[config'|ex|] st1]; [|done..].
  destruct (check_outbox _ _ _ _ st1) as [[[]|ex|] st2]; [|done..].
  destruct (in_store _ st2) as [[[]|ex|] st3]; [|done..].
  apply IH.
Qed.

(** [main] once the singleton check has let it pass: it does not return 0,
    the PID file names the process while the loop runs, and is gone when
    [main] has ended, however it ends. *)
Lemma bridge_main_started (e : env) (own_pid : Z) (api : nat -> Z -> response)
    (answer : nat -> post -> post_result) (locked : string -> bool) (fuel : nat)
    (d : daemon) :
  let out :=
    (write_pid own_pid ;;;
     finally
       (try_exception
          (config <- get_config ;;
           match config with
           | None => ret 1
           | Some c => in_bridge (serve e api answer locked fuel 0 c)
           end)
          (fun _ => ret 1))
       unlink_pid) d in
  out.1 <> Ok 0 /\
  match out.1 with
  | Pending => pid_file out.2 = Some (PidNumber own_pid)
  | _ => pid_file out.2 = None
  end /\
  (config_file (store (bridge d)) = None -> out = (Ok 1, Daemon (bridge d) None)).
Proof.
  cbv zeta. unfold bind at 1. unfold write_pid. unfold finally, try_exception.
  unfold bind, get_config. cbn [bridge pid_file].
  destruct (config_file (store (bridge d))) as [c|]; [|by cbn].
  unfold in_bridge. cbn [bridge pid_file].
  pose proof (serve_never_returns e api answer locked fuel 0%nat c (bridge d)) as Hnever.
  destruct (serve e api answer locked fuel 0 c (bridge d)) as [[code|ex|] st]; cbn [fst] in *.
  - by destruct (Hnever code).
  - destruct (is_Exception ex); cbn; by repeat split.
  - cbn. by repeat split.
Qed.

(** The singleton check: it finds an instance on a host that is not
    Windows when the PID file names a process that answers the probe;
    otherwise the PID file, if there is one, is removed. *)
Lemma already_running_result (e : env) (kill0 : Z -> bool) (d : daemon) :
  already_running e kill0 d =
    if negb (os_nt e) && match pid_file d with Some (PidNumber p) => kill0 p | _ => false end
    then (Ok true, d)
    else (Ok false, Daemon (bridge d) None).
Proof.
  unfold already_running, bind, unlink_pid, ret.
  destruct d as [b [[p|]|]]; cbn [pid_file bridge]; destruct (os_nt e); cbn [negb andb];
    reflexivity.
Qed.

Lemma bridge_main_result (e : env) (kill0 : Z -> bool) (own_pid : Z)
    (api : nat -> Z -> response) (answer : nat -> post -> post_result)
    (locked : string -> bool) (fuel : nat) (d : daemon) :
  bridge_main e kill0 own_pid api answer locked fuel d =
    if negb (os_nt e) && match pid_file d with Some (PidNumber p) => kill0 p | _ => false end
    then (Ok 0, d)
    else
      (write_pid own_pid ;;;
       finally
         (try_exception
            (config <- get_config ;;
             match config with
             | None => ret 1
             | Some c => in_bridge (serve e api answer locked fuel 0 c)
             end)
            (fun _ => ret 1))
         unlink_pid) (Daemon (bridge d) None).
Proof.
  unfold bridge_main. unfold bind at 1. rewrite already_running_result.
  by destruct (_ && _).
Qed.

(** X22.  The singleton check of the bridge on a host that is not Windows:
    [main] returns 0 exactly when the PID file holds a number and the
    process of that number answers the probe, and then it has changed
    nothing: it has made no request, and the PID file is left to the
    process that is running.  A PID file that is missing, holds text that
    is not a number, or names a process that is gone does not stop the
    start. *)
Theorem posix_bridge_singleton (e : env) (kill0 : Z -> bool) (own_pid : Z)
    (api : nat -> Z -> response) (answer : nat -> post -> post_result)
    (locked : string -> bool) (fuel : nat) (d : daemon) :
  os_nt e = false ->
  let out := bridge_main e kill0 own_pid api answer locked fuel d in
  (out.1 = Ok 0 <-> exists p, pid_file d = Some (PidNumber p) /\ kill0 p = true) /\
  (out.1 = Ok 0 -> out.2 = d).
Proof.
  intros Hnt. cbv zeta. rewrite bridge_main_result, Hnt. cbn [negb andb].
  destruct (bridge_main_started e own_pid api answer locked fuel (Daemon (bridge d) None))
    as (Hno & _). cbv zeta in Hno.
  destruct (pid_file d) as [[p|]|] eqn:Hpid.
  - destruct (kill0 p) eqn:Hp.
    + split; [|done]. split; [by exists p|done].
    + split; [|done]. split; [done|]. intros (p' & [= <-] & Hp'). congruence.
  - split; [|done]. split; [done|]. by intros (p' & [=] & _).
  - split; [|done]. split; [done|]. by intros (p' & [=] & _).
Qed.

Lemma posix_bridge_singleton_witness :
  let d := Daemon (BridgeState empty_world ∅ []) (Some (PidNumber 4242)) in
  let out := bridge_main (sample_env "wizardpanda") (fun p => p =? 4242) 77
               (fun _ _ => Http 200 []) (fun _ _ => Status 200) (fun _ => false) 3 d in
  (out.1 = Ok 0 <-> exists p, pid_file d = Some (PidNumber p) /\ (p =? 4242) = true) /\
  (out.1 = Ok 0 -> out.2 = d).
Proof.
  intros d.
  apply (posix_bridge_singleton (sample_env "wizardpanda") (fun p => p =? 4242) 77
           (fun _ _ => Http 200 []) (fun _ _ => Status 200) (fun _ => false) 3 d).
  reflexivity.
Defined.

(** X23.  On Windows the singleton check of the bridge never finds an
    instance: the probe raises before it runs, the PID file is removed as
    stale, and [main] goes on whatever the file held.  It does not return
    0; while its loop runs the PID file names the new process, and when
    [main] has ended the PID file is gone, although the process that wrote
    it first may still be running.  Without a configuration file [main]
    returns 1 at once. *)
Theorem windows_bridge_always_starts (e : env) (kill0 : Z -> bool) (own_pid : Z)
    (api : nat -> Z -> response) (answer : nat -> post -> post_result)
    (locked : string -> bool) (fuel : nat) (d : daemon) :
  os_nt e = true ->
  let out := bridge_main e kill0 own_pid api answer locked fuel d in
  out.1 <> Ok 0 /\
  match out.1 with
  | Pending => pid_file out.2 = Some (PidNumber own_pid)
  | _ => pid_file out.2 = None
  end /\
  (config_file (store (bridge d)) = None -> out = (Ok 1, Daemon (bridge d) None)).
Proof.
  intros Hnt. cbv zeta. rewrite bridge_main_result, Hnt. cbn [negb andb].
  apply (bridge_main_started e own_pid api answer locked fuel (Daemon (bridge d) None)).
Qed.

Lemma windows_bridge_always_starts_witness :
  let e := Env true None "Quasar" (fun n => 1000000000 + 100 * Z.of_nat n) (fun _ => "now")
             (fun _ => "") false (fun _ w => (Output "ok", w)) (fun _ => false) in
  let d := Daemon (BridgeState empty_world ∅ []) (Some (PidNumber 4242)) in
  let out := bridge_main e (fun p => p =? 4242) 77 (fun _ _ => Http 200 [])
               (fun _ _ => Status 200) (fun _ => false) 3 d in
  out.1 <> Ok 0 /\
  match out.1 with
  | Pending => pid_file out.2 = Some (PidNumber 77)
  | _ => pid_file out.2 = None
  end /\
  (config_file (store (bridge d)) = None -> out = (Ok 1, Daemon (bridge d) None)).
Proof.
  intros e d.
  apply (windows_bridge_always_starts e (fun p => p =? 4242) 77 (fun _ _ => Http 200 [])
           (fun _ _ => Status 200) (fun _ => false) 3 d).
  reflexivity.
Defined.

Lemma for_each_raises {S A B} (body : B -> A -> ST S B) (P : exn -> Prop) :
  (forall acc x w ex, (body acc x w).1 = Raise ex -> P ex) ->
  forall l acc w ex, (for_each body acc l w).1 = Raise ex -> P ex.
Proof.
  intros Hbody. induction l as [|x l IH]; intros acc w ex; [done|].
  rewrite for_each_cons. specialize (Hbody acc x w).
  destruct (body acc x w) as [[acc'|ex'|] w1]; cbn [fst] in *.
  - apply IH.
  - intros [= <-]. by apply Hbody.
  - done.
Qed.

(** What the gate of [poll_telegram] raises is an [Exception]. *)
Lemma poll_gate_exception (e : env) (w : world) (ex : exn) :
  (poll_gate e w).1 = Raise ex -> is_Exception ex = true.
Proof.
  unfold poll_gate. destruct (os_nt e); [done|].
  unfold primary_seen. unfold bind at 1. rewrite get_remote_status_reads.
  intros Hr. eapply (for_each_raises _ (fun x => is_Exception x = true)); [|exact Hr].
  clear. intros seen [host data] w ex.
  destruct seen; [done|].
  unfold bind, lift, ret, raise, time_time, py_get, py_seconds.
  repeat (case_match; simplify_eq/=); by intros [= <-].
Qed.

(** X24.  An exception out of [poll_telegram] stops the bridge.  When the
    gate of the poll raises in the first round, as it does on a presence
    record that is not a dictionary, [main] catches the exception outside
    its loop: it returns 1, the PID file is gone, no request has been made
    and the files are as they were. *)
Theorem poll_exception_stops_bridge (e : env) (kill0 : Z -> bool) (own_pid : Z)
    (api : nat -> Z -> response) (answer : nat -> post -> post_result)
    (locked : string -> bool) (fuel : nat) (d : daemon) (c : bridge_config) (ex : exn) :
  pid_file d = None ->
  config_file (store (bridge d)) = Some c ->
  (poll_gate e (store (bridge d))).1 = Raise ex ->
  let out := bridge_main e kill0 own_pid api answer locked (S fuel) d in
  out.1 = Ok 1 /\
  pid_file out.2 = None /\
  posts (bridge out.2) = posts (bridge d) /\
  buffer (bridge out.2) = buffer (bridge d) /\
  quiet (store (bridge d)) (store (bridge out.2)).
Proof.
  intros Hpid Hconfig Hgate. cbv zeta.
  pose proof (poll_gate_exception e _ ex Hgate) as Hex.
  pose proof (poll_gate_quiet e (store (bridge d))) as Hquiet.
  assert (bridge_main e kill0 own_pid api answer locked (S fuel) d =
          (Ok 1, Daemon (BridgeState (poll_gate e (store (bridge d))).2 (buffer (bridge d))
                                     (posts (bridge d))) None)) as ->.
  { rewrite bridge_main_result, Hpid, andb_false_r.
    unfold bind at 1. unfold write_pid. unfold finally, try_exception.
    unfold bind at 1. unfold get_config. cbn [bridge pid_file store]. rewrite Hconfig.
    unfold in_bridge. cbn [bridge pid_file serve]. unfold bind at 1. unfold in_store.
    unfold poll_telegram. unfold bind at 1.
    destruct (poll_gate e (store (bridge d))) as [r w0]. cbn [fst snd] in *. subst r.
    rewrite Hex. reflexivity. }
  cbn [fst snd bridge pid_file posts buffer store].
  split; [done|]. split; [done|]. split; [done|]. split; [done|]. exact Hquiet.
Qed.

Lemma poll_exception_stops_bridge_witness :
  let w := World (<["quasar.json" := File (Parsed (JArr [])) 0]> ∅) ∅ ∅ ∅ (Some sample_config)
                 0 [] in
  let d := Daemon (BridgeState w ∅ []) None in
  let out := bridge_main (sample_env "wizardpanda") (fun _ => false) 77
               (fun _ _ => Http 200 sample_updates) (fun _ _ => Status 200) (fun _ => false)
               1 d in
  out.1 = Ok 1 /\
  pid_file out.2 = None /\
  posts (bridge out.2) = posts (bridge d) /\
  buffer (bridge out.2) = buffer (bridge d) /\
  quiet (store (bridge d)) (store (bridge out.2)).
Proof.
  intros w d.
  apply (poll_exception_stops_bridge (sample_env "wizardpanda") (fun _ => false) 77
           (fun _ _ => Http 200 sample_updates) (fun _ _ => Status 200) (fun _ => false)
           0 d sample_config AttributeError); [reflexivity | reflexivity |].
  vm_compute. reflexivity.
Defined.

(** ** An instruction from the channel, from the bridge to the reply *)



(** ** The links to the rules *)

Lemma ensure_target_twice (h : Links.host) (name : string) (target : Links.node) :
  Links.ensure_target h name (Links.ensure_target h name target) =
  Links.ensure_target h name target.
Proof.
  unfold Links.ensure_target.
  destruct target as [| | |[]], (Links.nt h) eqn:Hnt, (Links.rmtree_ok h name) eqn:Hrm,
    (Links.link_ok h name) eqn:Hln, (Links.source_exists h) eqn:Hsrc;
    cbn; rewrite ?Hnt, ?Hrm, ?Hln, ?Hsrc; cbn; rewrite ?Hnt, ?Hrm, ?Hln, ?Hsrc; reflexivity.
Qed.

Lemma ensure_rules_links_lookup (h : Links.host) (repo : gmap string Links.item)
    (name : string) :
  Links.ensure_rules_links h repo !! name =
    match repo !! name with
    | Some (Links.Directory target) =>
        Some (if negb (PyStr.startswith "." name)
              then Links.Directory (Links.ensure_target h name target)
              else Links.Directory target)
    | Some Links.RegularFile => Some Links.RegularFile
    | None => None
    end.
Proof.
  unfold Links.ensure_rules_links. rewrite map_lookup_imap.
  by destruct (repo !! name) as [[]|].
Qed.

(** X26.  [ensure_rules_links] is a repair that settles in one run: for a
    host whose removals and link creations succeed or fail in the same way
    each time, a second run leaves every entry of the repository as the
    first run left it. *)
Theorem ensure_rules_links_settles (h : Links.host) (repo : gmap string Links.item) :
  Links.ensure_rules_links h (Links.ensure_rules_links h repo) =
  Links.ensure_rules_links h repo.
Proof.
  apply map_eq. intros name. rewrite !ensure_rules_links_lookup.
  destruct (repo !! name) as [[|target]|]; [done| |done].
  destruct (PyStr.startswith "." name); cbn [negb]; [done|].
  by rewrite ensure_target_twice.
Qed.

(** X27.  What [ensure_rules_links] changes and what it leaves.  It adds
    and removes no entry of the repository root, and leaves regular files
    and directories whose name starts with a dot as they are.  In a
    visible project it leaves a regular file and a link, dangling or not,
    under the name of the rules as they are.  A directory of the project's
    own under that name is kept on Windows, where no link is made; on the
    POSIX host it is removed with all it holds and, when the removal and
    the creation succeed, replaced by the link. *)
Theorem ensure_rules_links_effect (h : Links.host) (repo : gmap string Links.item)
    (name : string) :
  (Links.ensure_rules_links h repo !! name = None <-> repo !! name = None) /\
  (repo !! name = Some Links.RegularFile ->
   Links.ensure_rules_links h repo !! name = Some Links.RegularFile) /\
  (forall target,
      repo !! name = Some (Links.Directory target) ->
      PyStr.startswith "." name = true \/ target = Links.PlainFile \/
      (exists resolves, target = Links.Link resolves) ->
      Links.ensure_rules_links h repo !! name = Some (Links.Directory target)) /\
  (repo !! name = Some (Links.Directory Links.RealDir) ->
   PyStr.startswith "." name = false ->
   Links.ensure_rules_links h repo !! name =
     Some (Links.Directory
             (if Links.nt h then Links.RealDir
              else if Links.rmtree_ok h name
                   then if Links.link_ok h name then Links.Link (Links.source_exists h)
                        else Links.Absent
                   else Links.RealDir))).
Proof.
  rewrite ensure_rules_links_lookup. split; [|split; [|split]].
  - by destruct (repo !! name) as [[]|].
  - by intros ->.
  - intros target -> [Hdot|[->|[resolves ->]]].
    + by rewrite Hdot.
    + destruct (PyStr.startswith "." name); cbn [negb]; [done|].
      unfold Links.ensure_target. cbn. by destruct (Links.nt h).
    + destruct (PyStr.startswith "." name); cbn [negb]; [done|].
      unfold Links.ensure_target. cbn. by destruct (Links.nt h), resolves.
  - intros -> Hdot. rewrite Hdot. cbn [negb]. unfold Links.ensure_target. cbn.
    destruct (Links.nt h); cbn; [done|].
    by destruct (Links.rmtree_ok h name), (Links.link_ok h name).
Qed.

Lemma ensure_rules_links_effect_witness :
  let h := Links.Host false true (fun _ => true) (fun _ => true) in
  let repo : gmap string Links.item :=
    <["trivia" := Links.Directory Links.RealDir]>
      (<[".git" := Links.Directory Links.Absent]> (<["README.md" := Links.RegularFile]> ∅)) in
  Links.ensure_rules_links h repo !! "trivia" =
    Some (Links.Directory
            (if Links.nt h then Links.RealDir
             else if Links.rmtree_ok h "trivia"
                  then if Links.link_ok h "trivia" then Links.Link (Links.source_exists h)
                       else Links.Absent
                  else Links.RealDir)).
Proof.
  intros h repo.
  apply (proj2 (proj2 (proj2 (ensure_rules_links_effect h repo "trivia")))); reflexivity.
Defined.
